(** * Operational scripts of the mirai repository, embedded in Rocq

  The four command-line utilities under [scripts/] are embedded
  shallowly, one module per script:

  - [CompareBenchmarks]       : scripts/compare_benchmarks.py
  - [GenerateBenchmarkCharts] : scripts/generate_benchmark_charts.py
  - [GenerateNightlyReport]   : scripts/generate_nightly_report.py
  - [LoadTest]                : scripts/load_test.py

  Conventions.  Where a property is about which measurements are
  compared, what is written or how a run ends, Python numbers are
  idealised as exact rationals ([Q]), with [float('inf')] as a
  constructor of its own.  Where it is about the value a computation
  rounds to (the 5% boundary of the comparator, the coverage ratio),
  numbers are Python's own: integers of any size and IEEE 754 doubles
  ([PyNumber], on the Standard Library's [SpecFloat]).  A Python statement that may raise is a
  computation in the [result] monad, and one that also reads or writes
  files or prints is a computation in [io], which threads the [world].
  Python dictionaries and JSON objects are insertion-ordered association
  lists ([dict]); the file system is a [gmap] from paths to contents.
  What the scripts get from libraries and from their surroundings (the
  JSON decoder, number formatting, plotting, the clock, the server's
  replies) is a parameter of the definitions that use it. *)

From Stdlib Require Import QArith ZArith Lia Bool Ascii String List SpecFloat.
From stdpp Require Import gmap strings list fin_maps pretty.
Import ListNotations.

Local Open Scope string_scope.
Local Open Scope list_scope.

(** ** Python prelude *)

Module Py.

(** The exceptions the scripts can meet.  [SystemExit] is what
    [sys.exit] raises; [CancelledError] stands for the exceptions that
    are not subclasses of [Exception]. *)
Inductive exn : Type :=
| ZeroDivisionError
| KeyError (key : string)
| ValueError (msg : string)
| TypeError
| AttributeError
| FileNotFoundError (path : string)
| SameFileError (src dst : string)
| OverflowError
| JSONDecodeError
| StatisticsError
| CancelledError
| SystemExit (code : Z).

(** [isinstance(e, Exception)]: what [except Exception] catches. *)
Definition is_Exception (e : exn) : bool :=
  match e with
  | SystemExit _ | CancelledError => false
  | _ => true
  end.

(** Outcome of a statement: a value, or a raised exception. *)
Inductive result (A : Type) : Type :=
| Ok (a : A)
| Raise (e : exn).
Arguments Ok {A} a.
Arguments Raise {A} e.

#[global] Instance result_bind : MBind result := fun A B k m =>
  match m with
  | Ok a => k a
  | Raise e => Raise e
  end.

#[global] Instance result_ret : MRet result := fun A a => Ok a.

(** A computation that raises ordinary exceptions only. *)
Definition ordinary {A} (m : result A) : Prop :=
  forall e, m = Raise e -> is_Exception e = true.

(** [[f(x) for x in l]] for an [f] that may raise. *)
Fixpoint traverse {A B} (f : A -> result B) (l : list A) : result (list B) :=
  match l with
  | [] => Ok []
  | x :: l' => y ← f x; ys ← traverse f l'; Ok (y :: ys)
  end.

(** *** Numbers *)

Definition Qltb (x y : Q) : bool := negb (Qle_bool y x).

(** A float the scripts compute: a finite value or [float('inf')]. *)
Inductive pynum : Type :=
| Fin (q : Q)
| PosInf.

(** [x > t], [x < t] and [x * k] for a finite [t] and a positive [k]. *)
Definition num_gtb (x : pynum) (t : Q) : bool :=
  match x with Fin q => Qltb t q | PosInf => true end.

Definition num_ltb (x : pynum) (t : Q) : bool :=
  match x with Fin q => Qltb q t | PosInf => false end.

Definition num_scale (x : pynum) (k : Q) : pynum :=
  match x with Fin q => Fin (q * k)%Q | PosInf => PosInf end.

(** [a / b]: true division raises on a zero divisor. *)
Definition truediv (a b : Q) : result Q :=
  if Qeq_bool b 0 then Raise ZeroDivisionError else Ok (a / b)%Q.

Fixpoint Qsum (l : list Q) : Q :=
  match l with
  | [] => 0%Q
  | x :: l' => (x + Qsum l')%Q
  end.

(** [statistics.mean]: raises on empty data. *)
Definition statistics_mean (l : list Q) : result Q :=
  match l with
  | [] => Raise StatisticsError
  | _ => Ok (Qsum l / inject_Z (Z.of_nat (length l)))%Q
  end.

(** *** Strings *)

(** [str.lower()], on ASCII text. *)
Definition lower_ascii (c : ascii) : ascii :=
  let n := nat_of_ascii c in
  if ((65 <=? n) && (n <=? 90))%nat then ascii_of_nat (n + 32) else c.

Fixpoint lower (s : string) : string :=
  match s with
  | EmptyString => EmptyString
  | String c s' => String (lower_ascii c) (lower s')
  end.

(** [needle in hay] on strings. *)
Fixpoint contains (needle hay : string) : bool :=
  String.prefix needle hay ||
  match hay with
  | EmptyString => false
  | String _ hay' => contains needle hay'
  end.

(** What [in] means: [needle] occurs somewhere inside [hay]. *)
Definition substring_of (needle hay : string) : Prop :=
  exists pre post, hay = pre +:+ needle +:+ post.

(** [sep.join(lines)]. *)
Fixpoint join (sep : string) (lines : list string) : string :=
  match lines with
  | [] => EmptyString
  | [l] => l
  | l :: rest => l +:+ sep +:+ join sep rest
  end.

(** [s.replace(old, new)]: the occurrences of [old] are replaced from
    left to right, without overlap; an empty [old] matches before every
    character and at the end. *)
Fixpoint replace_from (old new s : string) (skip : nat) : string :=
  match s with
  | EmptyString => EmptyString
  | String c s' =>
      match skip with
      | S skip' => replace_from old new s' skip'
      | O =>
          if String.prefix old s then
            new +:+ replace_from old new s' (String.length old - 1)
          else String c (replace_from old new s' 0)
      end
  end.

Fixpoint intersperse (new s : string) : string :=
  match s with
  | EmptyString => new
  | String c s' => new +:+ String c (intersperse new s')
  end.

Definition replace (old new s : string) : string :=
  match old with
  | EmptyString => intersperse new s
  | _ => replace_from old new s 0
  end.

(** The double-quote character, and a text in which each backquote
    stands for a double quote. *)
Definition dquote : ascii := ascii_of_nat 34.

Fixpoint requote (s : string) : string :=
  match s with
  | EmptyString => EmptyString
  | String c s' =>
      String (if Ascii.eqb c (ascii_of_nat 96) then dquote else c) (requote s')
  end.

(** *** Insertion-ordered dictionaries with string keys *)

Definition dict (V : Type) : Type := list (string * V).

Fixpoint dict_get {V} (d : dict V) (k : string) : option V :=
  match d with
  | [] => None
  | (k', v) :: d' => if String.eqb k' k then Some v else dict_get d' k
  end.

(** [d[k] = v]: an existing key keeps its position. *)
Fixpoint dict_set {V} (d : dict V) (k : string) (v : V) : dict V :=
  match d with
  | [] => [(k, v)]
  | (k', v') :: d' =>
      if String.eqb k' k then (k', v) :: d' else (k', v') :: dict_set d' k v
  end.

(** *** JSON documents, as [json.load] returns them *)

#[local] Unset Elimination Schemes.
Inductive json : Type :=
| JNull
| JBool (b : bool)
| JNum (q : Q)
| JStr (s : string)
| JArr (items : list json)
| JObj (members : dict json).
#[local] Set Elimination Schemes.

(** [obj[key]]. *)
Definition subscript (obj : json) (key : string) : result json :=
  match obj with
  | JObj members =>
      match dict_get members key with
      | Some v => Ok v
      | None => Raise (KeyError key)
      end
  | _ => Raise TypeError
  end.

(** [obj.get(key, default)]. *)
Definition get_default (obj : json) (key : string) (default : json) : result json :=
  match obj with
  | JObj members => Ok (match dict_get members key with Some v => v | None => default end)
  | _ => Raise AttributeError
  end.

(** Typed views of a JSON value.  A value of another JSON type raises
    [TypeError] here; Python would carry it along and fail, if at all, at
    its first use. *)
Definition as_str (j : json) : result string :=
  match j with JStr s => Ok s | _ => Raise TypeError end.

Definition as_num (j : json) : result Q :=
  match j with JNum q => Ok q | _ => Raise TypeError end.

Definition as_bool (j : json) : result bool :=
  match j with JBool b => Ok b | _ => Raise TypeError end.

Definition as_list (j : json) : result (list json) :=
  match j with JArr l => Ok l | _ => Raise TypeError end.

(** *** [str.format]

    The format string is read left to right: [{{] and [}}] stand for a
    brace, [{field}] is replaced by the keyword argument the field
    names.  A field is split at its first [:] or [!] into the argument
    name and the format specification.  Positional, attribute and index
    fields do not occur in the scripts and are not modelled. *)

Inductive token : Type :=
| TLit (text : string)
| TField (raw : string)
| TError (msg : string).

Inductive lex_state : Type :=
| Text (acc : string)
| Open (acc : string)
| Close (acc : string)
| InField (acc : string) (depth : nat).

Definition snoc_char (s : string) (c : ascii) : string := s +:+ String c EmptyString.

Definition lbrace : ascii := ascii_of_nat 123.
Definition rbrace : ascii := ascii_of_nat 125.

Fixpoint lex (s : string) (st : lex_state) : list token :=
  match s with
  | EmptyString =>
      match st with
      | Text acc => [TLit acc]
      | Open acc => [TLit acc; TError "Single '{' encountered in format string"]
      | Close acc => [TLit acc; TError "Single '}' encountered in format string"]
      | InField _ _ => [TError "expected '}' before end of string"]
      end
  | String c s' =>
      match st with
      | Text acc =>
          if Ascii.eqb c lbrace then lex s' (Open acc)
          else if Ascii.eqb c rbrace then lex s' (Close acc)
          else lex s' (Text (snoc_char acc c))
      | Open acc =>
          if Ascii.eqb c lbrace then lex s' (Text (snoc_char acc c))
          else if Ascii.eqb c rbrace then
            TLit acc :: TField EmptyString :: lex s' (Text EmptyString)
          else TLit acc :: lex s' (InField (String c EmptyString) 0)
      | Close acc =>
          if Ascii.eqb c rbrace then lex s' (Text (snoc_char acc c))
          else [TLit acc; TError "Single '}' encountered in format string"]
      | InField acc depth =>
          if Ascii.eqb c lbrace then lex s' (InField (snoc_char acc c) (S depth))
          else if Ascii.eqb c rbrace then
            match depth with
            | O => TField acc :: lex s' (Text EmptyString)
            | S depth' => lex s' (InField (snoc_char acc c) depth')
            end
          else lex s' (InField (snoc_char acc c) depth)
      end
  end.

(** Argument name and format specification of a field. *)
Fixpoint split_field (raw : string) : string * string :=
  match raw with
  | EmptyString => (EmptyString, EmptyString)
  | String c raw' =>
      if Ascii.eqb c (ascii_of_nat 58) || Ascii.eqb c (ascii_of_nat 33) then
        (EmptyString, raw)
      else
        let '(name, spec) := split_field raw' in (String c name, spec)
  end.

Section Format.

(** [format(value, spec)] for one value. *)
Variable format_value : json -> string -> string.

Fixpoint render (tokens : list token) (kwargs : dict json) : result string :=
  match tokens with
  | [] => Ok EmptyString
  | TLit text :: rest =>
      tail ← render rest kwargs; Ok (text +:+ tail)
  | TField raw :: rest =>
      let '(name, spec) := split_field raw in
      match dict_get kwargs name with
      | None => Raise (KeyError name)
      | Some value =>
          tail ← render rest kwargs; Ok (format_value value spec +:+ tail)
      end
  | TError msg :: _ => Raise (ValueError msg)
  end.

(** [str.format] with keyword arguments [kwargs]. *)
Definition format (template : string) (kwargs : dict json) : result string :=
  render (lex template (Text EmptyString)) kwargs.

End Format.

(** *** Truth value and length of a value *)

(** [bool(v)]. *)
Definition truthy (v : json) : bool :=
  match v with
  | JNull => false
  | JBool b => b
  | JNum q => negb (Qeq_bool q 0)
  | JStr s => negb (String.eqb s EmptyString)
  | JArr items => match items with [] => false | _ => true end
  | JObj members => match members with [] => false | _ => true end
  end.

(** [v == 0]. *)
Definition eq_zero (v : json) : bool :=
  match v with
  | JNum q => Qeq_bool q 0
  | JBool b => negb b
  | _ => false
  end.

(** [len(v)]. *)
Definition len (v : json) : result nat :=
  match v with
  | JStr s => Ok (String.length s)
  | JArr items => Ok (length items)
  | JObj members => Ok (length members)
  | _ => Raise TypeError
  end.

(** [s.split(sep)] for a separator of one character. *)
Fixpoint split_on (sep : ascii) (s : string) : list string :=
  match s with
  | EmptyString => [EmptyString]
  | String c s' =>
      if Ascii.eqb c sep then EmptyString :: split_on sep s'
      else match split_on sep s' with
           | [] => [String c EmptyString]
           | word :: words => String c word :: words
           end
  end.

Definition linefeed : ascii := ascii_of_nat 10.
Definition colon : ascii := ascii_of_nat 58.

(** [s.endswith(suffix)]. *)
Definition endswith (suffix s : string) : bool :=
  (String.length suffix <=? String.length s)%nat
  && String.eqb (substring (String.length s - String.length suffix)
                           (String.length suffix) s) suffix.

(** [key in data] for a string [key]: a key of an object, an element
    of an array, a part of a string; other values are not iterable. *)
Definition py_in (key : string) (data : json) : result bool :=
  match data with
  | JObj members =>
      Ok (match dict_get members key with Some _ => true | None => false end)
  | JArr items =>
      Ok (existsb (fun v => match v with JStr s => String.eqb s key | _ => false end)
                  items)
  | JStr s => Ok (contains key s)
  | _ => Raise TypeError
  end.

(** *** The process and its surroundings *)

(** Files by path, and the lines printed so far. *)
Record world : Type := World {
  files : gmap string string;
  stdout : list string
}.

(** A statement with effects on the world. *)
Definition io (A : Type) : Type := world -> result A * world.

#[global] Instance io_ret : MRet io := fun A a w => (Ok a, w).

#[global] Instance io_bind : MBind io := fun A B k m w =>
  match m w with
  | (Ok a, w') => k a w'
  | (Raise e, w') => (Raise e, w')
  end.

Definition lift {A} (r : result A) : io A := fun w => (r, w).

Definition raise {A} (e : exn) : io A := fun w => (Raise e, w).

Definition sys_exit {A} (code : Z) : io A := raise (SystemExit code).

Definition print (line : string) : io unit := fun w =>
  (Ok tt, {| files := files w; stdout := stdout w ++ [line] |}).

(** [open(path, 'r').read()]. *)
Definition read_file (path : string) : io string := fun w =>
  match files w !! path with
  | Some content => (Ok content, w)
  | None => (Raise (FileNotFoundError path), w)
  end.

(** [open(path, 'w').write(content)].  The empty path cannot be opened,
    whatever the file system holds.  Directories and permissions are not
    part of [world]: every other path is taken to lie in a directory that
    exists and may be written to. *)
Definition write_file (path content : string) : io unit := fun w =>
  if String.eqb path EmptyString then (Raise (FileNotFoundError path), w)
  else (Ok tt, {| files := <[path := content]> (files w); stdout := stdout w |}).

(** [os.path.exists(path)]. *)
Definition path_exists (path : string) : io bool := fun w =>
  (Ok (bool_decide (is_Some (files w !! path))), w).

(** [shutil.copy2(src, dst)]: a file is not copied onto itself.  A
    file has one path here: links and other spellings of a path are not
    modelled, so two paths name the same file when they are equal and the
    file is there. *)
Definition copy2 (src dst : string) : io unit := fun w =>
  if String.eqb src dst && bool_decide (is_Some (files w !! src))
  then (Raise (SameFileError src dst), w)
  else (content ← read_file src; write_file dst content) w.

(** [try: body  except Exception as e: handler(e)]. *)
Definition try_except {A} (body : io A) (handler : exn -> io A) : io A := fun w =>
  match body w with
  | (Raise e, w') => if is_Exception e then handler e w' else (Raise e, w')
  | done => done
  end.

(** Exit status of the interpreter when the script ends with
    [outcome]: the code of a [SystemExit], 1 after any other uncaught
    exception, else 0. *)
Definition exit_status {A} (outcome : result A) : Z :=
  match outcome with
  | Ok _ => 0
  | Raise (SystemExit code) => code
  | Raise _ => 1
  end.

End Py.

(** ** Python's numbers: integers and doubles *)

Module PyNumber.
Import Py.

(** The format of a double: 53 bits of precision, exponents below 1024. *)
Definition prec : Z := 53.
Definition emax : Z := 1024.

(** An [int] or a [float]. *)
Inductive number : Type :=
| Int (z : Z)
| Float (x : spec_float).

Definition fadd : spec_float -> spec_float -> spec_float := SFadd prec emax.
Definition fsub : spec_float -> spec_float -> spec_float := SFsub prec emax.
Definition fmul : spec_float -> spec_float -> spec_float := SFmul prec emax.
Definition fdiv : spec_float -> spec_float -> spec_float := SFdiv prec emax.

(** An integer as a mantissa with exponent 0, before any rounding. *)
Definition unrounded (z : Z) : spec_float :=
  match z with
  | Z0 => S754_zero false
  | Zpos m => S754_finite false m 0
  | Zneg m => S754_finite true m 0
  end.

(** [float(z)]: the nearest double, ties to even; an integer beyond the
    range of the doubles raises. *)
Definition float_of_int (z : Z) : result spec_float :=
  match binary_normalize prec emax z 0 false with
  | S754_infinity _ => Raise OverflowError
  | x => Ok x
  end.

(** [a / b] on integers: the double nearest to the exact quotient. *)
Definition int_truediv (a b : Z) : result spec_float :=
  if (b =? 0)%Z then Raise ZeroDivisionError
  else match fdiv (unrounded a) (unrounded b) with
       | S754_infinity _ => Raise OverflowError
       | x => Ok x
       end.

Definition to_float (n : number) : result spec_float :=
  match n with
  | Int z => float_of_int z
  | Float x => Ok x
  end.

Definition is_zero (x : spec_float) : bool :=
  match x with S754_zero _ => true | _ => false end.

(** [a - b]. *)
Definition py_sub (a b : number) : result number :=
  match a, b with
  | Int x, Int y => Ok (Int (x - y))
  | _, _ => x ← to_float a; y ← to_float b; Ok (Float (fsub x y))
  end.

(** [a * b]. *)
Definition py_mul (a b : number) : result number :=
  match a, b with
  | Int x, Int y => Ok (Int (x * y))
  | _, _ => x ← to_float a; y ← to_float b; Ok (Float (fmul x y))
  end.

(** [a / b]: always a float; a zero divisor raises. *)
Definition py_truediv (a b : number) : result spec_float :=
  match a, b with
  | Int x, Int y => int_truediv x y
  | _, _ =>
      x ← to_float a; y ← to_float b;
      if is_zero y then Raise ZeroDivisionError else Ok (fdiv x y)
  end.

(** [-a]. *)
Definition py_neg (a : number) : number :=
  match a with
  | Int z => Int (- z)
  | Float x => Float (SFopp x)
  end.

(** Comparison of an integer with a double, on their exact values. *)
Definition int_compare_float (z : Z) (x : spec_float) : option comparison :=
  match x with
  | S754_nan => None
  | S754_infinity s => Some (if s then Gt else Lt)
  | S754_zero _ => Some (z ?= 0)%Z
  | S754_finite s m e =>
      let mantissa := if s then Z.neg m else Z.pos m in
      Some (if (0 <=? e)%Z then (z ?= mantissa * 2 ^ e)%Z
            else (z * 2 ^ (- e) ?= mantissa)%Z)
  end.

(** Comparison of two numbers; nothing compares with a NaN. *)
Definition py_compare (a b : number) : option comparison :=
  match a, b with
  | Int x, Int y => Some (x ?= y)%Z
  | Int x, Float y => int_compare_float x y
  | Float x, Int y => option_map CompOpp (int_compare_float y x)
  | Float x, Float y => SFcompare x y
  end.

(** [a > b], [a < b] and [a == b]. *)
Definition py_gt (a b : number) : bool :=
  match py_compare a b with Some Gt => true | _ => false end.

Definition py_lt (a b : number) : bool :=
  match py_compare a b with Some Lt => true | _ => false end.

Definition py_eq (a b : number) : bool :=
  match py_compare a b with Some Eq => true | _ => false end.

(** The literal [0.05]: the double nearest to 1/20, which is
    7205759403792794 / 2^57, a little above 1/20. *)
Definition five_percent : spec_float := S754_finite false 7205759403792794 (-57).

Definition infinity : spec_float := S754_infinity false.

Definition zero : spec_float := S754_zero false.

(** The double written as the decimal [digits / 10^places]. *)
Definition decimal (digits : Z) (places : nat) : spec_float :=
  match int_truediv digits (10 ^ Z.of_nat places) with
  | Ok x => x
  | Raise _ => S754_nan
  end.

(** The exact value of a finite double, as a rational. *)
Definition exact_value (x : spec_float) : Q :=
  match x with
  | S754_finite s m e =>
      let mantissa := if s then Z.neg m else Z.pos m in
      if (0 <=? e)%Z then inject_Z (mantissa * 2 ^ e)
      else (inject_Z mantissa / inject_Z (2 ^ (- e)))%Q
  | _ => 0%Q
  end.

End PyNumber.

(** ** scripts/compare_benchmarks.py *)

Module CompareBenchmarks.
Import Py.

Record BenchmarkResult : Type := {
  br_name : string;
  br_value : Q;
  br_unit : string;
  br_lower_is_better : bool
}.

Record ComparisonResult : Type := {
  cr_name : string;
  cr_current : Q;
  cr_baseline : Q;
  cr_change_percent : pynum;
  cr_regression : bool;
  cr_improvement : bool
}.

(** [BenchmarkComparator.__init__], lines 31-34. *)
Definition baseline_path : string := "baseline_benchmarks.json".
Definition regression_threshold : Q := 5 # 100.
Definition improvement_threshold : Q := 5 # 100.

(** The loop shared by [load_baseline] (lines 45-55) and [load_current]
    (lines 62-72): one [BenchmarkResult] per entry, stored under its
    name. *)
Fixpoint read_entries (entries : list json) (acc : dict BenchmarkResult)
  : result (dict BenchmarkResult) :=
  match entries with
  | [] => Ok acc
  | bench :: rest =>
      name ← subscript bench "name" ≫= as_str;
      value ← subscript bench "value" ≫= as_num;
      unit ← subscript bench "unit" ≫= as_str;
      lower ← get_default bench "lower_is_better" (JBool true) ≫= as_bool;
      read_entries rest
        (dict_set acc name
           {| br_name := name; br_value := value; br_unit := unit;
              br_lower_is_better := lower |})
  end.

Definition read_benchmarks (data : json) : result (dict BenchmarkResult) :=
  entries ← get_default data "benchmarks" (JArr []) ≫= as_list;
  read_entries entries [].

Section Comparator.

(** The libraries the script leans on: the JSON decoder, the rendering
    of a number under a format specification, and [str(e)]. *)
Variable json_loads : string -> result json.
Variable format_num : string -> pynum -> string.
Variable str_of_exn : exn -> string.

(** [load_baseline], lines 36-55. *)
Definition load_baseline : io (dict BenchmarkResult) :=
  found ← path_exists baseline_path;
  if negb found then
    print ("Warning: Baseline file " +:+ baseline_path +:+ " not found");;
    mret []
  else
    text ← read_file baseline_path;
    data ← lift (json_loads text);
    lift (read_benchmarks data).

(** [load_current], lines 57-72. *)
Definition load_current (current_path : string) : io (dict BenchmarkResult) :=
  text ← read_file current_path;
  data ← lift (json_loads text);
  lift (read_benchmarks data).

(** Lines 86-91: the relative change. *)
Definition relative_change (current_value baseline_value : Q) : result pynum :=
  if Qeq_bool baseline_value 0 then
    Ok (if Qltb 0 current_value then PosInf else Fin 0)
  else
    q ← truediv (current_value - baseline_value)%Q baseline_value;
    Ok (Fin q).

(** The body of the loop of [compare_benchmarks], lines 84-107, for a
    measurement that has a baseline. *)
Definition compare_entry (name : string) (current_result baseline_result : BenchmarkResult)
  : result ComparisonResult :=
  change_percent ← relative_change (br_value current_result) (br_value baseline_result);
  let '(regression, improvement) :=
    if br_lower_is_better current_result then
      (num_gtb change_percent regression_threshold,
       num_ltb change_percent (- improvement_threshold)%Q)
    else
      (num_ltb change_percent (- regression_threshold)%Q,
       num_gtb change_percent improvement_threshold) in
  Ok {| cr_name := name;
        cr_current := br_value current_result;
        cr_baseline := br_value baseline_result;
        cr_change_percent := num_scale change_percent 100;
        cr_regression := regression;
        cr_improvement := improvement |}.

(** The loop of [compare_benchmarks] over [current.items()]. *)
Fixpoint compare_items (items : list (string * BenchmarkResult))
         (baseline : dict BenchmarkResult) (comparisons : list ComparisonResult)
  : io (list ComparisonResult) :=
  match items with
  | [] => mret comparisons
  | (name, current_result) :: rest =>
      match dict_get baseline name with
      | None =>
          print ("Warning: No baseline for benchmark '" +:+ name +:+ "'");;
          compare_items rest baseline comparisons
      | Some baseline_result =>
          comparison ← lift (compare_entry name current_result baseline_result);
          compare_items rest baseline (comparisons ++ [comparison])
      end
  end.

(** [compare_benchmarks], lines 74-111. *)
Definition compare_benchmarks (current baseline : dict BenchmarkResult)
  : io (list ComparisonResult) :=
  compare_items current baseline [].

(** One line of the report, lines 130-131. *)
Definition report_line (comp : ComparisonResult) : string :=
  "- **" +:+ cr_name comp +:+ "**: " +:+ format_num ".3f" (Fin (cr_current comp))
  +:+ " vs " +:+ format_num ".3f" (Fin (cr_baseline comp))
  +:+ " (" +:+ format_num "+.1f" (cr_change_percent comp) +:+ "%)".

Definition report_section (title : string) (comps : list ComparisonResult) : list string :=
  match comps with
  | [] => []
  | _ => [title] ++ map report_line comps ++ [EmptyString]
  end.

Definition newline : string := String (ascii_of_nat 10) EmptyString.

(** [generate_report], lines 113-148. *)
Definition generate_report (comparisons : list ComparisonResult) : string :=
  let regressions := filter (fun c => cr_regression c = true) comparisons in
  let improvements := filter (fun c => cr_improvement c = true) comparisons in
  let stable :=
    filter (fun c => negb (cr_regression c) && negb (cr_improvement c) = true)
           comparisons in
  join newline
    (["# Benchmark Comparison Report" +:+ newline;
      "## Summary";
      "- **Total benchmarks**: " +:+ pretty (length comparisons);
      "- **Regressions**: " +:+ pretty (length regressions);
      "- **Improvements**: " +:+ pretty (length improvements);
      "- **Stable**: " +:+ pretty (length stable) +:+ newline]
     ++ report_section "## ⚠️ Performance Regressions" regressions
     ++ report_section "## ✅ Performance Improvements" improvements
     ++ report_section "## 📊 Stable Performance" stable).

(** [save_current_as_baseline], lines 150-154. *)
Definition save_current_as_baseline (current_path : string) : io unit :=
  copy2 current_path baseline_path;;
  print ("Saved current results as new baseline: " +:+ baseline_path).

(** [main], lines 156-198, on the command line [argv]. *)
Definition main (argv : list string) : io unit :=
  match argv with
  | _ :: current_path :: _ =>
      let update_baseline := bool_decide ("--update-baseline" ∈ argv) in
      try_except
        (current ← load_current current_path;
         baseline ← load_baseline;
         match baseline with
         | [] =>
             print "No baseline found. Saving current results as baseline.";;
             save_current_as_baseline current_path
         | _ =>
             comparisons ← compare_benchmarks current baseline;
             let report := generate_report comparisons in
             print report;;
             write_file "benchmark_report.md" report;;
             let regressions := filter (fun c => cr_regression c = true) comparisons in
             match regressions with
             | [] => mret tt
             | _ =>
                 print (newline +:+ "❌ Found " +:+ pretty (length regressions)
                        +:+ " performance regressions!");;
                 if negb update_baseline then sys_exit 1 else mret tt
             end;;
             (if update_baseline then save_current_as_baseline current_path
              else mret tt);;
             print (newline +:+ "✅ Benchmark comparison completed successfully")
         end)
        (fun e =>
           print ("Error comparing benchmarks: " +:+ str_of_exn e);;
           sys_exit 1)
  | _ =>
      print "Usage: python3 compare_benchmarks.py <current_results.json> [--update-baseline]";;
      sys_exit 1
  end.

End Comparator.

(** *** Specification *)

(** The measurement pairs of a comparison: each entry of [current], in
    order, that has a baseline of the same name. *)
Definition measurement_pair : Type := string * BenchmarkResult * BenchmarkResult.

Definition matched (current baseline : dict BenchmarkResult) : list measurement_pair :=
  omap (fun '(name, current_result) =>
          match dict_get baseline name with
          | Some baseline_result => Some (name, current_result, baseline_result)
          | None => None
          end) current.

Definition entry_of (m : measurement_pair) (c : ComparisonResult) : Prop :=
  compare_entry m.1.1 m.1.2 m.2 = Ok c.

(** The relative change of a pair, as a rational. *)
Definition change_of (m : measurement_pair) : Q :=
  ((br_value m.1.2 - br_value m.2) / br_value m.2)%Q.

(** The directionality table of the specification, with its 5%
    threshold. *)
Definition classified (m : measurement_pair) (c : ComparisonResult) : Prop :=
  cr_change_percent c = Fin (change_of m * 100)%Q /\
  (br_lower_is_better m.1.2 = true ->
     (cr_regression c = true <-> (5 # 100 < change_of m)%Q) /\
     (cr_improvement c = true <-> (change_of m < - (5 # 100))%Q)) /\
  (br_lower_is_better m.1.2 = false ->
     (cr_regression c = true <-> (change_of m < - (5 # 100))%Q) /\
     (cr_improvement c = true <-> (5 # 100 < change_of m)%Q)) /\
  ((change_of m == 5 # 100)%Q \/ (change_of m == - (5 # 100))%Q ->
     cr_regression c = false /\ cr_improvement c = false).

(** The zero-baseline policy. *)
Definition zero_baseline_policy (m : measurement_pair) (c : ComparisonResult) : Prop :=
  ((0 < br_value m.1.2)%Q -> cr_change_percent c = PosInf) /\
  ((br_value m.1.2 == 0)%Q -> exists q, cr_change_percent c = Fin q /\ (q == 0)%Q).

(** The warnings printed for the measurements of [current] that have no
    baseline, and the names of those that have one. *)
Definition unmatched_warnings (current baseline : dict BenchmarkResult) : list string :=
  omap (fun '(name, _) =>
          match dict_get baseline name with
          | Some _ => None
          | None => Some ("Warning: No baseline for benchmark '" +:+ name +:+ "'")
          end) current.

Definition reported_names (current baseline : dict BenchmarkResult) : list string :=
  omap (fun '(name, _) =>
          match dict_get baseline name with
          | Some _ => Some name
          | None => None
          end) current.

(** A text from which no results can be loaded: the decoder raises, or
    what it returns is not an object, so that [data.get] raises. *)
Definition unreadable (json_loads : string -> result json) (text : string) : Prop :=
  (exists e, json_loads text = Raise e /\ is_Exception e = true) \/
  (exists data, json_loads text = Ok data /\
                match data with JObj _ => False | _ => True end).

(** [bench] is read as the measurement [r]. *)
Definition read_as (bench : json) (r : BenchmarkResult) : Prop :=
  subscript bench "name" ≫= as_str = Ok (br_name r) /\
  subscript bench "value" ≫= as_num = Ok (br_value r) /\
  subscript bench "unit" ≫= as_str = Ok (br_unit r) /\
  get_default bench "lower_is_better" (JBool true) ≫= as_bool
    = Ok (br_lower_is_better r).

(** The three groups of [generate_report], lines 117-119. *)
Definition regressions_of (comparisons : list ComparisonResult) : list ComparisonResult :=
  filter (fun c => cr_regression c = true) comparisons.

Definition improvements_of (comparisons : list ComparisonResult) : list ComparisonResult :=
  filter (fun c => cr_improvement c = true) comparisons.

Definition stable_of (comparisons : list ComparisonResult) : list ComparisonResult :=
  filter (fun c => negb (cr_regression c) && negb (cr_improvement c) = true) comparisons.

(** A results file with one measurement, and a decoder that knows two
    files by their text. *)
Definition results_with (value : Q) : json :=
  JObj [("benchmarks",
         JArr [JObj [("name", JStr "x"); ("value", JNum value); ("unit", JStr "ms")]])].

Definition decode_sample (text : string) : result json :=
  if String.eqb text "current" then Ok (results_with 110)
  else if String.eqb text "baseline" then Ok (results_with 100)
  else if String.eqb text "empty" then Ok (JObj [])
  else Raise JSONDecodeError.

Definition sample_world : world :=
  {| files := {[ "results.json" := "current"; baseline_path := "baseline" ]};
     stdout := [] |}.

End CompareBenchmarks.

(** ** scripts/compare_benchmarks.py, lines 74-111, in Python's arithmetic

    The comparison once more, on the numbers as Python has them: a
    measured value is an [int] or a [float], as the JSON decoder returns
    it, and every operation is Python's, rounding included. *)

Module CompareBenchmarksDoubles.
Import Py PyNumber.

Record BenchmarkResult : Type := {
  br_name : string;
  br_value : number;
  br_unit : string;
  br_lower_is_better : bool
}.

Record ComparisonResult : Type := {
  cr_name : string;
  cr_current : number;
  cr_baseline : number;
  cr_change_percent : number;
  cr_regression : bool;
  cr_improvement : bool
}.

(** Lines 33-34: [0.05], twice. *)
Definition regression_threshold : number := Float five_percent.
Definition improvement_threshold : number := Float five_percent.

(** Lines 86-91: the relative change. *)
Definition relative_change (current_value baseline_value : number) : result number :=
  if py_eq baseline_value (Int 0) then
    Ok (if py_gt current_value (Int 0) then Float infinity else Int 0)
  else
    difference ← py_sub current_value baseline_value;
    quotient ← py_truediv difference baseline_value;
    Ok (Float quotient).

(** The body of the loop of [compare_benchmarks], lines 84-107, for a
    measurement that has a baseline. *)
Definition compare_entry (name : string) (current_result baseline_result : BenchmarkResult)
  : result ComparisonResult :=
  change_percent ← relative_change (br_value current_result) (br_value baseline_result);
  let '(regression, improvement) :=
    if br_lower_is_better current_result then
      (py_gt change_percent regression_threshold,
       py_lt change_percent (py_neg improvement_threshold))
    else
      (py_lt change_percent (py_neg regression_threshold),
       py_gt change_percent improvement_threshold) in
  percent ← py_mul change_percent (Int 100);
  Ok {| cr_name := name;
        cr_current := br_value current_result;
        cr_baseline := br_value baseline_result;
        cr_change_percent := percent;
        cr_regression := regression;
        cr_improvement := improvement |}.

(** The loop of [compare_benchmarks] over [current.items()]. *)
Fixpoint compare_items (items : list (string * BenchmarkResult))
         (baseline : dict BenchmarkResult) (comparisons : list ComparisonResult)
  : io (list ComparisonResult) :=
  match items with
  | [] => mret comparisons
  | (name, current_result) :: rest =>
      match dict_get baseline name with
      | None =>
          print ("Warning: No baseline for benchmark '" +:+ name +:+ "'");;
          compare_items rest baseline comparisons
      | Some baseline_result =>
          comparison ← lift (compare_entry name current_result baseline_result);
          compare_items rest baseline (comparisons ++ [comparison])
      end
  end.

(** [compare_benchmarks], lines 74-111. *)
Definition compare_benchmarks (current baseline : dict BenchmarkResult)
  : io (list ComparisonResult) :=
  compare_items current baseline [].

(** *** Specification *)

(** The measurement pairs of a comparison: each entry of [current], in
    order, that has a baseline of the same name. *)
Definition measurement_pair : Type := string * BenchmarkResult * BenchmarkResult.

Definition matched (current baseline : dict BenchmarkResult) : list measurement_pair :=
  omap (fun '(name, current_result) =>
          match dict_get baseline name with
          | Some baseline_result => Some (name, current_result, baseline_result)
          | None => None
          end) current.

Definition entry_of (m : measurement_pair) (c : ComparisonResult) : Prop :=
  compare_entry m.1.1 m.1.2 m.2 = Ok c.

Definition is_float (n : number) : bool :=
  match n with Float _ => true | Int _ => false end.

(** Both values of the pair are doubles. *)
Definition doubles (m : measurement_pair) : bool :=
  is_float (br_value m.1.2) && is_float (br_value m.2).

(** The baseline value of the pair is not zero. *)
Definition nonzero_baseline (m : measurement_pair) : Prop :=
  py_eq (br_value m.2) (Int 0) = false.

(** The relative change of the pair as Python computes it:
    [(current - baseline) / baseline]. *)
Definition change_of (m : measurement_pair) : result spec_float :=
  difference ← py_sub (br_value m.1.2) (br_value m.2);
  py_truediv difference (br_value m.2).

(** The directionality table, on the computed change and the double
    [0.05]. *)
Definition classified (m : measurement_pair) (c : ComparisonResult) : Prop :=
  exists change,
    change_of m = Ok change /\
    py_mul (Float change) (Int 100) = Ok (cr_change_percent c) /\
    (br_lower_is_better m.1.2 = true ->
       cr_regression c = SFltb five_percent change /\
       cr_improvement c = SFltb change (SFopp five_percent)) /\
    (br_lower_is_better m.1.2 = false ->
       cr_regression c = SFltb change (SFopp five_percent) /\
       cr_improvement c = SFltb five_percent change) /\
    (change = five_percent \/ change = SFopp five_percent ->
       cr_regression c = false /\ cr_improvement c = false).

(** A measurement of [value] under the name [x], in milliseconds. *)
Definition measured (value : number) (lower : bool) : BenchmarkResult :=
  {| br_name := "x"; br_value := value; br_unit := "ms"; br_lower_is_better := lower |}.

(** Two integer values whose exact relative change is above 1/20 and
    is rounded to the double [0.05]. *)
Definition rounded_baseline : Z := 9007199254740979.
Definition rounded_current : Z := 9457559217478028.

End CompareBenchmarksDoubles.

(** ** scripts/generate_benchmark_charts.py *)

Module GenerateBenchmarkCharts.
Import Py.

(** [categorize_benchmark(name)], lines 260-277. *)
Definition categorize_benchmark (name : string) : string :=
  let name_lower := lower name in
  if contains "memory" name_lower || contains "pool" name_lower
     || contains "allocation" name_lower then "memory"
  else if contains "packet" name_lower || contains "network" name_lower then "network"
  else if contains "ecs" name_lower || contains "entity" name_lower
          || contains "component" name_lower then "ecs"
  else if contains "plugin" name_lower then "plugin"
  else if contains "tick" name_lower then "tick_rate"
  else if contains "server" name_lower || contains "startup" name_lower then "server"
  else "general".

(** One entry of [comparison_data], lines 49-57. *)
Record comparison_row : Type := {
  row_benchmark : string;
  row_current : Q;
  row_baseline : Q;
  row_change_percent : pynum;
  row_unit : json;
  row_lower_is_better : json;
  row_category : string
}.

(** Line 33: [{item['name']: item['value'] for item in baseline_data}]. *)
Fixpoint baseline_lookup_of (baseline_data : list json) (acc : dict json)
  : result (dict json) :=
  match baseline_data with
  | [] => Ok acc
  | item :: rest =>
      name ← subscript item "name" ≫= as_str;
      value ← subscript item "value";
      baseline_lookup_of rest (dict_set acc name value)
  end.

(** Lines 43-47: the percentage change. *)
Definition percent_change (current_value baseline_value : Q) : result pynum :=
  if negb (Qeq_bool baseline_value 0) then
    q ← truediv (current_value - baseline_value)%Q baseline_value;
    Ok (Fin (q * 100)%Q)
  else
    Ok (if Qeq_bool current_value 0 then Fin 0 else PosInf).

(** The loop of lines 37-57 over [current_data]. *)
Fixpoint comparison_rows (current_data : list json) (baseline_lookup : dict json)
         (comparison_data : list comparison_row) : result (list comparison_row) :=
  match current_data with
  | [] => Ok comparison_data
  | current :: rest =>
      name ← subscript current "name" ≫= as_str;
      current_value ← subscript current "value";
      match dict_get baseline_lookup name with
      | None | Some JNull => comparison_rows rest baseline_lookup comparison_data
      | Some baseline_value =>
          b ← as_num baseline_value;
          c ← as_num current_value;
          change_percent ← percent_change c b;
          unit ← subscript current "unit";
          lower ← subscript current "lower_is_better";
          comparison_rows rest baseline_lookup
            (comparison_data ++
               [{| row_benchmark := name; row_current := c; row_baseline := b;
                   row_change_percent := change_percent; row_unit := unit;
                   row_lower_is_better := lower;
                   row_category := categorize_benchmark name |}])
      end
  end.

(** Lines 32-57: the comparison the chart is drawn from. *)
Definition comparison_data_of (current_data baseline_data : list json)
  : result (list comparison_row) :=
  baseline_lookup ← baseline_lookup_of baseline_data [];
  comparison_rows current_data baseline_lookup [].

(** Lines 72-89: the colour of a bar. *)
Definition bar_color (lower_is_better : bool) (change_percent : pynum) : string :=
  if lower_is_better then
    if num_ltb change_percent (-5) then "green"
    else if num_gtb change_percent 5 then "red"
    else "orange"
  else
    if num_gtb change_percent 5 then "green"
    else if num_ltb change_percent (-5) then "red"
    else "orange".

(** Lines 285-291. *)
Definition key_metrics : list string :=
  ["server_startup_avg"; "packet_processing_ecs_overhead"; "memory_pool_efficiency";
   "tick_rate_lightweight_impact"; "sustained_tick_rate_with_plugins"].

(** Line 282: [{item['name']: item for item in baseline_data}]. *)
Fixpoint baseline_items_of (baseline_data : list json) (acc : dict json)
  : result (dict json) :=
  match baseline_data with
  | [] => Ok acc
  | item :: rest =>
      name ← subscript item "name" ≫= as_str;
      baseline_items_of rest (dict_set acc name item)
  end.

(** Lines 307-325: the counts of the summary. *)
Fixpoint summary_counts (current_data : list json) (baseline_lookup : dict json)
         (regressions improvements stable : nat) : result (nat * nat * nat) :=
  match current_data with
  | [] => Ok (regressions, improvements, stable)
  | current :: rest =>
      name ← subscript current "name" ≫= as_str;
      let skip := summary_counts rest baseline_lookup regressions improvements stable in
      match dict_get baseline_lookup name with
      | None => skip
      | Some baseline =>
          if truthy baseline then
            b ← subscript baseline "value" ≫= as_num;
            if negb (Qeq_bool b 0) then
              c ← subscript current "value" ≫= as_num;
              change ← truediv (c - b)%Q b;
              lower ← subscript current "lower_is_better";
              let above := Qltb (5 # 100) change in
              let below := Qltb change (- (5 # 100)) in
              let '(worse, better) :=
                if truthy lower then (above, below) else (below, above) in
              if worse then
                summary_counts rest baseline_lookup (S regressions) improvements stable
              else if better then
                summary_counts rest baseline_lookup regressions (S improvements) stable
              else
                summary_counts rest baseline_lookup regressions improvements (S stable)
            else skip
          else skip
      end
  end.

(** Line 338: [next((item for item in current_data if item['name'] ==
    metric_name), None)]. *)
Fixpoint find_metric (current_data : list json) (metric_name : string)
  : result (option json) :=
  match current_data with
  | [] => Ok None
  | item :: rest =>
      name ← subscript item "name";
      match name with
      | JStr s => if String.eqb s metric_name then Ok (Some item)
                  else find_metric rest metric_name
      | _ => find_metric rest metric_name
      end
  end.

Definition newline : string := String (ascii_of_nat 10) EmptyString.

Section Charts.

(** The rendering of a number under a format specification, the bytes
    of the figure drawn from the rows and their colours (pandas and
    matplotlib), and the time stamp of the summary. *)
Variable format_num : string -> pynum -> string.
Variable draw : list (comparison_row * string) -> string.
Variable generated : string.

(** [df.sort_values('change_percent')], line 69: the rows in the order
    of their change.  The order that pandas gives to rows of equal change
    is its own. *)
Variable sort_values : list comparison_row -> list comparison_row.

(** [create_performance_comparison_chart], lines 29-109: the bars are
    drawn from the sorted rows, each with its colour. *)
Definition create_performance_comparison_chart
           (current_data baseline_data : list json) (output_dir : string) : io unit :=
  comparison_data ← lift (comparison_data_of current_data baseline_data);
  match comparison_data with
  | [] => print "No matching benchmarks found for comparison"
  | _ =>
      let df_sorted := sort_values comparison_data in
      write_file (output_dir +:+ "/performance_comparison.png")
        (draw (map (fun row =>
                      (row, bar_color (truthy (row_lower_is_better row))
                                      (row_change_percent row)))
                   df_sorted))
  end.

(** Lines 337-348: the key metrics section. *)
Fixpoint key_metric_lines (metrics : list string) (current_data : list json)
         (baseline_lookup : dict json) : result (list string) :=
  match metrics with
  | [] => Ok []
  | metric_name :: rest =>
      current_metric ← find_metric current_data metric_name;
      line ←
        match current_metric with
        | Some current_metric =>
            if truthy current_metric then
              change_str ←
                match dict_get baseline_lookup metric_name with
                | Some baseline_metric =>
                    if truthy baseline_metric then
                      c ← subscript current_metric "value" ≫= as_num;
                      b ← subscript baseline_metric "value" ≫= as_num;
                      b' ← subscript baseline_metric "value" ≫= as_num;
                      q ← truediv (c - b)%Q b';
                      Ok (" (" +:+ format_num "+.1f" (Fin (q * 100)%Q) +:+ "% vs baseline)")
                    else Ok EmptyString
                | None => Ok EmptyString
                end;
              value ← subscript current_metric "value" ≫= as_num;
              unit ← subscript current_metric "unit" ≫= as_str;
              Ok ["- **" +:+ metric_name +:+ "**: " +:+ format_num ".3f" (Fin value)
                  +:+ " " +:+ unit +:+ change_str +:+ newline]
            else Ok []
        | None => Ok []
        end;
      lines ← key_metric_lines rest current_data baseline_lookup;
      Ok (line ++ lines)
  end.

(** [generate_summary_report], lines 279-352. *)
Definition generate_summary_report (current_data baseline_data : list json)
           (output_dir : string) : io unit :=
  baseline_lookup ← lift (baseline_items_of baseline_data []);
  let head :=
    ["# Benchmark Summary Report" +:+ newline;
     "Generated: " +:+ generated +:+ newline;
     "Total benchmarks: " +:+ pretty (length current_data) +:+ newline] in
  changes ←
    match baseline_data with
    | [] => mret []
    | _ =>
        '(regressions, improvements, stable) ←
          lift (summary_counts current_data baseline_lookup 0 0 0);
        mret ["Baseline benchmarks: " +:+ pretty (length baseline_data) +:+ newline;
              newline +:+ "## Performance Changes" +:+ newline;
              "- Regressions: " +:+ pretty regressions +:+ newline;
              "- Improvements: " +:+ pretty improvements +:+ newline;
              "- Stable: " +:+ pretty stable +:+ newline]
    end;
  metrics ← lift (key_metric_lines key_metrics current_data baseline_lookup);
  write_file (output_dir +:+ "/summary_report.md")
    (String.concat EmptyString
       (head ++ changes ++ [newline +:+ "## Key Metrics" +:+ newline] ++ metrics)).

End Charts.

(** *** Specification *)

(** The precedence the specification documents: the six categories in
    priority order, each with its keyword group. *)
Definition priority_table : list (string * list string) :=
  [ ("memory",    ["memory"; "pool"; "allocation"]);
    ("network",   ["packet"; "network"]);
    ("ecs",       ["ecs"; "entity"; "component"]);
    ("plugin",    ["plugin"]);
    ("tick_rate", ["tick"]);
    ("server",    ["server"; "startup"]) ].

(** A keyword group matches a (lower-cased) name when one of its
    keywords occurs in it. *)
Definition group_matches (kws : list string) (s : string) : Prop :=
  exists k, In k kws /\ substring_of k s.

(** [cat] is the first category of [table] whose group matches [s], or
    ["general"] when no group matches. *)
Definition first_match (table : list (string * list string))
           (s cat : string) : Prop :=
  (exists i kws,
      table !! i = Some (cat, kws) /\ group_matches kws s /\
      forall j c' kws', (j < i)%nat -> table !! j = Some (c', kws') ->
                        ~ group_matches kws' s)
  \/ (cat = "general" /\
      forall c' kws', In (c', kws') table -> ~ group_matches kws' s).

(** The same precedence as a function: the category of the first group
    of [table] with a keyword in [s]. *)
Definition group_matchesb (kws : list string) (s : string) : bool :=
  existsb (fun k => contains k s) kws.

Fixpoint first_matchb (table : list (string * list string)) (s : string) : string :=
  match table with
  | [] => "general"
  | (cat, kws) :: rest => if group_matchesb kws s then cat else first_matchb rest s
  end.

(** Entries that follow the measurement format: an object with a
    string [name], a numeric [value] and, for a current entry, a [unit]
    and a [lower_is_better]. *)
Definition has_field (item : json) (key : string) (ok : json -> bool) : bool :=
  match item with
  | JObj members =>
      match dict_get members key with
      | Some v => ok v
      | None => false
      end
  | _ => false
  end.

Definition is_str (j : json) : bool := match j with JStr _ => true | _ => false end.
Definition is_num (j : json) : bool := match j with JNum _ => true | _ => false end.

Definition baseline_entry (item : json) : bool :=
  has_field item "name" is_str && has_field item "value" is_num.

Definition current_entry (item : json) : bool :=
  baseline_entry item && has_field item "unit" (fun _ => true)
  && has_field item "lower_is_better" (fun _ => true).

(** Every value stored in the lookup table is a number. *)
Definition numeric (d : dict json) : Prop :=
  forall k v, dict_get d k = Some v -> is_num v = true.

(** The zero-baseline policy on a row of the chart's data. *)
Definition zero_row_policy (row : comparison_row) : Prop :=
  (row_baseline row == 0)%Q ->
  ((0 < row_current row)%Q -> row_change_percent row = PosInf) /\
  ((row_current row == 0)%Q -> row_change_percent row = Fin 0).

(** A measurement in the file format of the chart generator. *)
Definition measurement (name : string) (value : Q) : json :=
  JObj [("name", JStr name); ("value", JNum value);
        ("unit", JStr "ms"); ("lower_is_better", JBool true)].

(** *** The category and memory charts *)

(** Lines 115-120: the measurements by category, in the order in which
    the categories first appear. *)
Fixpoint group_by_category (data : list json) (categories : dict (list json))
  : result (dict (list json)) :=
  match data with
  | [] => Ok categories
  | item :: rest =>
      name ← subscript item "name" ≫= as_str;
      let category := categorize_benchmark name in
      let members :=
        match dict_get categories category with
        | Some members => members
        | None => []
        end in
      group_by_category rest (dict_set categories category (members ++ [item]))
  end.

(** Lines 136-137: the labels and heights of the bars of one category. *)
Definition category_bars (category : string) (category_data : list json)
  : result (list (string * Q)) :=
  names ← traverse (fun item =>
                      name ← subscript item "name" ≫= as_str;
                      Ok (replace "_" " " (replace (category +:+ "_") EmptyString name)))
                   category_data;
  values ← traverse (fun item => subscript item "value" ≫= as_num) category_data;
  Ok (zip names values).

(** Lines 208, 217 and 240: the measurements of the memory chart and of
    its two panels. *)
Fixpoint memory_benchmarks_of (data : list json) : result (list json) :=
  match data with
  | [] => Ok []
  | item :: rest =>
      name ← subscript item "name" ≫= as_str;
      selected ← memory_benchmarks_of rest;
      Ok (if contains "memory" (lower name) || contains "pool" (lower name)
          then item :: selected else selected)
  end.

Fixpoint efficiency_data_of (memory_benchmarks : list json) : result (list json) :=
  match memory_benchmarks with
  | [] => Ok []
  | item :: rest =>
      name ← subscript item "name" ≫= as_str;
      selected ← efficiency_data_of rest;
      Ok (if contains "efficiency" name then item :: selected else selected)
  end.

Definition allocation_entry (item : json) : result bool :=
  name ← subscript item "name" ≫= as_str;
  if contains "allocation" name then
    unit ← subscript item "unit" ≫= as_str;
    Ok (contains "seconds" unit)
  else Ok false.

Fixpoint allocation_data_of (memory_benchmarks : list json) : result (list json) :=
  match memory_benchmarks with
  | [] => Ok []
  | item :: rest =>
      keep ← allocation_entry item;
      selected ← allocation_data_of rest;
      Ok (if keep : bool then item :: selected else selected)
  end.

(** Lines 219-220 and 242-243: the labels and the scaled values of a
    panel. *)
Definition panel_bars (scale : Q) (panel_data : list json) : result (list (string * Q)) :=
  names ← traverse (fun item =>
                      name ← subscript item "name" ≫= as_str;
                      Ok (replace "_" " " (replace "memory_" EmptyString name)))
                   panel_data;
  values ← traverse (fun item =>
                       value ← subscript item "value" ≫= as_num;
                       Ok (value * scale)%Q)
                    panel_data;
  Ok (zip names values).

Section Figures.

(** The bytes of the two figures, as matplotlib draws them from the
    bars of each subplot. *)
Variable draw_categories : list (string * list (string * Q)) -> string.
Variable draw_memory : list (string * Q) -> list (string * Q) -> string.

(** [create_category_breakdown_chart], lines 111-157: one subplot for each
    of the first six categories. *)
Definition create_category_breakdown_chart (data : list json) (output_dir : string)
  : io unit :=
  categories ← lift (group_by_category data []);
  subplots ← lift (traverse (fun '(category, category_data) =>
                               bars ← category_bars category category_data;
                               Ok (category, bars))
                            (take 6 categories));
  write_file (output_dir +:+ "/category_breakdown.png") (draw_categories subplots).

(** [create_memory_analysis_chart], lines 205-258. *)
Definition create_memory_analysis_chart (data : list json) (output_dir : string)
  : io unit :=
  memory_benchmarks ← lift (memory_benchmarks_of data);
  match memory_benchmarks with
  | [] => print "No memory benchmarks found"
  | _ =>
      efficiency_data ← lift (efficiency_data_of memory_benchmarks);
      efficiency ← lift (panel_bars 100 efficiency_data);
      allocation_data ← lift (allocation_data_of memory_benchmarks);
      allocation ← lift (panel_bars 1000 allocation_data);
      write_file (output_dir +:+ "/memory_analysis.png")
        (draw_memory efficiency allocation)
  end.

End Figures.

(** *** Specification, continued *)

(** The seven categories. *)
Definition category_names : list string :=
  ["memory"; "network"; "ecs"; "plugin"; "tick_rate"; "server"; "general"].

(** The name of an entry, and whether it falls in a category. *)
Definition name_of (item : json) : option string :=
  match subscript item "name" ≫= as_str with
  | Ok name => Some name
  | Raise _ => None
  end.

Definition in_category (category : string) (item : json) : bool :=
  match name_of item with
  | Some name => String.eqb (categorize_benchmark name) category
  | None => false
  end.

(** An entry whose lower-cased name mentions [memory] or [pool]. *)
Definition mentions_memory_or_pool (item : json) : bool :=
  match name_of item with
  | Some name => contains "memory" (lower name) || contains "pool" (lower name)
  | None => false
  end.

(** Rows in ascending order of their change, by insertion: one of the
    orders a sort by change can give. *)
Definition change_leb (a b : pynum) : bool :=
  match a, b with
  | Fin x, Fin y => Qle_bool x y
  | _, PosInf => true
  | PosInf, Fin _ => false
  end.

Fixpoint insert_row (row : comparison_row) (rows : list comparison_row)
  : list comparison_row :=
  match rows with
  | [] => [row]
  | r :: rest =>
      if change_leb (row_change_percent row) (row_change_percent r)
      then row :: r :: rest
      else r :: insert_row row rest
  end.

Definition sort_by_change (rows : list comparison_row) : list comparison_row :=
  fold_right insert_row [] rows.

(** The members of a category among the groups. *)
Definition members_of (categories : dict (list json)) (category : string) : list json :=
  match dict_get categories category with
  | Some members => members
  | None => []
  end.

(** An entry whose unit is a string as well. *)
Definition typed_entry (item : json) : bool :=
  baseline_entry item && has_field item "unit" is_str
  && has_field item "lower_is_better" (fun _ => true).

(** The value of an entry, when it has one. *)
Definition value_of (item : json) : option Q :=
  match subscript item "value" ≫= as_num with
  | Ok value => Some value
  | Raise _ => None
  end.

(** A current entry that the counts of the summary take in: its name has
    a baseline whose value is not zero. *)
Definition counted (baseline_lookup : dict json) (item : json) : bool :=
  match name_of item with
  | Some name =>
      match dict_get baseline_lookup name with
      | Some baseline =>
          match value_of baseline with
          | Some b => negb (Qeq_bool b 0)
          | None => false
          end
      | None => false
      end
  | None => false
  end.

(** A key metric that is among the current entries and whose baseline
    value is zero. *)
Definition divides_by_zero (current_data : list json) (baseline_lookup : dict json)
           (metric_name : string) : bool :=
  match List.find (fun item => bool_decide (name_of item = Some metric_name)) current_data with
  | Some _ =>
      match dict_get baseline_lookup metric_name with
      | Some baseline =>
          match value_of baseline with
          | Some b => Qeq_bool b 0
          | None => false
          end
      | None => false
      end
  | None => false
  end.

End GenerateBenchmarkCharts.

(** ** scripts/generate_nightly_report.py *)

Module GenerateNightlyReport.
Import Py.

(** The format string of [generate_html_report], lines 204-343.  Each
    backquote below is a double quote of the source. *)
Definition html_template : string := requote "
<!DOCTYPE html>
<html lang=`en`>
<head>
    <meta charset=`UTF-8`>
    <meta name=`viewport` content=`width=device-width, initial-scale=1.0`>
    <title>Mirai Merged System - Nightly Test Report</title>
    <style>
        body {{ font-family: Arial, sans-serif; margin: 20px; background-color: #f5f5f5; }}
        .container {{ max-width: 1200px; margin: 0 auto; background: white; padding: 20px; border-radius: 8px; box-shadow: 0 2px 4px rgba(0,0,0,0.1); }}
        .header {{ text-align: center; margin-bottom: 30px; }}
        .section {{ margin-bottom: 30px; }}
        .section h2 {{ color: #333; border-bottom: 2px solid #007acc; padding-bottom: 5px; }}
        .metrics {{ display: grid; grid-template-columns: repeat(auto-fit, minmax(200px, 1fr)); gap: 15px; margin: 20px 0; }}
        .metric {{ background: #f8f9fa; padding: 15px; border-radius: 5px; text-align: center; }}
        .metric .value {{ font-size: 24px; font-weight: bold; color: #007acc; }}
        .metric .label {{ font-size: 14px; color: #666; }}
        .status-pass {{ color: #28a745; }}
        .status-fail {{ color: #dc3545; }}
        .status-warn {{ color: #ffc107; }}
        .progress-bar {{ width: 100%; height: 20px; background: #e9ecef; border-radius: 10px; overflow: hidden; }}
        .progress-fill {{ height: 100%; background: #28a745; transition: width 0.3s ease; }}
        table {{ width: 100%; border-collapse: collapse; margin: 15px 0; }}
        th, td {{ padding: 10px; text-align: left; border-bottom: 1px solid #ddd; }}
        th {{ background-color: #f8f9fa; }}
        .timestamp {{ color: #666; font-size: 14px; }}
    </style>
</head>
<body>
    <div class=`container`>
        <div class=`header`>
            <h1>ðŸš€ Mirai Merged System</h1>
            <h2>Nightly Test Report</h2>
            <p class=`timestamp`>Generated: {timestamp}</p>
        </div>
        
        <div class=`section`>
            <h2>ðŸ“Š Test Results Overview</h2>
            <div class=`metrics`>
                <div class=`metric`>
                    <div class=`value {unit_status}`>{unit_passed}/{unit_total}</div>
                    <div class=`label`>Unit Tests</div>
                </div>
                <div class=`metric`>
                    <div class=`value {integration_status}`>{integration_passed}/{integration_total}</div>
                    <div class=`label`>Integration Tests</div>
                </div>
                <div class=`metric`>
                    <div class=`value {doc_status}`>{doc_passed}/{doc_total}</div>
                    <div class=`label`>Doc Tests</div>
                </div>
                <div class=`metric`>
                    <div class=`value {coverage_status}`>{coverage:.1f}%</div>
                    <div class=`label`>Code Coverage</div>
                </div>
            </div>
        </div>
        
        <div class=`section`>
            <h2>âš¡ Performance Metrics</h2>
            <div class=`metrics`>
                <div class=`metric`>
                    <div class=`value`>{benchmark_count}</div>
                    <div class=`label`>Benchmarks Run</div>
                </div>
                <div class=`metric`>
                    <div class=`value {performance_status}`>âœ“</div>
                    <div class=`label`>Performance Status</div>
                </div>
            </div>
        </div>
        
        <div class=`section`>
            <h2>ðŸ”’ Security Audit</h2>
            <div class=`metrics`>
                <div class=`metric`>
                    <div class=`value {security_status}`>{vulnerability_count}</div>
                    <div class=`label`>Vulnerabilities</div>
                </div>
                <div class=`metric`>
                    <div class=`value {audit_status}`>{`PASS` if audit_passed else `FAIL`}</div>
                    <div class=`label`>Audit Status</div>
                </div>
            </div>
        </div>
        
        <div class=`section`>
            <h2>ðŸ”„ Compatibility Tests</h2>
            <div class=`metrics`>
                <div class=`metric`>
                    <div class=`value {migration_status}`>{migration_passed}/{migration_total}</div>
                    <div class=`label`>Migration Tests</div>
                </div>
                <div class=`metric`>
                    <div class=`value {compat_status}`>{`PASS` if backward_compat else `FAIL`}</div>
                    <div class=`label`>Backward Compatibility</div>
                </div>
            </div>
        </div>
        
        <div class=`section`>
            <h2>ðŸ“ˆ Detailed Results</h2>
            <h3>Test Summary</h3>
            <table>
                <tr><th>Test Suite</th><th>Passed</th><th>Failed</th><th>Total</th><th>Success Rate</th></tr>
                <tr>
                    <td>Unit Tests</td>
                    <td>{unit_passed}</td>
                    <td>{unit_failed}</td>
                    <td>{unit_total}</td>
                    <td>{unit_success_rate:.1f}%</td>
                </tr>
                <tr>
                    <td>Integration Tests</td>
                    <td>{integration_passed}</td>
                    <td>{integration_failed}</td>
                    <td>{integration_total}</td>
                    <td>{integration_success_rate:.1f}%</td>
                </tr>
                <tr>
                    <td>Documentation Tests</td>
                    <td>{doc_passed}</td>
                    <td>{doc_failed}</td>
                    <td>{doc_total}</td>
                    <td>{doc_success_rate:.1f}%</td>
                </tr>
            </table>
        </div>
        
        <div class=`section`>
            <h2>ðŸŽ¯ Overall Status</h2>
            <div class=`metric`>
                <div class=`value {overall_status}`>{overall_result}</div>
                <div class=`label`>Build Status</div>
            </div>
        </div>
    </div>
</body>
</html>
        ".

(** What the five [collect_*] methods returned in this run (lines 26-200:
    each runs a tool or reads result files, catches what goes wrong and
    returns a dictionary).  What they print on the way is left out. *)
Record collected : Type := {
  test_results : json;
  performance_results : json;
  coverage_results : json;
  security_results : json;
  compatibility_results : json
}.

(** [self.report_data] once lines 434-446 have stored the collected
    results. *)
Definition report_data_of (timestamp : string) (c : collected) : json :=
  JObj [("timestamp", JStr timestamp);
        ("test_results", test_results c);
        ("performance_results", performance_results c);
        ("coverage_results", coverage_results c);
        ("security_results", security_results c);
        ("compatibility_results", compatibility_results c)].

(** [results.get(suite, {}).get(key, 0)]. *)
Definition count_of (results : json) (suite key : string) : result json :=
  counts ← get_default results suite (JObj []);
  get_default counts key (JNum 0).

(** [(passed / total * 100) if total > 0 else 0]. *)
Definition success_rate (passed total : Q) : result Q :=
  if Qltb 0 total then q ← truediv passed total; Ok (q * 100)%Q else Ok 0%Q.

Definition status_of (pass : bool) : string :=
  if pass then "status-pass" else "status-fail".

(** The local variables of [generate_html_report], lines 346-395. *)
Record derived : Type := {
  unit_passed : json; unit_failed : json; unit_total : Q;
  unit_success_rate : Q; unit_status : string;
  integration_passed : json; integration_failed : json; integration_total : Q;
  integration_success_rate : Q; integration_status : string;
  doc_passed : json; doc_failed : json; doc_total : Q;
  doc_success_rate : Q; doc_status : string;
  coverage : json; coverage_status : string;
  vulnerability_count : nat; audit_passed : json;
  security_status : string; audit_status : string;
  migration_passed : json; migration_failed : json; migration_total : Q;
  migration_status : string;
  backward_compat : json; compat_status : string;
  all_tests_pass : bool; overall_result : string; overall_status : string
}.

(** Lines 346-395. *)
Definition derived_metrics (report_data : json) : result derived :=
  test_results ← subscript report_data "test_results";
  coverage_results ← subscript report_data "coverage_results";
  security_results ← subscript report_data "security_results";
  compatibility_results ← subscript report_data "compatibility_results";
  unit_passed ← count_of test_results "unit_tests" "passed";
  unit_failed ← count_of test_results "unit_tests" "failed";
  up ← as_num unit_passed; uf ← as_num unit_failed;
  let unit_total := (up + uf)%Q in
  unit_success_rate ← success_rate up unit_total;
  integration_passed ← count_of test_results "integration_tests" "passed";
  integration_failed ← count_of test_results "integration_tests" "failed";
  ip ← as_num integration_passed; if_ ← as_num integration_failed;
  let integration_total := (ip + if_)%Q in
  integration_success_rate ← success_rate ip integration_total;
  doc_passed ← count_of test_results "doc_tests" "passed";
  doc_failed ← count_of test_results "doc_tests" "failed";
  dp ← as_num doc_passed; df ← as_num doc_failed;
  let doc_total := (dp + df)%Q in
  doc_success_rate ← success_rate dp doc_total;
  coverage ← get_default coverage_results "line_coverage" (JNum 0);
  cov ← as_num coverage;
  let coverage_status :=
    if Qle_bool 80 cov then "status-pass"
    else if Qle_bool 60 cov then "status-warn" else "status-fail" in
  vulnerability_count ← get_default security_results "vulnerabilities" (JArr []) ≫= len;
  audit_passed ← get_default security_results "audit_passed" (JBool true);
  migration_tests ← get_default compatibility_results "migration_tests" (JObj []);
  migration_passed ← get_default migration_tests "passed" (JNum 0);
  migration_tests' ← get_default compatibility_results "migration_tests" (JObj []);
  migration_failed ← get_default migration_tests' "failed" (JNum 0);
  mp ← as_num migration_passed; mf ← as_num migration_failed;
  backward_compat ← get_default compatibility_results "backward_compatibility" (JBool true);
  let all_tests_pass :=
    eq_zero unit_failed && eq_zero integration_failed && eq_zero doc_failed
    && truthy audit_passed && truthy backward_compat in
  Ok {| unit_passed := unit_passed; unit_failed := unit_failed;
        unit_total := unit_total; unit_success_rate := unit_success_rate;
        unit_status := status_of (eq_zero unit_failed);
        integration_passed := integration_passed;
        integration_failed := integration_failed;
        integration_total := integration_total;
        integration_success_rate := integration_success_rate;
        integration_status := status_of (eq_zero integration_failed);
        doc_passed := doc_passed; doc_failed := doc_failed;
        doc_total := doc_total; doc_success_rate := doc_success_rate;
        doc_status := status_of (eq_zero doc_failed);
        coverage := coverage; coverage_status := coverage_status;
        vulnerability_count := vulnerability_count;
        audit_passed := audit_passed;
        security_status := status_of (Nat.eqb vulnerability_count 0);
        audit_status := status_of (truthy audit_passed);
        migration_passed := migration_passed;
        migration_failed := migration_failed;
        migration_total := (mp + mf)%Q;
        migration_status := status_of (eq_zero migration_failed);
        backward_compat := backward_compat;
        compat_status := status_of (truthy backward_compat);
        all_tests_pass := all_tests_pass;
        overall_result := if all_tests_pass then "PASS" else "FAIL";
        overall_status := status_of all_tests_pass |}.

Definition JNat (n : nat) : json := JNum (inject_Z (Z.of_nat n)).

(** The keyword arguments of the [format] call, lines 397-429. *)
Definition format_arguments (timestamp : json) (benchmark_count : nat) (d : derived)
  : dict json :=
  [("timestamp", timestamp);
   ("unit_passed", unit_passed d);
   ("unit_failed", unit_failed d);
   ("unit_total", JNum (unit_total d));
   ("unit_success_rate", JNum (unit_success_rate d));
   ("unit_status", JStr (unit_status d));
   ("integration_passed", integration_passed d);
   ("integration_failed", integration_failed d);
   ("integration_total", JNum (integration_total d));
   ("integration_success_rate", JNum (integration_success_rate d));
   ("integration_status", JStr (integration_status d));
   ("doc_passed", doc_passed d);
   ("doc_failed", doc_failed d);
   ("doc_total", JNum (doc_total d));
   ("doc_success_rate", JNum (doc_success_rate d));
   ("doc_status", JStr (doc_status d));
   ("coverage", coverage d);
   ("coverage_status", JStr (coverage_status d));
   ("benchmark_count", JNat benchmark_count);
   ("performance_status", JStr "status-pass");
   ("vulnerability_count", JNat (vulnerability_count d));
   ("security_status", JStr (security_status d));
   ("audit_passed", audit_passed d);
   ("audit_status", JStr (audit_status d));
   ("migration_passed", migration_passed d);
   ("migration_total", JNum (migration_total d));
   ("migration_status", JStr (migration_status d));
   ("backward_compat", backward_compat d);
   ("compat_status", JStr (compat_status d));
   ("overall_result", JStr (overall_result d));
   ("overall_status", JStr (overall_status d))].

(** The results the collectors start from (lines 28-32, 74-78, 100-106,
    141-146, 173-177), kept when nothing is found to read. *)
Definition counts (passed failed : Q) : json :=
  JObj [("passed", JNum passed); ("failed", JNum failed);
        ("total", JNum (passed + failed))].

Definition default_collected : collected :=
  {| test_results :=
       JObj [("unit_tests", counts 0 0); ("integration_tests", counts 0 0);
             ("doc_tests", counts 0 0)];
     performance_results :=
       JObj [("benchmarks", JArr []); ("memory_usage", JObj []);
             ("throughput", JObj [])];
     coverage_results :=
       JObj [("line_coverage", JNum 0); ("branch_coverage", JNum 0);
             ("function_coverage", JNum 0); ("total_lines", JNum 0);
             ("covered_lines", JNum 0)];
     security_results :=
       JObj [("vulnerabilities", JArr []); ("audit_passed", JBool true);
             ("total_crates", JNum 0); ("vulnerable_crates", JNum 0)];
     compatibility_results :=
       JObj [("minecraft_versions", JObj []);
             ("migration_tests", JObj [("passed", JNum 0); ("failed", JNum 0)]);
             ("backward_compatibility", JBool true)] |}.

(** A run in which everything passes except one migration test, read
    from [migration_test_results.json] by lines 194-195. *)
Definition migration_failure : collected :=
  {| test_results :=
       JObj [("unit_tests", counts 12 0); ("integration_tests", counts 4 0);
             ("doc_tests", counts 2 0)];
     performance_results := performance_results default_collected;
     coverage_results := coverage_results default_collected;
     security_results := security_results default_collected;
     compatibility_results :=
       JObj [("minecraft_versions", JObj []);
             ("migration_tests", JObj [("passed", JNum 3); ("failed", JNum 1)]);
             ("backward_compatibility", JBool true)] |}.

(** The pass condition that counts the migration tests among the test
    categories. *)
Definition pass_condition_with_migration (d : derived) : Prop :=
  eq_zero (unit_failed d) = true /\ eq_zero (integration_failed d) = true /\
  eq_zero (doc_failed d) = true /\ eq_zero (migration_failed d) = true /\
  truthy (audit_passed d) = true /\ truthy (backward_compat d) = true.

(** The pass condition of lines 392-393. *)
Definition pass_condition (d : derived) : Prop :=
  eq_zero (unit_failed d) = true /\ eq_zero (integration_failed d) = true /\
  eq_zero (doc_failed d) = true /\
  truthy (audit_passed d) = true /\ truthy (backward_compat d) = true.

(** Where the values of the pass condition are read from. *)
Definition read_from (report_data : json) (d : derived) : Prop :=
  exists tests security compatibility migration,
    subscript report_data "test_results" = Ok tests /\
    subscript report_data "security_results" = Ok security /\
    subscript report_data "compatibility_results" = Ok compatibility /\
    count_of tests "unit_tests" "failed" = Ok (unit_failed d) /\
    count_of tests "integration_tests" "failed" = Ok (integration_failed d) /\
    count_of tests "doc_tests" "failed" = Ok (doc_failed d) /\
    get_default security "audit_passed" (JBool true) = Ok (audit_passed d) /\
    get_default compatibility "backward_compatibility" (JBool true)
      = Ok (backward_compat d) /\
    get_default compatibility "migration_tests" (JObj []) = Ok migration /\
    get_default migration "failed" (JNum 0) = Ok (migration_failed d).

(** The field of the template that is no keyword argument. *)
Definition stray_field : string := requote "`PASS` if audit_passed else `FAIL`".

Section Generator.

Variable format_value : json -> string -> string.
Variable json_dumps : json -> string.

(** [generate_html_report], lines 202-429. *)
Definition generate_html_report (report_data : json) : result string :=
  d ← derived_metrics report_data;
  timestamp ← subscript report_data "timestamp";
  performance_results ← subscript report_data "performance_results";
  benchmark_count ← get_default performance_results "benchmarks" (JArr []) ≫= len;
  format format_value html_template (format_arguments timestamp benchmark_count d).

(** [generate_report], lines 431-460, given what the collectors return. *)
Definition generate_report (timestamp : string) (c : collected) : io unit :=
  print "Collecting test results...";;
  print "Collecting performance results...";;
  print "Collecting coverage results...";;
  print "Collecting security results...";;
  print "Collecting compatibility results...";;
  let report_data := report_data_of timestamp c in
  print "Generating HTML report...";;
  html_report ← lift (generate_html_report report_data);
  write_file "nightly_report.html" html_report;;
  write_file "nightly_report.json" (json_dumps report_data);;
  print "âœ… Nightly report generated successfully!";;
  print "ðŸ“„ HTML report: nightly_report.html";;
  print "ðŸ“Š JSON data: nightly_report.json".

(** [main], lines 462-464. *)
Definition main (timestamp : string) (c : collected) : io unit :=
  generate_report timestamp c.

End Generator.

(** *** The collectors, lines 26-200 *)

(** What [subprocess.run(..., capture_output=True, text=True)] returns. *)
Record completed : Type := {
  returncode : Z;
  cp_stdout : string
}.

(** [{"passed": passed, "failed": failed, "total": passed + failed}]. *)
Definition suite_counts (passed failed : Z) : json :=
  JObj [("passed", JNum (inject_Z passed)); ("failed", JNum (inject_Z failed));
        ("total", JNum (inject_Z (passed + failed)))].

(** The dictionaries the collectors start from: lines 28-32, 74-78,
    100-106, 141-146 and 173-177. *)
Definition initial_test_results : dict json :=
  [("unit_tests", suite_counts 0 0); ("integration_tests", suite_counts 0 0);
   ("doc_tests", suite_counts 0 0)].

Definition initial_performance : dict json :=
  [("benchmarks", JArr []); ("memory_usage", JObj []); ("throughput", JObj [])].

Definition initial_coverage : dict PyNumber.number :=
  [("line_coverage", PyNumber.Float PyNumber.zero);
   ("branch_coverage", PyNumber.Float PyNumber.zero);
   ("function_coverage", PyNumber.Float PyNumber.zero);
   ("total_lines", PyNumber.Int 0); ("covered_lines", PyNumber.Int 0)].

Definition initial_security : dict json :=
  [("vulnerabilities", JArr []); ("audit_passed", JBool true);
   ("total_crates", JNum 0); ("vulnerable_crates", JNum 0)].

Definition initial_compatibility : dict json :=
  [("minecraft_versions", JObj []);
   ("migration_tests", JObj [("passed", JNum 0); ("failed", JNum 0)]);
   ("backward_compatibility", JBool true)].

Definition benchmark_files : list string :=
  ["benchmark_results.json"; "target/criterion/reports/index.html"].

Definition coverage_files : list string := ["lcov.info"; "coverage.json"].

Definition compat_files : list string :=
  ["compatibility_results.json"; "migration_test_results.json"].

(** Lines 158-160.  A block of assignments to a dictionary is a
    function from the dictionary to the dictionary as it is when the
    block is left, with the exception that ended it, if any. *)
Definition read_audit (audit_data : json) (security_results : dict json)
  : dict json * option exn :=
  match get_default audit_data "vulnerabilities" (JArr []) with
  | Raise e => (security_results, Some e)
  | Ok vulnerabilities =>
      let security_results :=
        dict_set security_results "vulnerabilities" vulnerabilities in
      match len vulnerabilities with
      | Raise e => (security_results, Some e)
      | Ok n =>
          let security_results :=
            dict_set security_results "vulnerable_crates" (JNat n) in
          (dict_set security_results "audit_passed" (JBool (Nat.eqb n 0)), None)
      end
  end.

(** [if key in data: results[key] = data[key]], lines 191-195. *)
Definition copy_member (key : string) (data : json) (results : dict json)
  : dict json * option exn :=
  match py_in key data with
  | Raise e => (results, Some e)
  | Ok false => (results, None)
  | Ok true =>
      match subscript data key with
      | Ok v => (dict_set results key v, None)
      | Raise e => (results, Some e)
      end
  end.

(** Lines 191-195. *)
Definition read_compatibility (data : json) (results : dict json)
  : dict json * option exn :=
  match copy_member "minecraft_versions" data results with
  | (results, None) => copy_member "migration_tests" data results
  | stopped => stopped
  end.

(** The successful and the unsuccessful counts of a suite in collected
    test results. *)
Definition suite_of (results : json) (suite : string) (passed failed : Z) : Prop :=
  subscript results suite = Ok (suite_counts passed failed).

(** Test results of the shape the report generator reads: the three
    suites in their order, each with a total that is the sum of its two
    counts. *)
Definition three_suites (test_results : dict json) : Prop :=
  exists up uf ip if_ dp df : Z,
    test_results = [("unit_tests", suite_counts up uf);
                    ("integration_tests", suite_counts ip if_);
                    ("doc_tests", suite_counts dp df)].

(** Compatibility results with the three keys in their order, and
    backward compatibility set. *)
Definition backward_compatible (compatibility_results : dict json) : Prop :=
  exists versions migration,
    compatibility_results = [("minecraft_versions", versions);
                             ("migration_tests", migration);
                             ("backward_compatibility", JBool true)].

(** Coverage results with [total_lines] lines of which [covered_lines]
    are covered, and the line coverage [percent]. *)
Definition coverage_of (total_lines covered_lines : Z) (percent : spec_float)
  : dict PyNumber.number :=
  [("line_coverage", PyNumber.Float percent);
   ("branch_coverage", PyNumber.Float PyNumber.zero);
   ("function_coverage", PyNumber.Float PyNumber.zero);
   ("total_lines", PyNumber.Int total_lines);
   ("covered_lines", PyNumber.Int covered_lines)].

(** What the collector returns for coverage data whose [LF:] numbers
    add up to [total_lines] and whose [LH:] numbers to [covered_lines]:
    with a positive total, the two sums and their ratio in percent,
    rounded as Python rounds it; the ratio stays at [0.0] when the
    quotient is too large for a double. *)
Definition coverage_from_totals (total_lines covered_lines : Z) : dict PyNumber.number :=
  if (0 <? total_lines)%Z then
    match PyNumber.int_truediv covered_lines total_lines with
    | Ok ratio =>
        coverage_of total_lines covered_lines
                    (PyNumber.fmul ratio (PyNumber.decimal 100 0))
    | Raise _ => coverage_of total_lines covered_lines PyNumber.zero
    end
  else initial_coverage.

(** The benchmarks the performance results take from the results
    file: the [benchmarks] member of the object its text is decoded to,
    and the empty list when there is no such member, no object, no
    decoded text or no file. *)
Definition benchmarks_read (json_loads : string -> result json) (file : option string)
  : json :=
  match file with
  | Some text =>
      match json_loads text with
      | Ok (JObj members) =>
          match dict_get members "benchmarks" with
          | Some benchmarks => benchmarks
          | None => JArr []
          end
      | _ => JArr []
      end
  | None => JArr []
  end.

(** A statement that returns [a] and leaves the files as they are. *)
Definition returns_quietly {A} (m : io A) (w : world) (a : A) : Prop :=
  exists out, m w = (Ok a, {| files := files w; stdout := out |}).

(** Stand-ins for [str.split()] and [int] on plain text: words between
    single spaces, and decimal numerals without sign. *)
Definition words_of (line : string) : list string :=
  List.filter (fun word => negb (String.eqb word EmptyString))
              (split_on (ascii_of_nat 32) line).

Fixpoint numeral_value (s : string) (acc : Z) : option Z :=
  match s with
  | EmptyString => Some acc
  | String c s' =>
      let n := nat_of_ascii c in
      if ((48 <=? n) && (n <=? 57))%nat
      then numeral_value s' (10 * acc + Z.of_nat (n - 48))
      else None
  end.

Definition numeral (s : string) : result Z :=
  match s with
  | EmptyString => Raise (ValueError s)
  | _ => match numeral_value s 0 with
         | Some z => Ok z
         | None => Raise (ValueError s)
         end
  end.

(** The output of a test run with one summary line as cargo prints it. *)
Definition cargo_output : string :=
  "running 5 tests" +:+ String linefeed
  ("test result: ok. 5 passed; 0 failed; 0 ignored; 0 measured; 0 filtered out"
   +:+ String linefeed EmptyString).

(** Coverage data of two source files. *)
Definition lcov_sample : string :=
  join (String linefeed EmptyString)
       ["SF:src/lib.rs"; "LF:30"; "LH:24"; "end_of_record";
        "SF:src/main.rs"; "LF:10"; "LH:6"; "end_of_record"].

(** A command that ends with [status] after printing [text], whatever
    its arguments, and changes no file. *)
Definition printing (status : Z) (text : string) : list string -> io completed :=
  fun _ w => (Ok {| returncode := status; cp_stdout := text |}, w).

(** The output of an audit that found one vulnerability, and a decoder
    that knows this one document. *)
Definition audit_output : string := requote "{`vulnerabilities`: [`RUSTSEC-2020-0071`]}".

Definition decode_audit (text : string) : result json :=
  if String.eqb text audit_output
  then Ok (JObj [("vulnerabilities", JArr [JStr "RUSTSEC-2020-0071"])])
  else Raise JSONDecodeError.

Section Collectors.

(** The surroundings of the collectors: the commands they run, the
    JSON decoder, [int] and [str.split()] on text, and [str(e)]. *)
Variable subprocess_run : list string -> io completed.
Variable json_loads : string -> result json.
Variable py_int : string -> result Z.
Variable split_words : string -> list string.
Variable str_of_exn : exn -> string.

(** [except Exception as e: print(message + str(e))], after which the
    collector goes on with [value]. *)
Definition caught {A} (message : string) (e : exn) (value : A) : io A :=
  if is_Exception e then print (message +:+ str_of_exn e);; mret value
  else raise e.

(** The end of a [try] block that has left the dictionary as in
    [outcome]. *)
Definition finish {S} (message : string) (outcome : S * option exn) : io S :=
  match outcome with
  | (state, None) => mret state
  | (state, Some e) => caught message e state
  end.

(** [with open(path, 'r') as f:] followed by a block on the text of the
    file, inside a [try]. *)
Definition with_file {S} (message path : string)
           (block : string -> S * option exn) (state : S) : io S := fun w =>
  match read_file path w with
  | (Ok text, w') => finish message (block text) w'
  | (Raise e, w') => caught message e state w'
  end.

(** Lines 46-64 for one line of output: the suite whose entry is
    replaced, with its new counts. *)
Definition summary_of (line : string) : result (option (string * json)) :=
  if contains "test result:" line then
    match split_words line with
    | _ :: _ :: passed_word :: _ :: _ :: failed_word :: _ =>
        passed ← py_int passed_word;
        failed ← (if contains "failed" line then py_int failed_word else Ok 0%Z);
        let suite :=
          if contains "integration" line then "integration_tests"
          else if contains "doc" line then "doc_tests"
          else "unit_tests" in
        Ok (Some (suite, suite_counts passed failed))
    | _ => Ok None
    end
  else Ok None.

(** The loop of lines 45-64. *)
Fixpoint scan_summaries (lines : list string) (test_results : dict json)
  : dict json * option exn :=
  match lines with
  | [] => (test_results, None)
  | line :: rest =>
      match summary_of line with
      | Raise e => (test_results, Some e)
      | Ok None => scan_summaries rest test_results
      | Ok (Some (suite, counts)) =>
          scan_summaries rest (dict_set test_results suite counts)
      end
  end.

(** [collect_test_results], lines 26-69. *)
Definition collect_test_results : io json := fun w =>
  let message := "Error collecting test results: " in
  match subprocess_run ["cargo"; "test"; "--all-features"; "--"; "--format=json"] w with
  | (Ok result, w') =>
      (test_results ←
         finish message
                (scan_summaries (split_on linefeed (cp_stdout result))
                                initial_test_results);
       mret (JObj test_results)) w'
  | (Raise e, w') => caught message e (JObj initial_test_results) w'
  end.

(** Lines 89-92. *)
Definition read_benchmark_results (text : string) (performance_results : dict json)
  : dict json * option exn :=
  match json_loads text with
  | Raise e => (performance_results, Some e)
  | Ok data =>
      match get_default data "benchmarks" (JArr []) with
      | Raise e => (performance_results, Some e)
      | Ok benchmarks => (dict_set performance_results "benchmarks" benchmarks, None)
      end
  end.

(** The loop of lines 86-94. *)
Fixpoint performance_loop (paths : list string) (performance_results : dict json)
  : io (dict json) :=
  match paths with
  | [] => mret performance_results
  | file_path :: rest =>
      found ← path_exists file_path;
      performance_results ←
        ((if (found : bool) then
           if endswith ".json" file_path then
             with_file ("Error reading " +:+ file_path +:+ ": ") file_path
                       (fun text => read_benchmark_results text performance_results)
                       performance_results
           else mret performance_results
         else mret performance_results) : io (dict json));
      performance_loop rest performance_results
  end.

(** [collect_performance_results], lines 72-96. *)
Definition collect_performance_results : io json :=
  performance_results ← performance_loop benchmark_files initial_performance;
  mret (JObj performance_results).

(** [int(line.split(':')[1])], lines 125 and 127, on a line that
    starts with [LF:] or [LH:] and so has a second part. *)
Definition lcov_count (line : string) : result Z :=
  py_int (nth 1 (split_on colon line) EmptyString).

(** The loop of lines 123-127. *)
Fixpoint lcov_totals (lines : list string) (total_lines covered_lines : Z)
  : result (Z * Z) :=
  match lines with
  | [] => Ok (total_lines, covered_lines)
  | line :: rest =>
      if String.prefix "LF:" line then
        n ← lcov_count line; lcov_totals rest (total_lines + n) covered_lines
      else if String.prefix "LH:" line then
        n ← lcov_count line; lcov_totals rest total_lines (covered_lines + n)
      else lcov_totals rest total_lines covered_lines
  end.

(** Lines 117-132. *)
Definition read_lcov (content : string) (coverage_results : dict PyNumber.number)
  : dict PyNumber.number * option exn :=
  match lcov_totals (split_on linefeed content) 0 0 with
  | Raise e => (coverage_results, Some e)
  | Ok (total_lines, covered_lines) =>
      if (0 <? total_lines)%Z then
        let coverage_results :=
          dict_set coverage_results "total_lines" (PyNumber.Int total_lines) in
        let coverage_results :=
          dict_set coverage_results "covered_lines" (PyNumber.Int covered_lines) in
        match
          ratio ← PyNumber.py_truediv (PyNumber.Int covered_lines)
                                      (PyNumber.Int total_lines);
          PyNumber.py_mul (PyNumber.Float ratio) (PyNumber.Int 100)
        with
        | Raise e => (coverage_results, Some e)
        | Ok percent => (dict_set coverage_results "line_coverage" percent, None)
        end
      else (coverage_results, None)
  end.

(** The loop of lines 111-135. *)
Fixpoint coverage_loop (paths : list string) (coverage_results : dict PyNumber.number)
  : io (dict PyNumber.number) :=
  match paths with
  | [] => mret coverage_results
  | file_path :: rest =>
      found ← path_exists file_path;
      coverage_results ←
        ((if (found : bool) then
           if String.eqb file_path "lcov.info" then
             with_file ("Error reading coverage file " +:+ file_path +:+ ": ")
                       file_path
                       (fun content => read_lcov content coverage_results)
                       coverage_results
           else mret coverage_results
         else mret coverage_results) : io (dict PyNumber.number));
      coverage_loop rest coverage_results
  end.

(** [collect_coverage_results], lines 98-137. *)
Definition collect_coverage_results : io (dict PyNumber.number) :=
  coverage_loop coverage_files initial_coverage.

(** Lines 156-162: the inner [try], with its [except
    json.JSONDecodeError: pass]. *)
Definition parse_audit (text : string) (security_results : dict json)
  : dict json * option exn :=
  let outcome :=
    match json_loads text with
    | Raise e => (security_results, Some e)
    | Ok audit_data => read_audit audit_data security_results
    end in
  match outcome with
  | (security_results, Some JSONDecodeError) => (security_results, None)
  | _ => outcome
  end.

(** [collect_security_results], lines 139-167. *)
Definition collect_security_results : io json := fun w =>
  let message := "Error running security audit: " in
  match subprocess_run ["cargo"; "audit"; "--format"; "json"] w with
  | (Ok result, w') =>
      (security_results ←
         (if (returncode result =? 0)%Z then
            finish message (parse_audit (cp_stdout result) initial_security)
          else mret initial_security);
       mret (JObj security_results)) w'
  | (Raise e, w') => caught message e (JObj initial_security) w'
  end.

(** The loop of lines 185-198. *)
Fixpoint compatibility_loop (paths : list string) (compatibility_results : dict json)
  : io (dict json) :=
  match paths with
  | [] => mret compatibility_results
  | file_path :: rest =>
      found ← path_exists file_path;
      compatibility_results ←
        ((if (found : bool) then
           with_file ("Error reading compatibility file " +:+ file_path +:+ ": ")
                     file_path
                     (fun text =>
                        match json_loads text with
                        | Raise e => (compatibility_results, Some e)
                        | Ok data => read_compatibility data compatibility_results
                        end)
                     compatibility_results
         else mret compatibility_results) : io (dict json));
      compatibility_loop rest compatibility_results
  end.

(** [collect_compatibility_results], lines 169-200. *)
Definition collect_compatibility_results : io json :=
  compatibility_results ← compatibility_loop compat_files initial_compatibility;
  mret (JObj compatibility_results).

End Collectors.

End GenerateNightlyReport.

(** ** scripts/load_test.py *)

Module LoadTest.
Import Py.

Record ConnectionResult : Type := {
  connection_id : Z;
  connect_time : Q;
  total_time : Q;
  packets_sent : Z;
  packets_received : Z;
  errors : Z;
  success : bool
}.

Record LoadTestResults : Type := {
  total_connections : nat;
  successful_connections : nat;
  failed_connections : nat;
  total_duration : Q;
  avg_connect_time : Q;
  avg_response_time : Q;
  packets_per_second : Q;
  errors_per_second : Q;
  memory_usage_mb : Q
}.

(** *** One simulated session *)

(** What comes back from one HTTP request of a session: a response with
    its status and nothing raised until the next request; a response,
    followed by an exception later in the same [try] block (on leaving
    the response or while sleeping); or an exception from the request
    itself. *)
Inductive reply : Type :=
| Replied (status : Z)
| RepliedThenRaised (status : Z)
| RequestRaised.

(** The surroundings of one session.  [ticks] lists, for each evaluation
    of the loop condition of line 75 that the clock allows, the reading
    of [time.time()] there and the reply to the POST issued if the loop
    goes on; once the list is used up the clock has passed [end_time]. *)
Record session_env : Type := {
  session_opens : bool;
  start_time : Q;
  connect_start : Q;
  connect_reply : reply;
  connected_at : Q;
  ticks : list (Q * reply);
  session_closes : bool;
  finish_time : Q
}.

(** The counters of lines 49-53.  [posts] is not a variable of the
    script: it counts the keep-alive requests issued so far. *)
Record counters : Type := {
  c_connect_time : Q;
  c_packets_sent : Z;
  c_packets_received : Z;
  c_errors : Z;
  c_success : bool;
  posts : nat
}.

Definition initial : counters :=
  {| c_connect_time := 0; c_packets_sent := 0; c_packets_received := 0;
     c_errors := 0; c_success := false; posts := 0 |}.

Definition add_error (c : counters) : counters :=
  {| c_connect_time := c_connect_time c; c_packets_sent := c_packets_sent c;
     c_packets_received := c_packets_received c; c_errors := c_errors c + 1;
     c_success := c_success c; posts := posts c |}.

Definition add_post (c : counters) : counters :=
  {| c_connect_time := c_connect_time c; c_packets_sent := c_packets_sent c;
     c_packets_received := c_packets_received c; c_errors := c_errors c;
     c_success := c_success c; posts := S (posts c) |}.

(** Lines 88-92. *)
Definition on_status (status : Z) (c : counters) : counters :=
  if (status =? 200)%Z then
    {| c_connect_time := c_connect_time c; c_packets_sent := c_packets_sent c + 1;
       c_packets_received := c_packets_received c + 1; c_errors := c_errors c;
       c_success := c_success c; posts := posts c |}
  else add_error c.

(** Lines 63-70: the connection attempt. *)
Definition connect (env : session_env) (c : counters) : counters :=
  let connected (status : Z) (c : counters) : counters :=
    if (status =? 200)%Z then
      {| c_connect_time := (connected_at env - connect_start env)%Q;
         c_packets_sent := c_packets_sent c;
         c_packets_received := c_packets_received c; c_errors := c_errors c;
         c_success := true; posts := posts c |}
    else c in
  match connect_reply env with
  | Replied status => connected status c
  | RepliedThenRaised status => add_error (connected status c)
  | RequestRaised => add_error c
  end.

(** Lines 75-100: the keep-alive loop. *)
Fixpoint keep_alive (end_time : Q) (ticks : list (Q * reply)) (c : counters)
  : counters :=
  match ticks with
  | [] => c
  | (now, rep) :: rest =>
      if Qltb now end_time && (c_errors c <? 10)%Z then
        match rep with
        | Replied status =>
            keep_alive end_time rest (on_status status (add_post c))
        | RepliedThenRaised status =>
            let c' := add_error (on_status status (add_post c)) in
            if (10 <=? c_errors c')%Z then c' else keep_alive end_time rest c'
        | RequestRaised =>
            let c' := add_error (add_post c) in
            if (10 <=? c_errors c')%Z then c' else keep_alive end_time rest c'
        end
      else c
  end.

(** Lines 48-104: the counters when the [try] statement is left. *)
Definition session_counters (duration : Z) (env : session_env) : counters :=
  if session_opens env then
    let c := connect env initial in
    let c :=
      if c_success c then
        keep_alive (start_time env + inject_Z duration)%Q (ticks env) c
      else c in
    if session_closes env then c else add_error c
  else add_error initial.

(** [simulate_bedrock_connection], lines 46-116.  The diagnostic prints
    of lines 70 and 104 are left out. *)
Definition simulate_bedrock_connection (connection_id : Z) (duration : Z)
           (env : session_env) : ConnectionResult :=
  let c := session_counters duration env in
  {| connection_id := connection_id;
     connect_time := c_connect_time c;
     total_time := (finish_time env - start_time env)%Q;
     packets_sent := c_packets_sent c;
     packets_received := c_packets_received c;
     errors := c_errors c;
     success := c_success c && (c_errors c <? 10)%Z |}.

(** The keep-alive requests a session issues. *)
Definition requests_issued (duration : Z) (env : session_env) : nat :=
  posts (session_counters duration env).

(** What one turn of the loop does to the counters. *)
Definition after_reply (rep : reply) (c : counters) : counters :=
  match rep with
  | Replied status => on_status status (add_post c)
  | RepliedThenRaised status => add_error (on_status status (add_post c))
  | RequestRaised => add_error (add_post c)
  end.

(** The errors a reply adds to the session's count. *)
Definition reply_errors (rep : reply) : Z :=
  match rep with
  | Replied status => if (status =? 200)%Z then 0 else 1
  | RepliedThenRaised status => if (status =? 200)%Z then 1 else 2
  | RequestRaised => 1
  end.

(** The error count after the replies [reps], starting from [e0]. *)
Definition errors_through (e0 : Z) (reps : list reply) : Z :=
  fold_left (fun e rep => e + reply_errors rep)%Z reps e0.

(** A session that connects and then gets ten replies with status 500,
    with time and healthy replies left for five more requests. *)
Definition failing_session : session_env :=
  {| session_opens := true; start_time := 0; connect_start := 0;
     connect_reply := Replied 200; connected_at := 1 # 10;
     ticks := repeat (1%Q, Replied 500) 10 ++ repeat (2%Q, Replied 200) 5;
     session_closes := true; finish_time := 3 |}.

(** Whether the connection attempt of lines 63-67 sets [success]. *)
Definition connects (env : session_env) : bool :=
  session_opens env &&
  match connect_reply env with
  | Replied status | RepliedThenRaised status => (status =? 200)%Z
  | RequestRaised => false
  end.

(** The turns of the loop that begin before the deadline: the ticks up
    to the first reading of the clock that is not below [end_time]. *)
Fixpoint on_time (end_time : Q) (ticks : list (Q * reply)) : list (Q * reply) :=
  match ticks with
  | [] => []
  | (now, rep) :: rest =>
      if Qltb now end_time then (now, rep) :: on_time end_time rest else []
  end.

(** A session that connects at once and has three healthy replies
    before the deadline of one second and one after it. *)
Definition healthy_session : session_env :=
  {| session_opens := true; start_time := 0; connect_start := 0;
     connect_reply := Replied 200; connected_at := 1 # 10;
     ticks := repeat ((1 # 2)%Q, Replied 200) 3 ++ [(2%Q, Replied 200)];
     session_closes := true; finish_time := 2 |}.

(** *** The whole run *)

(** An element of what [asyncio.gather(..., return_exceptions=True)]
    returns. *)
Inductive gathered : Type :=
| Result (r : ConnectionResult)
| Exc (e : exn).

(** The surroundings of a run: for each task either the surroundings of
    its session or, when the task ends with an exception, that
    exception; the clock of lines 122 and 142; the memory gauge. *)
Record load_env : Type := {
  task : nat -> session_env + exn;
  run_start : Q;
  run_end : Q;
  memory_usage : Q
}.

Definition is_ConnectionResult (g : gathered) : option ConnectionResult :=
  match g with Result r => Some r | Exc _ => None end.

Definition Qnat (n : nat) : Q := inject_Z (Z.of_nat n).

Definition Zsum (l : list Z) : Z := fold_right Z.add 0%Z l.

(** Lines 124-137: the gathered results of tasks [0 .. num_connections-1].
    The tasks share no state, so the order in which they are scheduled and
    the pauses between their launches leave the results as they are. *)
Definition gather (num_connections duration : Z) (env : load_env) : list gathered :=
  map (fun i =>
         match task env i with
         | inl senv => Result (simulate_bedrock_connection (Z.of_nat i) duration senv)
         | inr e => Exc e
         end)
      (seq 0 (Z.to_nat num_connections)).

(** Lines 139-167: the statistics of the gathered results. *)
Definition statistics_of (results : list gathered) (env : load_env)
  : result LoadTestResults :=
  let valid_results := omap is_ConnectionResult results in
  let total_duration := (run_end env - run_start env)%Q in
  let successful := filter (fun r => success r = true) valid_results in
  let failed := filter (fun r => negb (success r) = true) valid_results in
  avg_connect_time ←
    match successful with
    | [] => Ok 0%Q
    | _ => statistics_mean (map connect_time successful)
    end;
  avg_response_time ←
    match successful with
    | [] => Ok 0%Q
    | _ => statistics_mean (map total_time successful)
    end;
  let total_packets := Zsum (map packets_sent valid_results) in
  packets_per_second ←
    (if Qltb 0 total_duration then truediv (inject_Z total_packets) total_duration
     else Ok 0%Q);
  let total_errors := Zsum (map errors valid_results) in
  errors_per_second ←
    (if Qltb 0 total_duration then truediv (inject_Z total_errors) total_duration
     else Ok 0%Q);
  Ok {| total_connections := length valid_results;
        successful_connections := length successful;
        failed_connections := length failed;
        total_duration := total_duration;
        avg_connect_time := avg_connect_time;
        avg_response_time := avg_response_time;
        packets_per_second := packets_per_second;
        errors_per_second := errors_per_second;
        memory_usage_mb := memory_usage env |}.

(** [run_load_test], lines 118-167. *)
Definition run_load_test (num_connections duration : Z) (env : load_env)
  : io LoadTestResults :=
  print ("Starting load test: " +:+ pretty num_connections +:+ " connections for "
         +:+ pretty duration +:+ " seconds");;
  lift (statistics_of (gather num_connections duration env) env).

(** The sessions of a run that count as successful, and what it means
    for [m] to be the mean of [l], zero standing for the mean of no
    value. *)
Definition successful_sessions (results : list gathered) : list ConnectionResult :=
  filter (fun r => success r = true) (omap is_ConnectionResult results).

Definition mean_of (m : Q) (l : list Q) : Prop :=
  match l with
  | [] => m = 0%Q
  | _ => (m * Qnat (length l) == Qsum l)%Q
  end.

(** The verdict of lines 201-209. *)
Inductive assessment : Type := PASS | WARNING | FAIL.

Definition assessment_lines (a : assessment) : list string :=
  match a with
  | PASS =>
      ["## ✅ Performance Assessment: PASS";
       "The server handled the load test successfully with minimal failures."]
  | WARNING =>
      ["## ⚠️ Performance Assessment: WARNING";
       "The server showed some performance issues under load."]
  | FAIL =>
      ["## ❌ Performance Assessment: FAIL";
       "The server failed to handle the load test adequately."]
  end.

(** [results.successful_connections / results.total_connections]. *)
Definition success_ratio (results : LoadTestResults) : result Q :=
  truediv (Qnat (successful_connections results)) (Qnat (total_connections results)).

(** Lines 201-209. *)
Definition assess (results : LoadTestResults) : result assessment :=
  ratio ← success_ratio results;
  if Qle_bool (95 # 100) ratio then Ok PASS
  else
    ratio' ← success_ratio results;
    if Qle_bool (80 # 100) ratio' then Ok WARNING else Ok FAIL.

Definition newline : string := String (ascii_of_nat 10) EmptyString.

(** Whether task [i] of a run returns a session result. *)
Definition returned (env : load_env) (i : nat) : bool :=
  match task env i with inl _ => true | inr _ => false end.

(** The session results among the gathered ones (line 140). *)
Definition valid_results (results : list gathered) : list ConnectionResult :=
  omap is_ConnectionResult results.

Record arguments : Type := {
  host : string;
  port : Z;
  connections : Z;
  duration : Z;
  output : string
}.

(** A run of ten sessions of which the first fails to connect, and a
    run of no session at all. *)
Definition quiet_session (reply : reply) : session_env :=
  {| session_opens := true; start_time := 0; connect_start := 0;
     connect_reply := reply; connected_at := 1 # 10; ticks := [];
     session_closes := true; finish_time := 1 |}.

Definition nine_of_ten : load_env :=
  {| task := fun i => inl (quiet_session (match i with
                                          | O => RequestRaised
                                          | _ => Replied 200
                                          end));
     run_start := 0; run_end := 2; memory_usage := 0 |}.

Definition ten_connections : arguments :=
  {| host := "localhost"; port := 19132; connections := 10; duration := 1;
     output := "load_test_results.json" |}.

Definition without_output : arguments :=
  {| host := "localhost"; port := 19132; connections := 10; duration := 1;
     output := EmptyString |}.

Definition no_connection : arguments :=
  {| host := "localhost"; port := 19132; connections := 0; duration := 1;
     output := "load_test_results.json" |}.

Section Tester.

Variable format_num : string -> Q -> string.
Variable json_dumps : LoadTestResults -> string.
Variable str_of_exn : exn -> string.

(** The lines of lines 180-198. *)
Definition report_head (args : arguments) (results : LoadTestResults)
  : result (list string) :=
  ratio ← success_ratio results;
  Ok ["# Load Test Report" +:+ newline;
      "## Test Configuration";
      "- **Target**: " +:+ host args +:+ ":" +:+ pretty (port args);
      "- **Total Connections**: " +:+ pretty (total_connections results);
      "- **Test Duration**: " +:+ format_num ".2f" (total_duration results)
        +:+ " seconds" +:+ newline;
      "## Results Summary";
      "- **Successful Connections**: " +:+ pretty (successful_connections results);
      "- **Failed Connections**: " +:+ pretty (failed_connections results);
      "- **Success Rate**: " +:+ format_num ".1f" (ratio * 100)%Q +:+ "%" +:+ newline;
      "## Performance Metrics";
      "- **Average Connect Time**: " +:+ format_num ".3f" (avg_connect_time results)
        +:+ " seconds";
      "- **Average Response Time**: " +:+ format_num ".3f" (avg_response_time results)
        +:+ " seconds";
      "- **Packets per Second**: " +:+ format_num ".1f" (packets_per_second results);
      "- **Errors per Second**: " +:+ format_num ".1f" (errors_per_second results);
      "- **Memory Usage**: " +:+ format_num ".1f" (memory_usage_mb results)
        +:+ " MB" +:+ newline].

(** [generate_report], lines 178-211. *)
Definition generate_report (args : arguments) (results : LoadTestResults)
  : result string :=
  head ← report_head args results;
  a ← assess results;
  Ok (join newline (head ++ assessment_lines a)).

(** [main], lines 223-254: the run on the parsed arguments [args].
    What comes before, [parser.parse_args()] at line 221, can end the
    process on its own (status 2 for a command line it refuses, 0 for
    [--help]) and is not part of this definition. *)
Definition main (args : arguments) (env : load_env) : io unit :=
  try_except
    (print "Starting load test...";;
     results ← run_load_test (connections args) (duration args) env;
     report ← lift (generate_report args results);
     print report;;
     write_file (output args) (json_dumps results);;
     write_file "load_test_report.md" report;;
     print (newline +:+ "Results saved to " +:+ output args);;
     print "Report saved to load_test_report.md";;
     success_rate ← lift (success_ratio results);
     if Qltb success_rate (80 # 100) then
       print (newline +:+ "❌ Load test failed with "
              +:+ format_num ".1%" success_rate +:+ " success rate");;
       sys_exit 1
     else
       print (newline +:+ "✅ Load test passed with "
              +:+ format_num ".1%" success_rate +:+ " success rate"))
    (fun e =>
       print ("Load test failed: " +:+ str_of_exn e);;
       sys_exit 1).

End Tester.

End LoadTest.

(** ** Facts about the prelude *)

Section PreludeFacts.
Import Py.

Lemma prefix_substring (p s : string) :
  String.prefix p s = true -> exists post, s = p +:+ post.
Proof.
  revert s. induction p as [|c p IH]; intros s H.
  - exists s. reflexivity.
  - destruct s as [|d s]; simpl in H; [discriminate|].
    destruct (Ascii.ascii_dec c d) as [->|]; [|discriminate].
    destruct (IH _ H) as [post ->]. exists post. reflexivity.
Qed.

Lemma prefix_append (p post : string) : String.prefix p (p +:+ post) = true.
Proof.
  induction p as [|c p IH]; simpl.
  - destruct post; reflexivity.
  - destruct (Ascii.ascii_dec c c); [exact IH | congruence].
Qed.

Lemma contains_substring (needle hay : string) :
  contains needle hay = true <-> substring_of needle hay.
Proof.
  split.
  - induction hay as [|c hay IH]; cbn [contains]; intros H;
      apply orb_true_iff in H as [H|H]; try discriminate.
    + destruct (prefix_substring _ _ H) as [post E].
      exists EmptyString, post. exact E.
    + destruct (prefix_substring _ _ H) as [post E].
      exists EmptyString, post. exact E.
    + destruct (IH H) as (pre & post & ->).
      exists (String c pre), post. reflexivity.
  - intros (pre & post & ->). induction pre as [|c pre IH].
    + change (EmptyString +:+ needle +:+ post) with (needle +:+ post).
      pose proof (prefix_append needle post) as P.
      destruct (needle +:+ post); cbn [contains]; rewrite P; reflexivity.
    + change (String c pre +:+ needle +:+ post)
        with (String c (pre +:+ needle +:+ post)).
      cbn [contains]. rewrite IH. apply orb_true_r.
Qed.

Lemma append_nonempty (a b : string) : b <> EmptyString -> a +:+ b <> EmptyString.
Proof. intros H. destruct a; [exact H | discriminate]. Qed.

Lemma write_file_ok (path content : string) (w : world) :
  path <> EmptyString ->
  write_file path content w
  = (Ok tt, {| files := <[path := content]> (files w); stdout := stdout w |}).
Proof.
  intros H. unfold write_file. apply String.eqb_neq in H. rewrite H. reflexivity.
Qed.

Lemma write_file_empty_path (content : string) (w : world) :
  write_file EmptyString content w = (Raise (FileNotFoundError EmptyString), w).
Proof. reflexivity. Qed.

Lemma copy2_ok (src dst text : string) (w : world) :
  files w !! src = Some text -> src <> dst -> dst <> EmptyString ->
  copy2 src dst w
  = (Ok tt, {| files := <[dst := text]> (files w); stdout := stdout w |}).
Proof.
  intros Hsrc Hne Hdst. unfold copy2. apply String.eqb_neq in Hne. rewrite Hne.
  cbn [andb]. unfold mbind, io_bind, read_file. rewrite Hsrc.
  apply write_file_ok. exact Hdst.
Qed.

Lemma copy2_same_file (path text : string) (w : world) :
  files w !! path = Some text ->
  copy2 path path w = (Raise (SameFileError path path), w).
Proof.
  intros H. unfold copy2. rewrite String.eqb_refl, H.
  rewrite bool_decide_eq_true_2 by eauto. reflexivity.
Qed.

End PreludeFacts.

(** ** Categorisation: first match in priority order *)

Section Categorisation.
Import Py GenerateBenchmarkCharts.

Lemma group_matchesb_spec (kws : list string) (s : string) :
  group_matchesb kws s = true <-> group_matches kws s.
Proof.
  unfold group_matchesb, group_matches. rewrite existsb_exists.
  split; intros (k & Hk & Hs); exists k; split; auto;
    apply contains_substring; exact Hs.
Qed.

Lemma categorize_benchmark_table (name : string) :
  categorize_benchmark name = first_matchb priority_table (lower name).
Proof.
  unfold categorize_benchmark, priority_table, first_matchb, group_matchesb, existsb.
  rewrite !orb_false_r, <- !orb_assoc. reflexivity.
Qed.

Lemma first_match_nil (s cat : string) :
  first_match [] s cat <-> cat = "general".
Proof.
  unfold first_match. split.
  - intros [(i & kws & H & _) | [H _]]; [destruct i; discriminate | exact H].
  - intros ->. right. split; [reflexivity | intros ? ? []].
Qed.

Lemma first_match_cons (c : string) (kws : list string)
      (table : list (string * list string)) (s cat : string) :
  first_match ((c, kws) :: table) s cat <->
  (group_matches kws s /\ cat = c) \/ (~ group_matches kws s /\ first_match table s cat).
Proof.
  unfold first_match. split.
  - intros [(i & kws' & Hi & Hm & Hfirst) | [Hg Hnone]].
    + destruct i as [|i]; simpl in Hi.
      * injection Hi as <- <-. left. auto.
      * right. split.
        { apply (Hfirst 0%nat c kws); [lia | reflexivity]. }
        left. exists i, kws'. repeat split; auto.
        intros j c' k' Hj Hl. apply (Hfirst (S j) c' k'); [lia | exact Hl].
    + right. split.
      * apply (Hnone c). left. reflexivity.
      * right. split; [exact Hg|]. intros c' k' Hin. apply (Hnone c'). right. exact Hin.
  - intros [[Hm ->] | [Hn [(i & kws' & Hi & Hm & Hfirst) | [Hg Hnone]]]].
    + left. exists 0%nat, kws. repeat split; auto. intros j ? ? Hj. lia.
    + left. exists (S i), kws'. repeat split; auto.
      intros [|j] c' k' Hj Hl; simpl in Hl.
      * injection Hl as <- <-. exact Hn.
      * apply (Hfirst j c' k'); [lia | exact Hl].
    + right. split; [exact Hg|]. intros c' k' [Heq | Hin].
      * injection Heq as <- <-. exact Hn.
      * apply (Hnone c'). exact Hin.
Qed.

Lemma first_matchb_spec (table : list (string * list string)) (s cat : string) :
  first_matchb table s = cat <-> first_match table s cat.
Proof.
  induction table as [|[c kws] table IH]; simpl.
  - rewrite first_match_nil. split; congruence.
  - rewrite first_match_cons, <- IH, <- group_matchesb_spec.
    destruct (group_matchesb kws s); split.
    + intros <-. left. auto.
    + intros [[_ ->] | [H _]]; [reflexivity | congruence].
    + intros H. right. split; [congruence | exact H].
    + intros [[H _] | [_ H]]; [discriminate | exact H].
Qed.

(** C9. [categorize_benchmark] assigns to a name the category of the
    first keyword group, in the order memory, network, ecs, plugin,
    tick_rate, server, that has a keyword occurring in the lower-cased
    name, and ["general"] when no group has one; so a name with both
    "memory" and "packet" in it is a memory benchmark. *)
Theorem categorize_benchmark_first_match (name cat : string) :
  (categorize_benchmark name = cat <-> first_match priority_table (lower name) cat)
  /\ (substring_of "memory" (lower name) -> substring_of "packet" (lower name) ->
      categorize_benchmark name = "memory").
Proof.
  split.
  - rewrite categorize_benchmark_table. apply first_matchb_spec.
  - intros Hm _. apply contains_substring in Hm.
    unfold categorize_benchmark. rewrite Hm. reflexivity.
Qed.

Lemma categorize_benchmark_first_match_witness :
  substring_of "memory" (lower "Memory_Packet_Pool") /\
  substring_of "packet" (lower "Memory_Packet_Pool") /\
  categorize_benchmark "Memory_Packet_Pool" = "memory".
Proof.
  assert (Hm : substring_of "memory" (lower "Memory_Packet_Pool")).
  { apply contains_substring. vm_compute. reflexivity. }
  assert (Hp : substring_of "packet" (lower "Memory_Packet_Pool")).
  { apply contains_substring. vm_compute. reflexivity. }
  split; [exact Hm | split; [exact Hp |]].
  exact (proj2 (categorize_benchmark_first_match "Memory_Packet_Pool" "memory") Hm Hp).
Defined.

End Categorisation.

(** ** Numbers and effects: basic facts *)

Section Basics.
Import Py.

Lemma Qltb_lt (x y : Q) : Qltb x y = true <-> (x < y)%Q.
Proof.
  unfold Qltb. rewrite negb_true_iff. split.
  - intros H. apply Qnot_le_lt. intros Hle.
    apply Qle_bool_iff in Hle. congruence.
  - intros H. destruct (Qle_bool y x) eqn:E; [|reflexivity].
    apply Qle_bool_iff in E. exfalso. exact (Qlt_not_le _ _ H E).
Qed.

Lemma Qltb_ge (x y : Q) : Qltb x y = false <-> (y <= x)%Q.
Proof.
  unfold Qltb. rewrite negb_false_iff. apply Qle_bool_iff.
Qed.

Lemma Qeq_bool_false (x y : Q) : Qeq_bool x y = false <-> ~ (x == y)%Q.
Proof.
  split.
  - intros H E. apply Qeq_bool_iff in E. congruence.
  - intros H. destruct (Qeq_bool x y) eqn:E; [|reflexivity].
    apply Qeq_bool_iff in E. contradiction.
Qed.

Lemma truediv_ok (a b : Q) : ~ (b == 0)%Q -> truediv a b = Ok (a / b)%Q.
Proof.
  intros H. unfold truediv. apply Qeq_bool_false in H. rewrite H. reflexivity.
Qed.

Lemma truediv_zero (a b : Q) : (b == 0)%Q -> truediv a b = Raise ZeroDivisionError.
Proof.
  intros H. unfold truediv. apply Qeq_bool_iff in H. rewrite H. reflexivity.
Qed.

Lemma bind_Ok_inv {A B} (m : result A) (k : A -> result B) (b : B) :
  m ≫= k = Ok b -> exists a, m = Ok a /\ k a = Ok b.
Proof. destruct m as [a|e]; [eauto | discriminate]. Qed.

(** A computation that does not end in a division by zero. *)
Lemma bind_no_zero_division {A B} (m : result A) (k : A -> result B) :
  m <> Raise ZeroDivisionError ->
  (forall a, m = Ok a -> k a <> Raise ZeroDivisionError) ->
  m ≫= k <> Raise ZeroDivisionError.
Proof.
  intros Hm Hk. destruct m as [a|e]; [apply Hk; reflexivity |].
  intros H. apply Hm. injection H as ->. reflexivity.
Qed.

Lemma subscript_no_zero_division (obj : json) (key : string) :
  subscript obj key <> Raise ZeroDivisionError.
Proof. destruct obj; simpl; try discriminate. destruct (dict_get _ _); discriminate. Qed.

Lemma as_str_no_zero_division (j : json) : as_str j <> Raise ZeroDivisionError.
Proof. destruct j; discriminate. Qed.

Lemma as_num_no_zero_division (j : json) : as_num j <> Raise ZeroDivisionError.
Proof. destruct j; discriminate. Qed.

Lemma dict_get_set {V} (d : dict V) (k k' : string) (v : V) :
  dict_get (dict_set d k v) k' = if String.eqb k k' then Some v else dict_get d k'.
Proof.
  induction d as [|[k0 v0] d IH]; simpl.
  - reflexivity.
  - destruct (String.eqb k0 k) eqn:E0; simpl.
    + apply String.eqb_eq in E0. subst k0.
      destruct (String.eqb k k'); reflexivity.
    + destruct (String.eqb k0 k') eqn:E1; [|exact IH].
      apply String.eqb_eq in E1. subst k0. rewrite String.eqb_sym, E0. reflexivity.
Qed.

End Basics.

(** ** The comparator *)

Section ComparatorFacts.
Import Py CompareBenchmarks.

Lemma compare_entry_nonzero (name : string) (cur base : BenchmarkResult) :
  ~ (br_value base == 0)%Q ->
  exists c, compare_entry name cur base = Ok c /\
            cr_name c = name /\ cr_current c = br_value cur /\
            cr_baseline c = br_value base /\ classified (name, cur, base) c.
Proof.
  intros Hnz. unfold compare_entry, relative_change.
  pose proof Hnz as Hb. apply Qeq_bool_false in Hb. rewrite Hb.
  rewrite (truediv_ok _ _ Hnz). cbn [mbind result_bind].
  set (change := ((br_value cur - br_value base) / br_value base)%Q).
  destruct (br_lower_is_better cur) eqn:Hdir; eexists; (split; [reflexivity|]);
    cbn [cr_name cr_current cr_baseline]; repeat (split; [reflexivity|]);
    unfold classified, change_of; cbn [fst snd cr_change_percent cr_regression
      cr_improvement num_scale num_gtb num_ltb]; fold change;
    unfold regression_threshold, improvement_threshold;
    rewrite Hdir, !Qltb_lt.
  - split; [intros _; split; tauto|]. split; [discriminate|].
    intros [E|E]; rewrite !Qltb_ge, E; split; unfold Qle; simpl; lia.
  - split; [discriminate|]. split; [intros _; split; tauto|].
    intros [E|E]; rewrite !Qltb_ge, E; split; unfold Qle; simpl; lia.
Qed.

Lemma compare_entry_zero (name : string) (cur base : BenchmarkResult) :
  (br_value base == 0)%Q ->
  exists c, compare_entry name cur base = Ok c /\
            zero_baseline_policy (name, cur, base) c.
Proof.
  intros Hz. unfold compare_entry, relative_change.
  pose proof Hz as Hb. apply Qeq_bool_iff in Hb. rewrite Hb.
  cbn [mbind result_bind].
  destruct (Qltb 0 (br_value cur)) eqn:Hpos;
    destruct (br_lower_is_better cur); eexists; (split; [reflexivity|]);
    unfold zero_baseline_policy; cbn [fst snd cr_change_percent num_scale].
  1,2: apply Qltb_lt in Hpos; split; [reflexivity|];
       intros E; rewrite E in Hpos; exfalso; exact (Qlt_irrefl _ Hpos).
  all: apply Qltb_ge in Hpos; split;
       [intros H; exfalso; exact (Qlt_not_le _ _ H Hpos)
       |intros _; eexists; split; [reflexivity | reflexivity]].
Qed.

Lemma compare_entry_total (name : string) (cur base : BenchmarkResult) :
  exists c, compare_entry name cur base = Ok c.
Proof.
  destruct (Qeq_bool (br_value base) 0) eqn:E.
  - apply Qeq_bool_iff in E.
    destruct (compare_entry_zero name cur base E) as (c & Hc & _). eauto.
  - apply Qeq_bool_false in E.
    destruct (compare_entry_nonzero name cur base E) as (c & Hc & _). eauto.
Qed.

Lemma compare_items_entries (items : list (string * BenchmarkResult))
      (baseline : dict BenchmarkResult) :
  forall (acc : list ComparisonResult) (w : world),
  exists comps w',
    compare_items items baseline acc w = (Ok (acc ++ comps), w') /\
    files w' = files w /\
    Forall2 entry_of (matched items baseline) comps.
Proof.
  induction items as [|[name cur] items IH]; intros acc w.
  - exists [], w. rewrite app_nil_r. repeat split. constructor.
  - cbn [compare_items]. unfold matched. cbn [omap list_omap]. fold (matched items baseline).
    destruct (dict_get baseline name) as [base|] eqn:Hget.
    + destruct (compare_entry_total name cur base) as [c Hc].
      unfold mbind, io_bind, lift. rewrite Hc.
      destruct (IH (acc ++ [c]) w) as (comps & w' & Hrun & Hf & Hall).
      exists (c :: comps), w'. rewrite Hrun, <- app_assoc. repeat split; auto.
    + unfold mbind, io_bind, print.
      match goal with |- context [compare_items items baseline acc ?w0] =>
        destruct (IH acc w0) as (comps & w' & Hrun & Hf & Hall) end.
      exists comps, w'. rewrite Hrun. repeat split; auto.
Qed.

Lemma compare_benchmarks_entries (current baseline : dict BenchmarkResult) (w : world) :
  exists comparisons w',
    compare_benchmarks current baseline w = (Ok comparisons, w') /\
    files w' = files w /\
    Forall2 entry_of (matched current baseline) comparisons.
Proof.
  unfold compare_benchmarks.
  destruct (compare_items_entries current baseline [] w) as (comps & w' & H).
  exists comps, w'. exact H.
Qed.

(** The end-to-end scenarios of the specification: 110 ms against a
    baseline of 100 ms is a change of +10%, a regression when lower is
    better and an improvement when higher is better. *)
Example compare_benchmarks_scenarios :
  let x lower := {| br_name := "x"; br_value := 110; br_unit := "ms";
                    br_lower_is_better := lower |} in
  let b lower := {| br_name := "x"; br_value := 100; br_unit := "ms";
                    br_lower_is_better := lower |} in
  forall lower,
  exists c, compare_entry "x" (x lower) (b lower) = Ok c /\
    (exists q, cr_change_percent c = Fin q /\ (q == 10)%Q) /\
    cr_regression c = lower /\ cr_improvement c = negb lower.
Proof.
  intros x b [|]; eexists; (split; [vm_compute; reflexivity|]); cbn;
    (split; [eexists; split; [reflexivity|reflexivity]|]); split; reflexivity.
Qed.

(** C8. With a readable current results file and no baseline file,
    [main] copies the current file as it is to the baseline path, prints
    the three notices and returns: it writes no report, prints none, and
    ends with exit status 0. *)
Theorem bootstrap_copies_current
        (json_loads : string -> result json) (format_num : string -> pynum -> string)
        (str_of_exn : exn -> string)
        (prog current_path : string) (rest : list string) (w : world)
        (text : string) (data : json) (current : dict BenchmarkResult) :
  files w !! current_path = Some text ->
  json_loads text = Ok data ->
  read_benchmarks data = Ok current ->
  files w !! baseline_path = None ->
  let run := main json_loads format_num str_of_exn (prog :: current_path :: rest) w in
  run = (Ok tt,
         {| files := <[baseline_path := text]> (files w);
            stdout := stdout w ++
              ["Warning: Baseline file baseline_benchmarks.json not found";
               "No baseline found. Saving current results as baseline.";
               "Saved current results as new baseline: baseline_benchmarks.json"] |})
  /\ exit_status run.1 = 0%Z
  /\ files run.2 !! "benchmark_report.md" = files w !! "benchmark_report.md".
Proof.
  intros Hcur Hjson Hread Hbase run.
  assert (Hrun : run = (Ok tt,
         {| files := <[baseline_path := text]> (files w);
            stdout := stdout w ++
              ["Warning: Baseline file baseline_benchmarks.json not found";
               "No baseline found. Saving current results as baseline.";
               "Saved current results as new baseline: baseline_benchmarks.json"] |})).
  { assert (Hne : current_path <> baseline_path).
    { intros ->. rewrite Hbase in Hcur. discriminate. }
    subst run. destruct w as [fs out]. cbn [files stdout] in *.
    unfold main, try_except, load_current, load_baseline, path_exists,
      save_current_as_baseline, read_file, print, lift,
      mbind, io_bind, mret, io_ret.
    cbn [files stdout]. rewrite Hcur, Hjson, Hread. cbn [files stdout].
    rewrite Hbase.
    cbn -[copy2]. rewrite (copy2_ok current_path baseline_path text) by
      (try exact Hcur; try exact Hne; discriminate).
    cbn [files stdout].
    rewrite <- !app_assoc. reflexivity. }
  rewrite Hrun. split; [reflexivity|]. split; [reflexivity|].
  cbn [snd files]. apply lookup_insert_ne. discriminate.
Qed.

Lemma bootstrap_copies_current_witness :
  let w := {| files := {[ "results.json" := "{}" ]}; stdout := [] |} in
  (main (fun _ => Ok (JObj [])) (fun _ _ => "0") (fun _ => "error")
        ["compare_benchmarks.py"; "results.json"] w).2
  = {| files := <[baseline_path := "{}"]> (files w);
       stdout := ["Warning: Baseline file baseline_benchmarks.json not found";
                  "No baseline found. Saving current results as baseline.";
                  "Saved current results as new baseline: baseline_benchmarks.json"] |}.
Proof.
  intros w.
  pose proof (bootstrap_copies_current
                (fun _ => Ok (JObj [])) (fun _ _ => "0") (fun _ => "error")
                "compare_benchmarks.py" "results.json" [] w "{}" (JObj []) []
                eq_refl eq_refl eq_refl eq_refl) as [H _].
  cbv zeta in H. rewrite H. reflexivity.
Defined.

End ComparatorFacts.

(** ** The comparator at the 5% boundary, in double precision *)

Section BoundaryFacts.
Import Py PyNumber CompareBenchmarksDoubles.

Lemma SFcompare_antisym (x y : spec_float) :
  SFcompare y x = option_map CompOpp (SFcompare x y).
Proof.
  destruct x as [sx|sx| |sx mx ex], y as [sy|sy| |sy my ey];
    try destruct sx; try destruct sy; cbn; try reflexivity.
  - rewrite (Z.compare_antisym ex ey). destruct (ex ?= ey)%Z; cbn; try reflexivity.
    rewrite CompOpp_involutive. f_equal.
    exact (Pos.compare_cont_antisym my mx Eq).
  - rewrite (Z.compare_antisym ex ey). destruct (ex ?= ey)%Z; cbn; try reflexivity.
    f_equal. symmetry. exact (Pos.compare_cont_antisym mx my Eq).
Qed.

Lemma py_gt_floats (x y : spec_float) : py_gt (Float x) (Float y) = SFltb y x.
Proof.
  unfold py_gt, SFltb. cbn [py_compare]. rewrite (SFcompare_antisym x y).
  destruct (SFcompare x y) as [[| |]|]; reflexivity.
Qed.

Lemma py_lt_floats (x y : spec_float) : py_lt (Float x) (Float y) = SFltb x y.
Proof. reflexivity. Qed.

Lemma nonzero_divisor (x y : spec_float) :
  py_eq (Float y) (Int 0) = false ->
  py_truediv (Float x) (Float y) = Ok (fdiv x y).
Proof.
  intros H. cbn. destruct y as [sy|sy| |sy my ey]; try reflexivity.
  discriminate.
Qed.

Lemma times_hundred (x : spec_float) :
  exists y, py_mul (Float x) (Int 100) = Ok (Float y).
Proof. eexists. reflexivity. Qed.

Section Rounding.
Local Open Scope Z_scope.

Lemma digits2_pos_lower (m : positive) : 2 ^ (Z.pos (digits2_pos m) - 1) <= Z.pos m.
Proof.
  induction m as [m IH|m IH|]; cbn [digits2_pos].
  - rewrite Pos2Z.inj_succ. replace (Z.succ (Z.pos (digits2_pos m)) - 1)
      with (Z.succ (Z.pos (digits2_pos m) - 1)) by lia.
    rewrite Z.pow_succ_r by lia. lia.
  - rewrite Pos2Z.inj_succ. replace (Z.succ (Z.pos (digits2_pos m)) - 1)
      with (Z.succ (Z.pos (digits2_pos m) - 1)) by lia.
    rewrite Z.pow_succ_r by lia. lia.
  - cbn. lia.
Qed.

Lemma shr_1_half (mrs : shr_record) :
  0 <= shr_m mrs -> shr_m (shr_1 mrs) = shr_m mrs / 2.
Proof.
  destruct mrs as [m r s]. cbn [shr_m]. intros H.
  destruct m as [|[p|p|]|p]; cbn [shr_1 shr_m]; try lia.
  - reflexivity.
  - apply Z.div_unique with 1; lia.
  - apply Z.div_unique with 0; lia.
  - reflexivity.
Qed.

Lemma iter_shr_1 (p : positive) :
  forall mrs, 0 <= shr_m mrs ->
  shr_m (SpecFloat.iter_pos shr_1 p mrs) = shr_m mrs / 2 ^ Z.pos p.
Proof.
  induction p as [p IH|p IH|]; intros mrs H; cbn [SpecFloat.iter_pos].
  - assert (H1 : 0 <= shr_m (shr_1 mrs)).
    { rewrite shr_1_half by exact H. apply Z.div_pos; lia. }
    assert (H2 : 0 <= shr_m (SpecFloat.iter_pos shr_1 p (shr_1 mrs))).
    { rewrite IH by exact H1. apply Z.div_pos; lia. }
    rewrite IH, IH, shr_1_half by assumption.
    rewrite !Z.div_div by lia. f_equal.
    change (Z.pos p~1) with (2 * Z.pos p + 1).
    replace (2 * Z.pos p + 1) with (1 + Z.pos p + Z.pos p) by lia.
    rewrite !Z.pow_add_r by lia. ring.
  - assert (H2 : 0 <= shr_m (SpecFloat.iter_pos shr_1 p mrs)).
    { rewrite IH by exact H. apply Z.div_pos; lia. }
    rewrite IH, IH by assumption.
    rewrite !Z.div_div by lia. f_equal.
    change (Z.pos p~0) with (2 * Z.pos p).
    replace (2 * Z.pos p) with (Z.pos p + Z.pos p) by lia.
    rewrite !Z.pow_add_r by lia. ring.
  - rewrite shr_1_half by exact H. reflexivity.
Qed.

Lemma shr_fexp_positive (m : positive) (e : Z) (l : location) :
  emin prec emax <= e ->
  0 < shr_m (fst (shr_fexp prec emax (Z.pos m) e l)) /\
  emin prec emax <= snd (shr_fexp prec emax (Z.pos m) e l).
Proof.
  intros He. unfold shr_fexp, shr. cbn [Zdigits2].
  set (d := Z.pos (digits2_pos m)).
  assert (Hm : shr_m (shr_record_of_loc (Z.pos m) l) = Z.pos m).
  { destruct l as [|[| |]]; reflexivity. }
  destruct (fexp prec emax (d + e) - e) as [|n|n] eqn:Hn; cbn [fst snd].
  - rewrite Hm. lia.
  - split.
    + rewrite iter_shr_1 by (rewrite Hm; lia). rewrite Hm.
      assert (Hle : Z.pos n <= d - 1).
      { unfold fexp, emin, prec, emax in *. lia. }
      pose proof (digits2_pos_lower m) as Hd. fold d in Hd.
      apply Z.div_str_pos. split; [lia|].
      eapply Z.le_trans; [|exact Hd]. apply Z.pow_le_mono_r; lia.
    + lia.
  - rewrite Hm. lia.
Qed.

Lemma binary_round_aux_nonzero (s : bool) (m : positive) (e : Z) (l : location) :
  emin prec emax <= e ->
  forall s', binary_round_aux prec emax s (Z.pos m) e l <> S754_zero s'.
Proof.
  intros He s'. unfold binary_round_aux.
  destruct (shr_fexp_positive m e l He) as [H1 H2].
  destruct (shr_fexp prec emax (Z.pos m) e l) as [mrs' e']. cbn [fst snd] in *.
  set (r := round_nearest_even (shr_m mrs') (loc_of_shr_record mrs')).
  assert (Hr : 0 < r).
  { subst r. unfold round_nearest_even.
    destruct (loc_of_shr_record mrs') as [|[| |]]; try lia.
    destruct (Z.even (shr_m mrs')); lia. }
  destruct r as [|q0|q0]; try lia.
  destruct (shr_fexp_positive q0 e' loc_Exact H2) as [H3 _].
  destruct (shr_fexp prec emax (Z.pos q0) e' loc_Exact) as [mrs'' e''].
  cbn [fst] in H3.
  destruct (shr_m mrs'') as [|q|q]; try lia.
  destruct (e'' <=? emax - prec); discriminate.
Qed.

Lemma shl_align_exponent (m : positive) (e e' : Z) :
  Z.min e e' <= snd (shl_align m e e').
Proof.
  unfold shl_align. destruct (e' - e) eqn:E; cbn [snd]; lia.
Qed.

Lemma binary_normalize_nonzero (z : Z) (s : bool) :
  z <> 0 -> forall s', binary_normalize prec emax z 0 s <> S754_zero s'.
Proof.
  intros Hz s'.
  assert (H : forall sx m, binary_round prec emax sx m 0 <> S754_zero s').
  { intros sx m. unfold binary_round.
    pose proof (shl_align_exponent m 0 (fexp prec emax (Z.pos (digits2_pos m) + 0))) as He.
    destruct (shl_align m 0 _) as [mz ez]. cbn [snd] in He.
    apply binary_round_aux_nonzero.
    unfold fexp, emin, prec, emax in *. lia. }
  destruct z as [|m|m]; [congruence | apply H | apply H].
Qed.

End Rounding.

Lemma py_truediv_raises (a b : number) (e : exn) :
  py_eq b (Int 0) = false ->
  py_truediv a b = Raise e -> e = OverflowError.
Proof.
  intros Hnz. destruct a as [x|x], b as [y|y]; cbn [py_truediv to_float].
  - unfold int_truediv. destruct (Z.eqb_spec y 0) as [->|_]; [discriminate|].
    destruct (fdiv _ _); intros [= <-]; reflexivity.
  - destruct y as [sy|sy| |sy my ey]; try discriminate;
      unfold float_of_int; destruct (binary_normalize _ _ _ _ _); cbn;
      intros [= <-]; reflexivity.
  - assert (Hy : y <> 0%Z) by (intros ->; discriminate).
    unfold float_of_int.
    pose proof (binary_normalize_nonzero y false Hy) as Hzero.
    destruct (binary_normalize PyNumber.prec PyNumber.emax y 0 false)
      as [s|s| |s m ex]; cbn; try (intros [= <-]; reflexivity); try discriminate.
    exfalso. exact (Hzero s eq_refl).
  - destruct y as [sy|sy| |sy my ey]; try discriminate; cbn; discriminate.
Qed.

Lemma py_sub_raises (a b : number) (e : exn) :
  py_sub a b = Raise e -> e = OverflowError.
Proof.
  destruct a as [x|x], b as [y|y]; cbn; try discriminate.
  - unfold float_of_int. destruct (binary_normalize _ _ _ _ _); cbn;
      intros [= <-]; auto.
  - unfold float_of_int. destruct (binary_normalize _ _ _ _ _); cbn;
      intros [= <-]; auto.
Qed.

Lemma compare_entry_classified (name : string) (cur base : BenchmarkResult)
      (c : ComparisonResult) :
  nonzero_baseline (name, cur, base) ->
  compare_entry name cur base = Ok c ->
  cr_name c = name /\ cr_current c = br_value cur /\ cr_baseline c = br_value base /\
  classified (name, cur, base) c.
Proof.
  unfold nonzero_baseline, compare_entry, relative_change, classified, change_of.
  cbn [fst snd]. intros Hnz H. rewrite Hnz in H.
  destruct (py_sub (br_value cur) (br_value base)) as [d|]; [|discriminate].
  cbn [mbind result_bind] in H |- *.
  destruct (py_truediv d (br_value base)) as [change|]; [|discriminate].
  cbn [mbind result_bind] in H.
  destruct (times_hundred change) as [percent Hmul]. rewrite Hmul in H.
  cbn [mbind result_bind] in H.
  unfold regression_threshold, improvement_threshold in H. cbn [py_neg] in H.
  rewrite !py_gt_floats, !py_lt_floats in H.
  destruct (br_lower_is_better cur) eqn:Hdir; injection H as <-;
    cbn [cr_name cr_current cr_baseline cr_change_percent cr_regression cr_improvement];
    do 3 (split; [reflexivity|]); exists change;
    (split; [reflexivity|]); (split; [exact Hmul|]).
  - split; [intros _; split; reflexivity|]. split; [discriminate|].
    intros [-> | ->]; split; reflexivity.
  - split; [discriminate|]. split; [intros _; split; reflexivity|].
    intros [-> | ->]; split; reflexivity.
Qed.

Lemma compare_entry_doubles (name : string) (cur base : BenchmarkResult) :
  nonzero_baseline (name, cur, base) -> doubles (name, cur, base) = true ->
  exists c, compare_entry name cur base = Ok c.
Proof.
  unfold nonzero_baseline, doubles, compare_entry, relative_change. cbn [fst snd].
  intros Hnz Hd. rewrite Hnz.
  destruct (br_value cur) as [x|x]; [discriminate|].
  destruct (br_value base) as [y|y]; [discriminate|].
  cbn [py_sub to_float mbind result_bind]. rewrite (nonzero_divisor _ _ Hnz).
  cbn [mbind result_bind].
  destruct (times_hundred (fdiv (fsub x y) y)) as [percent ->].
  cbn [mbind result_bind]. destruct (br_lower_is_better cur); eauto.
Qed.

Lemma compare_entry_raises (name : string) (cur base : BenchmarkResult) (e : exn) :
  nonzero_baseline (name, cur, base) ->
  compare_entry name cur base = Raise e ->
  doubles (name, cur, base) = false /\ e = OverflowError.
Proof.
  intros Hnz H. split.
  - destruct (doubles (name, cur, base)) eqn:Hd; [|reflexivity].
    destruct (compare_entry_doubles name cur base Hnz Hd) as [c Hc]. congruence.
  - unfold nonzero_baseline in Hnz. cbn [fst snd] in Hnz.
    unfold compare_entry, relative_change in H. rewrite Hnz in H.
    destruct (py_sub (br_value cur) (br_value base)) as [d|e1] eqn:Hsub;
      cbn [mbind result_bind] in H.
    + destruct (py_truediv d (br_value base)) as [change|e2] eqn:Hdiv;
        cbn [mbind result_bind] in H.
      * destruct (times_hundred change) as [percent Hmul]. rewrite Hmul in H.
        cbn [mbind result_bind] in H. destruct (br_lower_is_better cur); discriminate.
      * injection H as <-. exact (py_truediv_raises _ _ _ Hnz Hdiv).
    + injection H as <-. exact (py_sub_raises _ _ _ Hsub).
Qed.

Lemma compare_items_outcome (items : list (string * BenchmarkResult))
      (baseline : dict BenchmarkResult) :
  forall (acc : list ComparisonResult) (w : world),
  match compare_items items baseline acc w with
  | (Ok comparisons, _) =>
      exists new, comparisons = acc ++ new /\
                  Forall2 entry_of (matched items baseline) new
  | (Raise e, _) =>
      Exists (fun m => compare_entry m.1.1 m.1.2 m.2 = Raise e) (matched items baseline)
  end.
Proof.
  induction items as [|[name cur] items IH]; intros acc w.
  - cbn. exists []. rewrite app_nil_r. split; [reflexivity | constructor].
  - cbn [compare_items]. unfold matched. cbn [omap list_omap]. fold (matched items baseline).
    destruct (dict_get baseline name) as [base|] eqn:Hget.
    + unfold mbind, io_bind, lift.
      destruct (compare_entry name cur base) as [c|e] eqn:Hc.
      * specialize (IH (acc ++ [c]) w).
        destruct (compare_items items baseline (acc ++ [c]) w) as [[comps|e] w'].
        -- destruct IH as (new & -> & Hall). exists (c :: new).
           rewrite <- app_assoc. split; [reflexivity|]. constructor; assumption.
        -- apply Exists_cons_tl. exact IH.
      * apply Exists_cons_hd. exact Hc.
    + unfold mbind, io_bind, print.
      match goal with |- context [compare_items items baseline acc ?w0] =>
        specialize (IH acc w0); destruct (compare_items items baseline acc w0)
          as [[comps|e] w'] end; exact IH.
Qed.




End BoundaryFacts.

(** ** The chart generator's comparison *)

Section ChartFacts.
Import Py GenerateBenchmarkCharts.

Lemma percent_change_total (c b : Q) : exists p, percent_change c b = Ok p.
Proof.
  unfold percent_change. destruct (Qeq_bool b 0) eqn:E; cbn [negb].
  - eauto.
  - apply Qeq_bool_false in E. rewrite (truediv_ok _ _ E). cbn. eauto.
Qed.

Lemma percent_change_zero (c b : Q) :
  (b == 0)%Q ->
  ((0 < c)%Q -> percent_change c b = Ok PosInf) /\
  ((c == 0)%Q -> percent_change c b = Ok (Fin 0)).
Proof.
  intros Hb. unfold percent_change. apply Qeq_bool_iff in Hb. rewrite Hb. cbn [negb].
  split; intros Hc.
  - destruct (Qeq_bool c 0) eqn:E; [|reflexivity].
    apply Qeq_bool_iff in E. rewrite E in Hc. exfalso. exact (Qlt_irrefl _ Hc).
  - apply Qeq_bool_iff in Hc. rewrite Hc. reflexivity.
Qed.

Lemma has_field_subscript (item : json) (key : string) (ok : json -> bool) :
  has_field item key ok = true ->
  exists v, subscript item key = Ok v /\ ok v = true.
Proof.
  destruct item; simpl; try discriminate.
  destruct (dict_get members key); [eauto | discriminate].
Qed.

Lemma is_str_as_str (v : json) : is_str v = true -> exists s, v = JStr s.
Proof. destruct v; simpl; try discriminate. eauto. Qed.

Lemma is_num_as_num (v : json) : is_num v = true -> exists q, v = JNum q.
Proof. destruct v; simpl; try discriminate. eauto. Qed.

Lemma baseline_entry_fields (item : json) :
  baseline_entry item = true ->
  exists name q, subscript item "name" = Ok (JStr name) /\
                 subscript item "value" = Ok (JNum q).
Proof.
  unfold baseline_entry. rewrite andb_true_iff. intros [Hn Hv].
  apply has_field_subscript in Hn as (vn & Hn & Hs).
  apply has_field_subscript in Hv as (vv & Hv & Hq).
  apply is_str_as_str in Hs as [name ->]. apply is_num_as_num in Hq as [q ->].
  eauto.
Qed.

Lemma baseline_lookup_of_total (baseline_data : list json) :
  forall acc, numeric acc -> forallb baseline_entry baseline_data = true ->
  exists lookup, baseline_lookup_of baseline_data acc = Ok lookup /\ numeric lookup.
Proof.
  induction baseline_data as [|item rest IH]; intros acc Hacc Hwf; simpl in *.
  - eauto.
  - apply andb_true_iff in Hwf as [Hitem Hrest].
    destruct (baseline_entry_fields item Hitem) as (name & q & Hn & Hv).
    rewrite Hn, Hv. cbn [mbind result_bind as_str].
    apply IH; [|exact Hrest].
    intros k v. rewrite dict_get_set. destruct (String.eqb name k).
    + intros [= <-]. reflexivity.
    + apply Hacc.
Qed.

Lemma comparison_rows_total (current_data : list json) (lookup : dict json) :
  numeric lookup -> forallb current_entry current_data = true ->
  forall acc, exists rows, comparison_rows current_data lookup acc = Ok rows.
Proof.
  intros Hnum. induction current_data as [|item rest IH]; intros Hwf acc; simpl in *.
  - eauto.
  - apply andb_true_iff in Hwf as [Hitem Hrest].
    unfold current_entry in Hitem. rewrite !andb_true_iff in Hitem.
    destruct Hitem as [[Hb Hu] Hl].
    destruct (baseline_entry_fields item Hb) as (name & q & Hn & Hv).
    apply has_field_subscript in Hu as (u & Hu & _).
    apply has_field_subscript in Hl as (l & Hl & _).
    rewrite Hn, Hv. cbn [mbind result_bind as_str].
    destruct (dict_get lookup name) as [bv|] eqn:Hget; [|apply IH; exact Hrest].
    destruct (is_num_as_num bv (Hnum _ _ Hget)) as [b ->].
    cbn [as_num mbind result_bind].
    destruct (percent_change_total q b) as [p Hp]. rewrite Hp, Hu, Hl.
    cbn [mbind result_bind]. apply IH. exact Hrest.
Qed.

Lemma comparison_rows_policy (current_data : list json) (lookup : dict json) :
  forall acc rows,
  Forall zero_row_policy acc ->
  comparison_rows current_data lookup acc = Ok rows ->
  Forall zero_row_policy rows.
Proof.
  induction current_data as [|item rest IH]; intros acc rows Hacc Hrun; simpl in Hrun.
  - injection Hrun as <-. exact Hacc.
  - apply bind_Ok_inv in Hrun as (name & _ & Hrun).
    apply bind_Ok_inv in Hrun as (cv & _ & Hrun).
    assert (Hstep : forall bv,
      (b ← as_num bv; c ← as_num cv; change_percent ← percent_change c b;
       unit ← subscript item "unit"; lower ← subscript item "lower_is_better";
       comparison_rows rest lookup
         (acc ++ [{| row_benchmark := name; row_current := c; row_baseline := b;
                     row_change_percent := change_percent; row_unit := unit;
                     row_lower_is_better := lower;
                     row_category := categorize_benchmark name |}])) = Ok rows ->
      Forall zero_row_policy rows).
    { intros bv H.
      apply bind_Ok_inv in H as (b & _ & H).
      apply bind_Ok_inv in H as (c & _ & H).
      apply bind_Ok_inv in H as (p & Hp & H).
      apply bind_Ok_inv in H as (u & _ & H).
      apply bind_Ok_inv in H as (l & _ & H).
      apply (IH _ _) in H; [exact H|].
      apply Forall_app. split; [exact Hacc|].
      constructor; [|constructor].
      unfold zero_row_policy. cbn [row_baseline row_current row_change_percent].
      intros Hz. destruct (percent_change_zero c b Hz) as [H1 H2].
      split; intros Hc; [rewrite (H1 Hc) in Hp | rewrite (H2 Hc) in Hp];
        injection Hp as <-; reflexivity. }
    destruct (dict_get lookup name) as [[]|]; eauto.
Qed.

Lemma comparison_rows_no_zero_division (current_data : list json) (lookup : dict json) :
  forall acc, comparison_rows current_data lookup acc <> Raise ZeroDivisionError.
Proof.
  induction current_data as [|item rest IH]; intros acc; simpl.
  - discriminate.
  - apply bind_no_zero_division.
    { apply bind_no_zero_division; [apply subscript_no_zero_division|].
      intros ? _. apply as_str_no_zero_division. }
    intros name _. apply bind_no_zero_division; [apply subscript_no_zero_division|].
    intros cv _.
    assert (Hstep : forall bv,
      (b ← as_num bv; c ← as_num cv; change_percent ← percent_change c b;
       unit ← subscript item "unit"; lower ← subscript item "lower_is_better";
       comparison_rows rest lookup
         (acc ++ [{| row_benchmark := name; row_current := c; row_baseline := b;
                     row_change_percent := change_percent; row_unit := unit;
                     row_lower_is_better := lower;
                     row_category := categorize_benchmark name |}]))
      <> Raise ZeroDivisionError).
    { intros bv.
      apply bind_no_zero_division; [apply as_num_no_zero_division|]. intros b _.
      apply bind_no_zero_division; [apply as_num_no_zero_division|]. intros c _.
      apply bind_no_zero_division.
      { destruct (percent_change_total c b) as [p ->]. discriminate. }
      intros p _.
      apply bind_no_zero_division; [apply subscript_no_zero_division|]. intros u _.
      apply bind_no_zero_division; [apply subscript_no_zero_division|]. intros l _.
      apply IH. }
    destruct (dict_get lookup name) as [[]|]; auto.
Qed.

Lemma baseline_lookup_of_no_zero_division (baseline_data : list json) :
  forall acc, baseline_lookup_of baseline_data acc <> Raise ZeroDivisionError.
Proof.
  induction baseline_data as [|item rest IH]; intros acc; simpl.
  - discriminate.
  - apply bind_no_zero_division.
    { apply bind_no_zero_division; [apply subscript_no_zero_division|].
      intros ? _. apply as_str_no_zero_division. }
    intros name _. apply bind_no_zero_division; [apply subscript_no_zero_division|].
    intros v _. apply IH.
Qed.

(** The key-metric line of the summary report is another computation:
    line 343 divides by the baseline value as it is. *)
Example summary_report_key_metric_zero_baseline
        (format_num : string -> pynum -> string) (generated output_dir : string)
        (w : world) :
  generate_summary_report format_num generated
    [measurement "server_startup_avg" 3] [measurement "server_startup_avg" 0]
    output_dir w
  = (Raise ZeroDivisionError, w).
Proof. reflexivity. Qed.

End ChartFacts.

(** ** The zero-baseline policy *)

Section ZeroBaseline.
Import Py.



End ZeroBaseline.

(** ** The nightly report *)

Section NightlyFacts.
Import Py GenerateNightlyReport.

Ltac invert_binds H :=
  repeat (cbv zeta in H;
          match type of H with
          | _ ≫= _ = Ok _ => apply bind_Ok_inv in H as (? & ? & H)
          end).

Lemma derived_metrics_reads (report_data : json) (d : derived) :
  derived_metrics report_data = Ok d ->
  read_from report_data d /\
  all_tests_pass d =
    eq_zero (unit_failed d) && eq_zero (integration_failed d) && eq_zero (doc_failed d)
    && truthy (audit_passed d) && truthy (backward_compat d) /\
  overall_result d = (if all_tests_pass d then "PASS" else "FAIL").
Proof.
  intros H. unfold derived_metrics in H. invert_binds H.
  injection H as <-. cbn. split; [|split; reflexivity].
  unfold read_from. do 4 eexists. repeat split; eassumption.
Qed.

(** C2, as the code has it. When the derived metrics are computed, the
    overall result is "PASS" exactly when the unit, integration and
    documentation tests have no failure, the security audit passed and
    backward compatibility holds, and "FAIL" otherwise; the migration test
    counts take no part in it. *)
Theorem overall_result_pass_iff (report_data : json) (d : derived) :
  derived_metrics report_data = Ok d ->
  read_from report_data d /\
  (overall_result d = "PASS" <-> pass_condition d) /\
  (overall_result d = "FAIL" <-> ~ pass_condition d).
Proof.
  intros H. destruct (derived_metrics_reads _ _ H) as (Hread & Hall & Hres).
  split; [exact Hread|]. rewrite Hres, Hall. unfold pass_condition.
  destruct (eq_zero (unit_failed d)), (eq_zero (integration_failed d)),
    (eq_zero (doc_failed d)), (truthy (audit_passed d)), (truthy (backward_compat d));
    cbn; split; split; intros; try discriminate; try tauto; try intuition discriminate.
Qed.

Lemma overall_result_pass_iff_witness :
  exists d, derived_metrics (report_data_of "2026-01-01T00:00:00" default_collected) = Ok d /\
            overall_result d = "PASS".
Proof.
  eexists. split; [vm_compute; reflexivity|].
  apply (overall_result_pass_iff
           (report_data_of "2026-01-01T00:00:00" default_collected)).
  - vm_compute. reflexivity.
  - vm_compute. repeat split.
Defined.

(** C2, as stated, fails: with one failed migration test and nothing else
    wrong the overall result is still "PASS". *)
Lemma overall_result_ignores_migration_tests :
  exists d,
    derived_metrics (report_data_of "2026-01-01T00:00:00" migration_failure) = Ok d /\
    ~ (overall_result d = "PASS" <-> pass_condition_with_migration d).
Proof.
  eexists. split; [vm_compute; reflexivity|].
  intros [H _]. assert (Hp : "PASS" = "PASS") by reflexivity.
  apply H in Hp. destruct Hp as (_ & _ & _ & Hm & _).
  vm_compute in Hm. discriminate.
Qed.

(** The [format] call of line 397 raises whatever the values passed:
    the template has a field that is no keyword argument. *)
Lemma html_template_stray_field (format_value : json -> string -> string)
      (timestamp : json) (benchmark_count : nat) (d : derived) :
  format format_value html_template (format_arguments timestamp benchmark_count d)
  = Raise (KeyError stray_field).
Proof. vm_compute. reflexivity. Qed.

Lemma bind_ordinary {A B} (m : result A) (k : A -> result B) :
  ordinary m -> (forall a, ordinary (k a)) -> ordinary (m ≫= k).
Proof.
  intros Hm Hk e. destruct m as [a|e']; cbn.
  - apply Hk.
  - intros [= <-]. apply Hm. reflexivity.
Qed.

Lemma Ok_ordinary {A} (a : A) : ordinary (Ok a).
Proof. intros e. discriminate. Qed.

Lemma subscript_ordinary (obj : json) (key : string) : ordinary (subscript obj key).
Proof.
  intros e. destruct obj; simpl; try (intros [= <-]; reflexivity).
  destruct (dict_get _ _); [discriminate | intros [= <-]; reflexivity].
Qed.

Lemma get_default_ordinary (obj : json) (key : string) (default : json) :
  ordinary (get_default obj key default).
Proof. intros e. destruct obj; simpl; intros [= <-]; reflexivity. Qed.

Lemma as_num_ordinary (j : json) : ordinary (as_num j).
Proof. intros e. destruct j; simpl; intros [= <-]; reflexivity. Qed.

Lemma len_ordinary (j : json) : ordinary (len j).
Proof. intros e. destruct j; simpl; intros [= <-]; reflexivity. Qed.

Lemma count_of_ordinary (results : json) (suite key : string) :
  ordinary (count_of results suite key).
Proof.
  unfold count_of. apply bind_ordinary; [|intros ?]; apply get_default_ordinary.
Qed.

Lemma success_rate_ordinary (passed total : Q) : ordinary (success_rate passed total).
Proof.
  unfold success_rate. destruct (Qltb 0 total) eqn:E; [|apply Ok_ordinary].
  apply Qltb_lt in E. rewrite truediv_ok.
  - apply Ok_ordinary.
  - intros Hz. rewrite Hz in E. exact (Qlt_irrefl _ E).
Qed.

Ltac ordinary_steps :=
  repeat (cbv zeta;
          first [ apply Ok_ordinary | apply subscript_ordinary
                | apply get_default_ordinary | apply as_num_ordinary
                | apply len_ordinary | apply count_of_ordinary
                | apply success_rate_ordinary
                | apply bind_ordinary; [|intros ?] ]).

Lemma derived_metrics_ordinary (report_data : json) :
  ordinary (derived_metrics report_data).
Proof. unfold derived_metrics. ordinary_steps. Qed.

Lemma generate_html_report_raises (format_value : json -> string -> string)
      (report_data : json) :
  exists e, generate_html_report format_value report_data = Raise e /\
            is_Exception e = true.
Proof.
  unfold generate_html_report.
  destruct (derived_metrics report_data) as [d|e] eqn:Hd; cbn [mbind result_bind].
  2: { exists e. split; [reflexivity|]. exact (derived_metrics_ordinary _ _ Hd). }
  destruct (subscript report_data "timestamp") as [ts|e] eqn:Hts;
    cbn [mbind result_bind].
  2: { exists e. split; [reflexivity|]. exact (subscript_ordinary _ _ _ Hts). }
  destruct (subscript report_data "performance_results") as [perf|e] eqn:Hperf;
    cbn [mbind result_bind].
  2: { exists e. split; [reflexivity|]. exact (subscript_ordinary _ _ _ Hperf). }
  destruct (get_default perf "benchmarks" (JArr []) ≫= len) as [n|e] eqn:Hlen;
    cbn [mbind result_bind].
  - rewrite html_template_stray_field. eexists. split; reflexivity.
  - exists e. split; [reflexivity|]. revert e Hlen.
    change (ordinary (get_default perf "benchmarks" (JArr []) ≫= len)).
    ordinary_steps.
Qed.

(** C6 fails on the code. Whatever the collectors returned,
    [generate_report] ends with an exception raised by
    [generate_html_report], so that the process ends with status 1, and it
    has written no file by then; when the collectors returned their
    defaults the exception is the [KeyError] of the template field that is
    no keyword argument. *)
Theorem generate_report_writes_nothing
        (format_value : json -> string -> string) (json_dumps : json -> string)
        (timestamp : string) (c : collected) (w : world) :
  let run := generate_report format_value json_dumps timestamp c w in
  (exists e, run.1 = Raise e /\ exit_status run.1 = 1%Z) /\
  files run.2 = files w /\
  (generate_report format_value json_dumps timestamp default_collected w).1
    = Raise (KeyError stray_field).
Proof.
  cbv zeta. split; [|split].
  - unfold generate_report, mbind, io_bind, print, lift.
    destruct (generate_html_report_raises format_value (report_data_of timestamp c))
      as (e & -> & He).
    exists e. split; [reflexivity|]. cbn [fst exit_status].
    destruct e; try reflexivity; discriminate.
  - unfold generate_report, mbind, io_bind, print, lift.
    destruct (generate_html_report_raises format_value (report_data_of timestamp c))
      as (e & -> & _).
    reflexivity.
  - vm_compute. reflexivity.
Qed.

End NightlyFacts.

(** ** The load tester: aggregation and verdict *)

Section LoadTestFacts.
Import Py LoadTest.

Lemma Qnat_zero (n : nat) : (Qnat n == 0)%Q <-> n = 0%nat.
Proof.
  unfold Qnat, Qeq. simpl. split; intros H; [|subst; reflexivity].
  destruct n; [reflexivity | lia].
Qed.

Lemma statistics_mean_spec (l : list Q) :
  l <> [] -> exists m, statistics_mean l = Ok m /\ mean_of m l.
Proof.
  destruct l as [|x l]; [congruence|]. intros _.
  eexists. split; [reflexivity|]. unfold mean_of.
  unfold Qdiv. rewrite <- Qmult_assoc, (Qmult_comm (/ _)), Qmult_inv_r.
  - apply Qmult_1_r.
  - rewrite Qnat_zero. discriminate.
Qed.

Lemma partition_length (l : list ConnectionResult) :
  (length (filter (fun r => success r = true) l)
   + length (filter (fun r => negb (success r) = true) l) = length l)%nat.
Proof.
  induction l as [|r l IH]; [reflexivity|].
  rewrite !filter_cons. destruct (success r) eqn:E; simpl.
  - destruct (decide (true = true)); [|congruence].
    destruct (decide (false = true)); [discriminate|]. simpl. lia.
  - destruct (decide (false = true)); [discriminate|].
    destruct (decide (true = true)); [|congruence]. simpl. lia.
Qed.

Lemma guarded_rate (n : Z) (d : Q) :
  exists q, (if Qltb 0 d then truediv (inject_Z n) d else Ok 0%Q) = Ok q.
Proof.
  destruct (Qltb 0 d) eqn:E; [|eauto].
  apply Qltb_lt in E. rewrite truediv_ok; [eauto|].
  intros Hz. rewrite Hz in E. exact (Qlt_irrefl _ E).
Qed.

Lemma statistics_of_spec (results : list gathered) (env : load_env) :
  exists r,
    statistics_of results env = Ok r /\
    total_connections r = length (omap is_ConnectionResult results) /\
    successful_connections r = length (successful_sessions results) /\
    (successful_connections r + failed_connections r = total_connections r)%nat /\
    mean_of (avg_connect_time r) (map connect_time (successful_sessions results)) /\
    mean_of (avg_response_time r) (map total_time (successful_sessions results)).
Proof.
  unfold statistics_of. fold (successful_sessions results).
  set (valid := omap is_ConnectionResult results).
  assert (Hmean : forall f : ConnectionResult -> Q,
    exists m, match successful_sessions results with
              | [] => Ok 0%Q
              | _ => statistics_mean (map f (successful_sessions results))
              end = Ok m /\ mean_of m (map f (successful_sessions results))).
  { intros f. destruct (successful_sessions results) as [|r0 l] eqn:E.
    - exists 0%Q. split; reflexivity.
    - apply statistics_mean_spec. discriminate. }
  destruct (Hmean connect_time) as (mc & -> & Hmc).
  destruct (Hmean total_time) as (mt & -> & Hmt).
  cbn [mbind result_bind].
  destruct (guarded_rate (Zsum (map packets_sent valid)) (run_end env - run_start env))
    as [pps ->].
  cbn [mbind result_bind].
  destruct (guarded_rate (Zsum (map errors valid)) (run_end env - run_start env))
    as [eps ->].
  cbn [mbind result_bind].
  eexists. split; [reflexivity|].
  cbn [total_connections successful_connections failed_connections
       avg_connect_time avg_response_time].
  repeat split; auto. apply partition_length.
Qed.

(** C3. Every run of the load test returns an aggregate in which the
    successful and the failed connections add up to the total, and in
    which the average connect and response times are the means over the
    successful sessions alone, zero when there is none. *)
Theorem run_load_test_aggregate (num_connections duration : Z) (env : load_env)
        (w : world) :
  exists r w',
    run_load_test num_connections duration env w = (Ok r, w') /\
    (successful_connections r + failed_connections r = total_connections r)%nat /\
    let successful := successful_sessions (gather num_connections duration env) in
    successful_connections r = length successful /\
    mean_of (avg_connect_time r) (map connect_time successful) /\
    mean_of (avg_response_time r) (map total_time successful).
Proof.
  destruct (statistics_of_spec (gather num_connections duration env) env)
    as (r & Hr & _ & Hs & Hsum & Hc & Ht).
  unfold run_load_test, mbind, io_bind, print, lift. rewrite Hr.
  eexists _, _. split; [reflexivity|]. cbv zeta. auto.
Qed.

Lemma success_ratio_defined (r : LoadTestResults) :
  (1 <= total_connections r)%nat ->
  success_ratio r
  = Ok (Qnat (successful_connections r) / Qnat (total_connections r))%Q.
Proof.
  intros H. unfold success_ratio. apply truediv_ok. rewrite Qnat_zero. lia.
Qed.

Lemma success_ratio_undefined (r : LoadTestResults) :
  success_ratio r = Raise ZeroDivisionError <-> total_connections r = 0%nat.
Proof.
  split.
  - intros H. destruct (total_connections r) as [|n] eqn:E; [reflexivity|].
    rewrite success_ratio_defined in H; [discriminate | lia].
  - intros H. unfold success_ratio. apply truediv_zero. rewrite Qnat_zero. exact H.
Qed.

Lemma assess_spec (r : LoadTestResults) :
  (1 <= total_connections r)%nat ->
  let ratio := (Qnat (successful_connections r) / Qnat (total_connections r))%Q in
  exists a, assess r = Ok a /\
    (a = PASS <-> (95 # 100 <= ratio)%Q) /\
    (a = WARNING <-> (80 # 100 <= ratio)%Q /\ (ratio < 95 # 100)%Q) /\
    (a = FAIL <-> (ratio < 80 # 100)%Q).
Proof.
  intros H ratio. unfold assess. rewrite (success_ratio_defined r H).
  cbn [mbind result_bind]. fold ratio.
  assert (H8095 : (80 # 100 <= 95 # 100)%Q) by (unfold Qle; simpl; lia).
  destruct (Qle_bool (95 # 100) ratio) eqn:E95.
  - apply Qle_bool_iff in E95. exists PASS. split; [reflexivity|].
    split; [tauto|]. split; split; try discriminate.
    + intros [_ Hlt]. exfalso. exact (Qlt_not_le _ _ Hlt E95).
    + intros Hlt. exfalso. apply (Qlt_not_le _ _ Hlt). eapply Qle_trans; eassumption.
  - assert (Hlt95 : (ratio < 95 # 100)%Q).
    { apply Qnot_le_lt. intros Hle. apply Qle_bool_iff in Hle. congruence. }
    destruct (Qle_bool (80 # 100) ratio) eqn:E80.
    + apply Qle_bool_iff in E80. exists WARNING. split; [reflexivity|].
      split; [|split].
      * split; [discriminate|]. intros Hle. exfalso. exact (Qlt_not_le _ _ Hlt95 Hle).
      * tauto.
      * split; [discriminate|]. intros Hlt. exfalso. exact (Qlt_not_le _ _ Hlt E80).
    + assert (Hlt80 : (ratio < 80 # 100)%Q).
      { apply Qnot_le_lt. intros Hle. apply Qle_bool_iff in Hle. congruence. }
      exists FAIL. split; [reflexivity|]. split; [|split].
      * split; [discriminate|]. intros Hle. exfalso. exact (Qlt_not_le _ _ Hlt95 Hle).
      * split; [discriminate|]. intros [Hle _]. exfalso. exact (Qlt_not_le _ _ Hlt80 Hle).
      * tauto.
Qed.

Section Tester.

Variable format_num : string -> Q -> string.
Variable json_dumps : LoadTestResults -> string.
Variable str_of_exn : exn -> string.

Lemma generate_report_defined (args : arguments) (r : LoadTestResults) :
  (1 <= total_connections r)%nat ->
  exists head a,
    report_head format_num args r = Ok head /\ assess r = Ok a /\
    generate_report format_num args r
    = Ok (join newline (head ++ assessment_lines a)).
Proof.
  intros H. destruct (assess_spec r H) as (a & Ha & _).
  unfold generate_report, report_head. rewrite (success_ratio_defined r H), Ha.
  cbn [mbind result_bind]. eexists _, a. repeat split; reflexivity.
Qed.

Lemma generate_report_undefined (args : arguments) (r : LoadTestResults) :
  total_connections r = 0%nat ->
  generate_report format_num args r = Raise ZeroDivisionError.
Proof.
  intros H. apply success_ratio_undefined in H.
  unfold generate_report, report_head. rewrite H. reflexivity.
Qed.

Lemma main_exit_status (args : arguments) (env : load_env) (w : world)
      (r : LoadTestResults) :
  statistics_of (gather (connections args) (duration args) env) env = Ok r ->
  (1 <= total_connections r)%nat ->
  output args <> EmptyString ->
  exit_status (main format_num json_dumps str_of_exn args env w).1
  = if Qltb (Qnat (successful_connections r) / Qnat (total_connections r)) (80 # 100)
    then 1%Z else 0%Z.
Proof.
  intros Hr H Hout. apply String.eqb_neq in Hout.
  destruct (generate_report_defined args r H) as (head & a & _ & _ & Hrep).
  unfold main, try_except, run_load_test, mbind, io_bind, print, lift, write_file,
    sys_exit, raise.
  rewrite Hr. cbn [files stdout]. rewrite Hrep. cbn [files stdout].
  rewrite Hout. cbn [String.eqb files stdout].
  rewrite (success_ratio_defined r H).
  destruct (Qltb _ _); reflexivity.
Qed.

Lemma main_without_output (args : arguments) (env : load_env) (w : world)
      (r : LoadTestResults) :
  statistics_of (gather (connections args) (duration args) env) env = Ok r ->
  output args = EmptyString ->
  let run := main format_num json_dumps str_of_exn args env w in
  exit_status run.1 = 1%Z /\ files run.2 = files w.
Proof.
  intros Hr Hout.
  unfold main, try_except, run_load_test, mbind, io_bind, print, lift, write_file,
    sys_exit, raise.
  rewrite Hr. cbn [files stdout].
  destruct (generate_report format_num args r) as [report|e] eqn:Hrep.
  - cbn [files stdout]. rewrite Hout. cbn. split; reflexivity.
  - assert (He : is_Exception e = true).
    { unfold generate_report in Hrep.
      destruct (report_head format_num args r) as [head|e1] eqn:Hhead;
        cbn [mbind result_bind] in Hrep.
      - destruct (assess r) as [a|e2] eqn:Ha; cbn [mbind result_bind] in Hrep;
          [discriminate|].
        injection Hrep as <-. unfold assess, success_ratio, truediv in Ha.
        repeat (destruct (Qeq_bool _ _); cbn [mbind result_bind] in Ha;
                try (injection Ha as <-; reflexivity));
          repeat (destruct (Qle_bool _ _); try discriminate).
      - injection Hrep as <-. unfold report_head, success_ratio, truediv in Hhead.
        destruct (Qeq_bool _ _); cbn [mbind result_bind] in Hhead;
          [injection Hhead as <-; reflexivity | discriminate]. }
    cbn [files stdout]. rewrite He. split; reflexivity.
Qed.

Lemma main_without_results (args : arguments) (env : load_env) (w : world)
      (r : LoadTestResults) :
  statistics_of (gather (connections args) (duration args) env) env = Ok r ->
  total_connections r = 0%nat ->
  let run := main format_num json_dumps str_of_exn args env w in
  exit_status run.1 = 1%Z /\ files run.2 = files w.
Proof.
  intros Hr H.
  unfold main, try_except, run_load_test, mbind, io_bind, print, lift, write_file,
    sys_exit, raise.
  rewrite Hr. cbn [files stdout]. rewrite (generate_report_undefined args r H).
  split; reflexivity.
Qed.

End Tester.




Lemma statistics_of_zero_duration (results : list gathered) (env : load_env)
      (r : LoadTestResults) :
  statistics_of results env = Ok r ->
  (run_end env - run_start env <= 0)%Q ->
  packets_per_second r = 0%Q /\ errors_per_second r = 0%Q.
Proof.
  intros Hr Hd. apply Qltb_ge in Hd. unfold statistics_of in Hr.
  rewrite Hd in Hr.
  apply bind_Ok_inv in Hr as (mc & _ & Hr).
  apply bind_Ok_inv in Hr as (mt & _ & Hr).
  cbn [mbind result_bind] in Hr. injection Hr as <-. split; reflexivity.
Qed.

(** C10. The statistics of a run are always computed: the two rates
    over the duration are zero when the duration is not positive.  The
    report and the exit check divide by the number of valid results: they
    are computed exactly when there is at least one, and raise
    [ZeroDivisionError] exactly when there is none, as in a run asked for
    zero connections, which ends with status 1. *)
Theorem success_rate_needs_a_result
        (format_num : string -> Q -> string) (json_dumps : LoadTestResults -> string)
        (str_of_exn : exn -> string) :
  (forall results env, exists r, statistics_of results env = Ok r) /\
  (forall results env r,
     statistics_of results env = Ok r ->
     (run_end env - run_start env <= 0)%Q ->
     packets_per_second r = 0%Q /\ errors_per_second r = 0%Q) /\
  (forall args r,
     ((exists report, generate_report format_num args r = Ok report)
      <-> (1 <= total_connections r)%nat) /\
     (generate_report format_num args r = Raise ZeroDivisionError
      <-> total_connections r = 0%nat)) /\
  (forall r,
     ((exists rate, success_ratio r = Ok rate) <-> (1 <= total_connections r)%nat) /\
     (success_ratio r = Raise ZeroDivisionError <-> total_connections r = 0%nat)) /\
  (forall args env w,
     connections args = 0%Z ->
     exists r,
       (run_load_test (connections args) (duration args) env w).1 = Ok r /\
       total_connections r = 0%nat /\
       exit_status (main format_num json_dumps str_of_exn args env w).1 = 1%Z).
Proof.
  split; [|split; [|split; [|split]]].
  - intros results env.
    destruct (statistics_of_spec results env) as (r & Hr & _). eauto.
  - apply statistics_of_zero_duration.
  - intros args r. split; split.
    + intros [report Hrep]. destruct (total_connections r) eqn:E; [|lia].
      rewrite (generate_report_undefined format_num args r E) in Hrep. discriminate.
    + intros H. destruct (generate_report_defined format_num args r H)
        as (head & a & _ & _ & Hrep). eauto.
    + intros Hz. destruct (total_connections r) eqn:E; [reflexivity|].
      destruct (generate_report_defined format_num args r) as (head & a & _ & _ & Hrep);
        [lia|]. rewrite Hrep in Hz. discriminate.
    + apply generate_report_undefined.
  - intros r. split; [|apply success_ratio_undefined]. split.
    + intros [rate Hrate]. destruct (total_connections r) eqn:E; [|lia].
      apply success_ratio_undefined in E. rewrite E in Hrate. discriminate.
    + intros H. rewrite (success_ratio_defined r H). eauto.
  - intros args env w Hc.
    destruct (statistics_of_spec (gather (connections args) (duration args) env) env)
      as (r & Hr & Htot & _).
    assert (Hz : total_connections r = 0%nat).
    { rewrite Htot. unfold gather. rewrite Hc. reflexivity. }
    exists r. split; [|split; [exact Hz|]].
    + unfold run_load_test, mbind, io_bind, print, lift. rewrite Hr. reflexivity.
    + apply (main_without_results format_num json_dumps str_of_exn args env w r Hr Hz).
Qed.

Lemma success_rate_needs_a_result_witness :
  exit_status (main (fun _ _ => "0") (fun _ => "{}") (fun _ => "error")
                    no_connection nine_of_ten {| files := ∅; stdout := [] |}).1 = 1%Z.
Proof.
  destruct (success_rate_needs_a_result (fun _ _ => "0") (fun _ => "{}") (fun _ => "error"))
    as (_ & _ & _ & _ & H).
  destruct (H no_connection nine_of_ten {| files := ∅; stdout := [] |} eq_refl)
    as (r & _ & _ & Hexit).
  exact Hexit.
Defined.

End LoadTestFacts.

(** ** The load tester: the error cutoff of a session *)

Section SessionFacts.
Import Py LoadTest.

Lemma reply_errors_nonneg (rep : reply) : (0 <= reply_errors rep)%Z.
Proof. destruct rep; simpl; try destruct (_ =? _)%Z; lia. Qed.

Lemma errors_through_mono (reps : list reply) :
  forall e0, (e0 <= errors_through e0 reps)%Z.
Proof.
  unfold errors_through.
  induction reps as [|rep reps IH]; intros e0; cbn [fold_left]; [lia|].
  specialize (IH (e0 + reply_errors rep)%Z).
  pose proof (reply_errors_nonneg rep). lia.
Qed.

Lemma errors_through_app (reps reps' : list reply) (e0 : Z) :
  errors_through e0 (reps ++ reps') = errors_through (errors_through e0 reps) reps'.
Proof. unfold errors_through. apply fold_left_app. Qed.

Lemma on_status_errors (status : Z) (c : counters) :
  c_errors (on_status status c) = (c_errors c + reply_errors (Replied status))%Z /\
  posts (on_status status c) = posts c /\
  c_success (on_status status c) = c_success c.
Proof. unfold on_status. simpl. destruct (status =? 200)%Z; simpl; repeat split; lia. Qed.

Lemma after_reply_counters (rep : reply) (c : counters) :
  c_errors (after_reply rep c) = (c_errors c + reply_errors rep)%Z /\
  posts (after_reply rep c) = S (posts c) /\
  c_success (after_reply rep c) = c_success c.
Proof.
  destruct rep as [status|status|]; simpl.
  - destruct (on_status_errors status (add_post c)) as (He & Hp & Hs).
    rewrite He, Hp, Hs. simpl. auto.
  - destruct (on_status_errors status (add_post c)) as (He & Hp & Hs).
    rewrite He, Hp, Hs. simpl. destruct (status =? 200)%Z; repeat split; lia.
  - auto.
Qed.

(** Once ten errors are counted the loop is left at once. *)
Lemma keep_alive_stops (end_time : Q) (ticks : list (Q * reply)) (c : counters) :
  (10 <= c_errors c)%Z -> keep_alive end_time ticks c = c.
Proof.
  intros H. destruct ticks as [|[now rep] rest]; [reflexivity|]. simpl.
  replace (c_errors c <? 10)%Z with false by (symmetry; apply Z.ltb_ge; exact H).
  rewrite andb_false_r. reflexivity.
Qed.

(** One turn of the loop while time and errors allow. *)
Lemma keep_alive_turn (end_time now : Q) (rep : reply) (rest : list (Q * reply))
      (c : counters) :
  (now < end_time)%Q -> (c_errors c < 10)%Z ->
  keep_alive end_time ((now, rep) :: rest) c
  = keep_alive end_time rest (after_reply rep c)
  /\ ((10 <= c_errors (after_reply rep c))%Z ->
      keep_alive end_time ((now, rep) :: rest) c = after_reply rep c).
Proof.
  intros Hnow Herr. cbn [keep_alive].
  apply Qltb_lt in Hnow. apply Z.ltb_lt in Herr. rewrite Hnow, Herr. cbn [andb].
  destruct rep as [status|status|]; cbn [after_reply].
  - split; [reflexivity|]. intros H. apply keep_alive_stops. exact H.
  - destruct (10 <=? _)%Z eqn:E.
    + apply Z.leb_le in E. split; [|reflexivity].
      symmetry. apply keep_alive_stops. exact E.
    + split; [reflexivity|]. intros H. apply Z.leb_gt in E. lia.
  - destruct (10 <=? _)%Z eqn:E.
    + apply Z.leb_le in E. split; [|reflexivity].
      symmetry. apply keep_alive_stops. exact E.
    + split; [reflexivity|]. intros H. apply Z.leb_gt in E. lia.
Qed.

Lemma keep_alive_prefix (end_time : Q) (pre : list (Q * reply)) :
  forall (c : counters) (rest : list (Q * reply)),
  Forall (fun t => (t.1 < end_time)%Q) pre ->
  (errors_through (c_errors c) (map snd pre) < 10)%Z ->
  exists c',
    keep_alive end_time (pre ++ rest) c = keep_alive end_time rest c' /\
    c_errors c' = errors_through (c_errors c) (map snd pre) /\
    posts c' = (posts c + length pre)%nat /\
    c_success c' = c_success c.
Proof.
  induction pre as [|[now rep] pre IH]; intros c rest Htime Herr.
  - exists c. simpl. repeat split. lia.
  - apply Forall_cons in Htime as [Hnow Htime]. cbn [fst] in Hnow.
    cbn [map snd errors_through fold_left] in Herr.
    destruct (after_reply_counters rep c) as (He & Hp & Hs).
    assert (Hc : (c_errors c < 10)%Z).
    { pose proof (errors_through_mono (map snd pre) (c_errors c + reply_errors rep)).
      pose proof (reply_errors_nonneg rep). unfold errors_through in *. lia. }
    destruct (keep_alive_turn end_time now rep (pre ++ rest) c Hnow Hc) as [Hturn _].
    destruct (IH (after_reply rep c) rest Htime) as (c' & Hrun & He' & Hp' & Hs').
    { rewrite He. exact Herr. }
    exists c'. cbn [app]. rewrite Hturn, Hrun. split; [reflexivity|].
    rewrite He', He, Hp', Hp, Hs', Hs. cbn [length]. repeat split. lia.
Qed.

(** C4. Take a session that connects, and suppose the replies to its
    first keep-alive requests, all issued before the deadline, bring its
    error count to ten or more with the last of them. Then the session
    issues exactly those requests, however much time and however many
    replies were left, and its result is unsuccessful with at least ten
    errors. *)
Theorem error_cutoff (connection_id duration : Z) (env : session_env)
        (pre : list (Q * reply)) (last : Q * reply) (rest : list (Q * reply)) :
  session_opens env = true ->
  c_success (connect env initial) = true ->
  ticks env = pre ++ last :: rest ->
  Forall (fun t => (t.1 < start_time env + inject_Z duration)%Q) (pre ++ [last]) ->
  let e0 := c_errors (connect env initial) in
  (errors_through e0 (map snd pre) < 10)%Z ->
  (10 <= errors_through e0 (map snd (pre ++ [last])))%Z ->
  requests_issued duration env = S (length pre) /\
  success (simulate_bedrock_connection connection_id duration env) = false /\
  (10 <= errors (simulate_bedrock_connection connection_id duration env))%Z.
Proof.
  intros Hopen Hconn Hticks Htime e0 Hbefore Hafter.
  apply Forall_app in Htime as [Hpre Hlast].
  apply Forall_cons in Hlast as [Hlast _].
  destruct last as [now rep]. cbn [fst] in Hlast.
  rewrite map_app, errors_through_app in Hafter.
  cbn [map snd errors_through fold_left] in Hafter.
  destruct (keep_alive_prefix _ pre (connect env initial) ((now, rep) :: rest) Hpre Hbefore)
    as (c' & Hrun & He' & Hp' & Hs').
  fold e0 in He'.
  destruct (after_reply_counters rep c') as (He & Hp & Hs).
  assert (Hcut : (10 <= c_errors (after_reply rep c'))%Z) by (rewrite He, He'; exact Hafter).
  destruct (keep_alive_turn _ now rep rest c' Hlast) as [_ Hturn]; [lia|].
  specialize (Hturn Hcut).
  assert (Hloop : keep_alive (start_time env + inject_Z duration) (ticks env)
                             (connect env initial) = after_reply rep c').
  { rewrite Hticks, Hrun. exact Hturn. }
  assert (Hposts : posts (connect env initial) = 0%nat).
  { unfold connect. destruct (connect_reply env) as [s|s|]; simpl;
      try destruct (s =? 200)%Z; reflexivity. }
  unfold requests_issued, simulate_bedrock_connection. cbn [success errors].
  unfold session_counters. rewrite Hopen, Hconn, Hloop.
  destruct (session_closes env); cbn [c_errors c_success posts add_error].
  - rewrite Hp, Hp', Hposts. split; [reflexivity|]. split; [|exact Hcut].
    replace (c_errors (after_reply rep c') <? 10)%Z with false
      by (symmetry; apply Z.ltb_ge; exact Hcut).
    apply andb_false_r.
  - rewrite Hp, Hp', Hposts. split; [reflexivity|]. split; [|lia].
    replace (c_errors (after_reply rep c') + 1 <? 10)%Z with false
      by (symmetry; apply Z.ltb_ge; lia).
    apply andb_false_r.
Qed.

Lemma error_cutoff_witness :
  requests_issued 60 failing_session = 10%nat /\
  success (simulate_bedrock_connection 7 60 failing_session) = false.
Proof.
  destruct (error_cutoff 7 60 failing_session
              (repeat (1%Q, Replied 500) 9) (1%Q, Replied 500)
              (repeat (2%Q, Replied 200) 5)) as (Hreq & Hsucc & _).
  - reflexivity.
  - reflexivity.
  - reflexivity.
  - repeat constructor.
  - vm_compute. reflexivity.
  - vm_compute. discriminate.
  - split; [exact Hreq | exact Hsucc].
Defined.

End SessionFacts.

(** ** The comparator: loading, reporting and the exit contract *)

Section ComparatorContract.
Import Py CompareBenchmarks.

Lemma compare_entry_name (name : string) (cur base : BenchmarkResult) (c : ComparisonResult) :
  compare_entry name cur base = Ok c ->
  cr_name c = name /\ (cr_regression c && cr_improvement c = false).
Proof.
  intros H. unfold compare_entry in H.
  apply bind_Ok_inv in H as (change & Hchange & H).
  assert (Hex : forall t : Q, (0 < t)%Q ->
            num_gtb change t && num_ltb change (- t) = false).
  { intros t Ht. destruct change as [q|]; [|reflexivity]. cbn [num_gtb num_ltb].
    destruct (Qltb t q) eqn:E1; [|reflexivity].
    destruct (Qltb q (- t)) eqn:E2; [|reflexivity].
    apply Qltb_lt in E1, E2. exfalso.
    assert (Hneg : (- t < 0)%Q) by exact (Qopp_lt_compat _ _ Ht).
    apply (Qlt_irrefl t). apply Qlt_trans with q; [exact E1|].
    apply Qlt_trans with (- t)%Q; [exact E2|].
    apply Qlt_trans with 0%Q; assumption. }
  assert (H5 : (0 < 5 # 100)%Q) by reflexivity.
  destruct (br_lower_is_better cur); injection H as <-;
    cbn [cr_name cr_regression cr_improvement]; split; try reflexivity.
  - apply (Hex regression_threshold H5).
  - rewrite andb_comm. apply (Hex regression_threshold H5).
Qed.

Lemma compare_items_output (items : list (string * BenchmarkResult))
      (baseline : dict BenchmarkResult) :
  forall (acc : list ComparisonResult) (w : world),
  exists comps,
    compare_items items baseline acc w
    = (Ok (acc ++ comps),
       {| files := files w; stdout := stdout w ++ unmatched_warnings items baseline |}) /\
    map cr_name comps = reported_names items baseline /\
    Forall (fun c => cr_regression c && cr_improvement c = false) comps.
Proof.
  induction items as [|[name cur] items IH]; intros acc w.
  - exists []. cbn. rewrite !app_nil_r. destruct w. repeat split. constructor.
  - cbn [compare_items]. unfold unmatched_warnings, reported_names.
    cbn [omap list_omap].
    fold (unmatched_warnings items baseline). fold (reported_names items baseline).
    destruct (dict_get baseline name) as [base|] eqn:Hget.
    + destruct (compare_entry_total name cur base) as [c Hc].
      destruct (compare_entry_name _ _ _ _ Hc) as [Hn Hx].
      unfold mbind, io_bind, lift. rewrite Hc.
      destruct (IH (acc ++ [c]) w) as (comps & Hrun & Hnames & Hall).
      exists (c :: comps). rewrite Hrun, <- app_assoc. cbn [map app].
      rewrite Hn, Hnames. repeat split. constructor; assumption.
    + unfold mbind, io_bind, print.
      match goal with |- context [compare_items items baseline acc ?w0] =>
        destruct (IH acc w0) as (comps & Hrun & Hnames & Hall) end.
      exists comps. rewrite Hrun. cbn [files stdout]. rewrite <- app_assoc.
      repeat split; assumption.
Qed.


Lemma three_groups (comps : list ComparisonResult) :
  Forall (fun c => cr_regression c && cr_improvement c = false) comps ->
  (length (regressions_of comps) + length (improvements_of comps)
   + length (stable_of comps) = length comps)%nat.
Proof.
  unfold regressions_of, improvements_of, stable_of.
  induction 1 as [|c comps Hc _ IH]; [reflexivity|].
  rewrite !filter_cons.
  destruct (cr_regression c), (cr_improvement c); try discriminate;
    repeat case_decide; try congruence; cbn in *; try discriminate; lia.
Qed.


Lemma read_as_functional (bench : json) (r r' : BenchmarkResult) :
  read_as bench r -> read_as bench r' -> r = r'.
Proof.
  intros (Hn & Hv & Hu & Hl) (Hn' & Hv' & Hu' & Hl').
  destruct r, r'; cbn in *. congruence.
Qed.

Lemma read_entries_fold (entries : list json) :
  forall acc d,
  read_entries entries acc = Ok d ->
  exists rs, Forall2 read_as entries rs /\
             d = fold_left (fun a r => dict_set a (br_name r) r) rs acc.
Proof.
  induction entries as [|bench rest IH]; intros acc d H; cbn [read_entries] in H.
  - injection H as <-. exists []. split; [constructor | reflexivity].
  - apply bind_Ok_inv in H as (name & Hn & H).
    apply bind_Ok_inv in H as (value & Hv & H).
    apply bind_Ok_inv in H as (unit & Hu & H).
    apply bind_Ok_inv in H as (lower & Hl & H).
    destruct (IH _ _ H) as (rs & Hall & ->).
    exists ({| br_name := name; br_value := value; br_unit := unit;
               br_lower_is_better := lower |} :: rs).
    split; [|reflexivity].
    constructor; [|exact Hall]. repeat split; assumption.
Qed.

Lemma dict_set_keys {V} (d : dict V) (k : string) (v : V) :
  NoDup (map fst d) -> NoDup (map fst (dict_set d k v)) /\
  (forall k', k' ∈ map fst (dict_set d k v) -> k' = k \/ k' ∈ map fst d).
Proof.
  induction d as [|[k0 v0] d IH]; intros Hnd; cbn.
  - split; [apply NoDup_singleton|]. intros k' Hin.
    apply list_elem_of_singleton in Hin. tauto.
  - apply NoDup_cons in Hnd as [Hnotin Hnd]. destruct (IH Hnd) as [IH1 IH2].
    destruct (String.eqb k0 k) eqn:E; cbn.
    + split; [apply NoDup_cons; auto | tauto].
    + split.
      * apply NoDup_cons. split; [|exact IH1].
        intros Hin. apply IH2 in Hin as [-> | Hin].
        -- rewrite String.eqb_refl in E. discriminate.
        -- exact (Hnotin Hin).
      * intros k' Hin. apply elem_of_cons in Hin as [-> | Hin].
        -- right. apply elem_of_cons. tauto.
        -- apply IH2 in Hin as [-> | Hin]; [tauto|]. right. apply elem_of_cons. tauto.
Qed.

Lemma dict_set_named (d : dict BenchmarkResult) (r : BenchmarkResult) :
  Forall (fun kv => br_name kv.2 = kv.1) d ->
  Forall (fun kv => br_name kv.2 = kv.1) (dict_set d (br_name r) r).
Proof.
  induction 1 as [|[k0 v0] d Hk Hd IH]; cbn.
  - repeat constructor.
  - destruct (String.eqb k0 (br_name r)) eqn:E.
    + apply String.eqb_eq in E. constructor; [cbn; congruence | exact Hd].
    + constructor; assumption.
Qed.

Lemma fold_dict_set_keys (rs : list BenchmarkResult) :
  forall acc,
  NoDup (map fst acc) -> Forall (fun kv => br_name kv.2 = kv.1) acc ->
  let d := fold_left (fun a r => dict_set a (br_name r) r) rs acc in
  NoDup (map fst d) /\ Forall (fun kv => br_name kv.2 = kv.1) d.
Proof.
  induction rs as [|r rs IH]; intros acc Hnd Hnamed; cbn.
  - auto.
  - apply IH; [apply dict_set_keys; exact Hnd | apply dict_set_named; exact Hnamed].
Qed.

Lemma fold_dict_set_other (rs : list BenchmarkResult) (name : string) :
  forall acc,
  Forall (fun r => br_name r <> name) rs ->
  dict_get (fold_left (fun a r => dict_set a (br_name r) r) rs acc) name
  = dict_get acc name.
Proof.
  induction rs as [|r rs IH]; intros acc Hall; cbn; [reflexivity|].
  apply Forall_cons in Hall as [Hr Hall]. rewrite (IH _ Hall), dict_get_set.
  destruct (String.eqb (br_name r) name) eqn:E; [|reflexivity].
  apply String.eqb_eq in E. contradiction.
Qed.

(** X7. Loading keeps one measurement per name: in the dictionary read
    from a results document the names are distinct, every measurement is
    stored under its own name, and of several entries with one name the
    last one is the one kept. *)
Theorem later_duplicates_overwrite (data : json) (d : dict BenchmarkResult)
        (pre post : list json) (bench : json) (r : BenchmarkResult) :
  read_benchmarks data = Ok d ->
  get_default data "benchmarks" (JArr []) = Ok (JArr (pre ++ bench :: post)) ->
  read_as bench r ->
  Forall (fun b => subscript b "name" ≫= as_str <> Ok (br_name r)) post ->
  NoDup (map fst d) /\
  Forall (fun kv => br_name kv.2 = kv.1) d /\
  dict_get d (br_name r) = Some r.
Proof.
  intros Hread Hdata Hbench Hpost. unfold read_benchmarks in Hread.
  rewrite Hdata in Hread. cbn [mbind result_bind as_list] in Hread.
  destruct (read_entries_fold _ _ _ Hread) as (rs & Hall & ->).
  destruct (fold_dict_set_keys rs []) as [Hnd Hnamed]; [constructor | constructor |].
  split; [exact Hnd|]. split; [exact Hnamed|].
  apply Forall2_app_inv_l in Hall as (rs1 & rs2 & Hpre & Hrest & ->).
  apply Forall2_cons_inv_l in Hrest as (r' & rs3 & Hr' & Hpost' & ->).
  rewrite (read_as_functional _ _ _ Hr' Hbench) in *.
  rewrite fold_left_app. cbn [fold_left].
  rewrite fold_dict_set_other.
  - rewrite dict_get_set, String.eqb_refl. reflexivity.
  - clear - Hpost Hpost'. induction Hpost' as [|b r0 post rs3 Hb _ IH]; [constructor|].
    apply Forall_cons in Hpost as [Hne Hpost]. constructor; [|exact (IH Hpost)].
    intros Heq. apply Hne. destruct Hb as [Hn _]. rewrite Hn, Heq. reflexivity.
Qed.

Lemma later_duplicates_overwrite_witness :
  let entry (value : Q) :=
    JObj [("name", JStr "x"); ("value", JNum value); ("unit", JStr "ms")] in
  let r := {| br_name := "x"; br_value := 2; br_unit := "ms";
              br_lower_is_better := true |} in
  exists d,
    read_benchmarks (JObj [("benchmarks", JArr [entry 1%Q; entry 2%Q])]) = Ok d /\
    dict_get d "x" = Some r.
Proof.
  intros entry r. eexists. split; [reflexivity|].
  refine (proj2 (proj2 (later_duplicates_overwrite
                          (JObj [("benchmarks", JArr [entry 1%Q; entry 2%Q])]) _
                          [entry 1%Q] [] (entry 2%Q) r eq_refl eq_refl _ _))).
  - repeat split.
  - constructor.
Defined.

Section Main.

Variable json_loads : string -> result json.
Variable format_num : string -> pynum -> string.
Variable str_of_exn : exn -> string.

Lemma load_current_ok (path text : string) (data : json)
      (current : dict BenchmarkResult) (w : world) :
  files w !! path = Some text -> json_loads text = Ok data ->
  read_benchmarks data = Ok current ->
  load_current json_loads path w = (Ok current, w).
Proof.
  intros Hf Hj Hr. unfold load_current, read_file, lift, mbind, io_bind.
  rewrite Hf, Hj, Hr. reflexivity.
Qed.

Lemma load_baseline_ok (text : string) (data : json)
      (baseline : dict BenchmarkResult) (w : world) :
  files w !! baseline_path = Some text -> json_loads text = Ok data ->
  read_benchmarks data = Ok baseline ->
  load_baseline json_loads w = (Ok baseline, w).
Proof.
  intros Hf Hj Hr. unfold load_baseline, path_exists, read_file, lift, mbind, io_bind.
  rewrite Hf. cbn. rewrite Hf, Hj, Hr. reflexivity.
Qed.



Lemma load_current_world (path : string) (w : world) :
  (load_current json_loads path w).2 = w.
Proof.
  unfold load_current, read_file, lift, mbind, io_bind.
  destruct (files w !! path); [|reflexivity].
  destruct (json_loads _); reflexivity.
Qed.

Lemma load_baseline_files (w : world) :
  files (load_baseline json_loads w).2 = files w.
Proof.
  unfold load_baseline, path_exists, read_file, lift, print, mbind, io_bind, mret, io_ret.
  cbn. destruct (bool_decide _); cbn; [|reflexivity].
  destruct (files w !! baseline_path); [|reflexivity].
  destruct (json_loads _); reflexivity.
Qed.

Lemma failed_load_writes_nothing (argv : list string) (w : world) :
  (length argv < 2)%nat
  \/ (exists current_path e,
        argv !! 1%nat = Some current_path /\
        (load_current json_loads current_path w).1 = Raise e /\
        is_Exception e = true)
  \/ (exists current_path current e,
        argv !! 1%nat = Some current_path /\
        (load_current json_loads current_path w).1 = Ok current /\
        (load_baseline json_loads w).1 = Raise e /\
        is_Exception e = true) ->
  let run := main json_loads format_num str_of_exn argv w in
  exit_status run.1 = 1%Z /\ files run.2 = files w.
Proof.
  intros H run. subst run.
  destruct H as [Hlen | [(cp & e & Hcp & Hload & He) | (cp & cur & e & Hcp & Hload & Hbase & He)]].
  - destruct argv as [|prog [|cp rest]]; cbn in Hlen; try lia; split; reflexivity.
  - destruct argv as [|prog [|cp' rest]]; try discriminate. injection Hcp as ->.
    unfold main, try_except, mbind, io_bind.
    pose proof (load_current_world cp w) as Hw.
    destruct (load_current json_loads cp w) as [r w1]. cbn in Hload, Hw. subst r w1.
    rewrite He. split; reflexivity.
  - destruct argv as [|prog [|cp' rest]]; try discriminate. injection Hcp as ->.
    unfold main, try_except, mbind, io_bind.
    pose proof (load_current_world cp w) as Hw.
    destruct (load_current json_loads cp w) as [r w1]. cbn in Hload, Hw. subst r w1.
    pose proof (load_baseline_files w) as Hf.
    destruct (load_baseline json_loads w) as [rb wb]. cbn in Hbase, Hf. subst rb.
    rewrite He. split; [reflexivity|]. exact Hf.
Qed.

Lemma unreadable_raises (text : string) :
  unreadable json_loads text ->
  exists e, (data ← json_loads text; read_benchmarks data) = Raise e /\
            is_Exception e = true.
Proof.
  intros [(e & Hload & He) | (data & Hload & Hobj)].
  - exists e. rewrite Hload. split; [reflexivity | exact He].
  - exists AttributeError. rewrite Hload. cbn [mbind result_bind].
    unfold read_benchmarks. destruct data; try contradiction; split; reflexivity.
Qed.

(** X5. A run that cannot get as far as the comparison ends with status
    1 and leaves every file as it was: when the command line names no
    results file; when the results file is missing, or its text is not
    decoded, or is decoded to something that is not an object; and when
    the current results load but the baseline file is there with a text
    that is not decoded or not decoded to an object. *)
Theorem failed_run_writes_nothing (argv : list string) (w : world) :
  (length argv < 2)%nat
  \/ (exists current_path,
        argv !! 1%nat = Some current_path /\
        (files w !! current_path = None \/
         exists text, files w !! current_path = Some text /\
                      unreadable json_loads text))
  \/ (exists current_path text data current btext,
        argv !! 1%nat = Some current_path /\
        files w !! current_path = Some text /\ json_loads text = Ok data /\
        read_benchmarks data = Ok current /\
        files w !! baseline_path = Some btext /\ unreadable json_loads btext) ->
  let run := main json_loads format_num str_of_exn argv w in
  exit_status run.1 = 1%Z /\ files run.2 = files w.
Proof.
  intros H. apply failed_load_writes_nothing.
  destruct H as [Hlen | [(cp & Hcp & Hcur) | (cp & text & data & cur & btext & Hcp & Hc
                                               & Hj & Hr & Hb & Hbad)]].
  - left. exact Hlen.
  - right. left. exists cp.
    destruct Hcur as [Hnone | (text & Hsome & Hbad)].
    + exists (FileNotFoundError cp). split; [exact Hcp|].
      unfold load_current, read_file, mbind, io_bind. rewrite Hnone.
      split; reflexivity.
    + destruct (unreadable_raises text Hbad) as (e & He & Hord).
      exists e. split; [exact Hcp|]. split; [|exact Hord].
      unfold load_current, read_file, lift, mbind, io_bind. rewrite Hsome.
      cbn [mbind result_bind] in He.
      destruct (json_loads text) as [d|e']; cbn in He |- *.
      * destruct (read_benchmarks d); [discriminate | exact He].
      * exact He.
  - right. right.
    destruct (unreadable_raises btext Hbad) as (e & He & Hord).
    exists cp, cur, e. split; [exact Hcp|].
    rewrite (load_current_ok _ _ _ _ _ Hc Hj Hr). split; [reflexivity|].
    split; [|exact Hord].
    unfold load_baseline, path_exists, read_file, lift, mbind, io_bind.
    cbn [files]. rewrite Hb. rewrite bool_decide_eq_true_2 by eauto. cbn [negb].
    rewrite Hb. cbn [mbind result_bind] in He.
    destruct (json_loads btext) as [d|e']; cbn in He |- *.
    + destruct (read_benchmarks d); [discriminate | exact He].
    + exact He.
Qed.


End Main.

Lemma failed_run_writes_nothing_witness :
  let run := main decode_sample (fun _ _ => "0") (fun _ => "error")
                  ["compare_benchmarks.py"; "missing.json"] sample_world in
  exit_status run.1 = 1%Z /\ files run.2 = files sample_world.
Proof.
  apply (failed_run_writes_nothing decode_sample (fun _ _ => "0") (fun _ => "error")).
  right. left. exists "missing.json". split; [reflexivity|]. left. reflexivity.
Defined.




End ComparatorContract.

(** ** The chart generator and the comparator side by side *)

Section ColoursAndClasses.
Import Py.

Lemma scale_thresholds (q : Q) :
  Qltb 5 (q * 100) = Qltb (5 # 100) q /\ Qltb (q * 100) (-5) = Qltb q (- (5 # 100)).
Proof.
  assert (H1 : (5 < q * 100)%Q <-> (5 # 100 < q)%Q).
  { destruct q as [a b]. unfold Qlt, Qmult. cbn. lia. }
  assert (H2 : (q * 100 < -5)%Q <-> (q < - (5 # 100))%Q).
  { destruct q as [a b]. unfold Qlt, Qmult, Qopp. cbn. lia. }
  split.
  - destruct (Qltb (5 # 100) q) eqn:E.
    + apply Qltb_lt, H1. apply Qltb_lt. exact E.
    + apply not_true_is_false. intros H. apply Qltb_lt, H1, Qltb_lt in H. congruence.
  - destruct (Qltb q (- (5 # 100))) eqn:E.
    + apply Qltb_lt, H2. apply Qltb_lt. exact E.
    + apply not_true_is_false. intros H. apply Qltb_lt, H2, Qltb_lt in H. congruence.
Qed.

Lemma same_thresholds (cur base : Q) :
  ~ (base == 0)%Q \/ (0 <= cur)%Q ->
  exists change p,
    CompareBenchmarks.relative_change cur base = Ok change /\
    GenerateBenchmarkCharts.percent_change cur base = Ok p /\
    num_gtb p 5 = num_gtb change (5 # 100) /\
    num_ltb p (-5) = num_ltb change (- (5 # 100)).
Proof.
  intros H. unfold CompareBenchmarks.relative_change, GenerateBenchmarkCharts.percent_change.
  destruct (Qeq_bool base 0) eqn:Eb; cbn [negb].
  - destruct H as [H|H]; [apply Qeq_bool_iff in Eb; contradiction|].
    destruct (Qltb 0 cur) eqn:Ec.
    + apply Qltb_lt in Ec.
      replace (Qeq_bool cur 0) with false.
      * eexists _, _. repeat split.
      * symmetry. apply Qeq_bool_false. intros E. rewrite E in Ec.
        exact (Qlt_irrefl _ Ec).
    + apply Qltb_ge in Ec.
      replace (Qeq_bool cur 0) with true.
      * eexists _, _. repeat split.
      * symmetry. apply Qeq_bool_iff. apply Qle_antisym; assumption.
  - apply Qeq_bool_false in Eb. rewrite (truediv_ok _ _ Eb). cbn [mbind result_bind].
    eexists _, _. split; [reflexivity|]. split; [reflexivity|].
    cbn [num_gtb num_ltb]. apply scale_thresholds.
Qed.



(** X9. Where the two part ways: for a baseline value of zero and a
    negative current value the comparator takes the change to be zero and
    calls the measurement stable, while the chart takes it to be infinite
    and paints the bar red for a lower-is-better metric, green for a
    higher-is-better one. *)
Theorem negative_over_zero_baseline
        (name : string) (cur base : CompareBenchmarks.BenchmarkResult) :
  (CompareBenchmarks.br_value base == 0)%Q ->
  (CompareBenchmarks.br_value cur < 0)%Q ->
  (exists c q,
     CompareBenchmarks.compare_entry name cur base = Ok c /\
     CompareBenchmarks.cr_change_percent c = Fin q /\ (q == 0)%Q /\
     CompareBenchmarks.cr_regression c = false /\
     CompareBenchmarks.cr_improvement c = false) /\
  GenerateBenchmarkCharts.percent_change
    (CompareBenchmarks.br_value cur) (CompareBenchmarks.br_value base) = Ok PosInf /\
  GenerateBenchmarkCharts.bar_color (CompareBenchmarks.br_lower_is_better cur) PosInf
  = (if CompareBenchmarks.br_lower_is_better cur then "red" else "green").
Proof.
  intros Hb Hc. split; [|split].
  - unfold CompareBenchmarks.compare_entry, CompareBenchmarks.relative_change.
    apply Qeq_bool_iff in Hb. rewrite Hb.
    replace (Qltb 0 (CompareBenchmarks.br_value cur)) with false
      by (symmetry; apply Qltb_ge; apply Qlt_le_weak; exact Hc).
    cbn [mbind result_bind].
    destruct (CompareBenchmarks.br_lower_is_better cur); eexists _, _;
      (split; [reflexivity|]); cbn; repeat split.
  - unfold GenerateBenchmarkCharts.percent_change.
    apply Qeq_bool_iff in Hb. rewrite Hb. cbn [negb].
    replace (Qeq_bool (CompareBenchmarks.br_value cur) 0) with false; [reflexivity|].
    symmetry. apply Qeq_bool_false. intros E. rewrite E in Hc. exact (Qlt_irrefl _ Hc).
  - destruct (CompareBenchmarks.br_lower_is_better cur); reflexivity.
Qed.

Lemma negative_over_zero_baseline_witness :
  GenerateBenchmarkCharts.percent_change (-1)%Q 0%Q = Ok PosInf.
Proof.
  set (x value := {| CompareBenchmarks.br_name := "x"; CompareBenchmarks.br_value := value;
                     CompareBenchmarks.br_unit := "ms";
                     CompareBenchmarks.br_lower_is_better := true |}).
  destruct (negative_over_zero_baseline "x" (x (-1)%Q) (x 0%Q)) as (_ & Hp & _).
  - reflexivity.
  - reflexivity.
  - exact Hp.
Defined.

End ColoursAndClasses.

(** ** The chart generator: grouping and selection *)

Section ChartSelections.
Import Py GenerateBenchmarkCharts.

Lemma categorize_benchmark_range (name : string) :
  categorize_benchmark name ∈ category_names.
Proof.
  unfold categorize_benchmark, category_names.
  repeat match goal with |- context [if ?b then _ else _] => destruct b end;
    apply list_elem_of_In; cbn; tauto.
Qed.

Lemma dict_set_Forall {V} (P : V -> Prop) (d : dict V) (k : string) (v : V) :
  Forall (fun kv => P kv.2) d -> P v -> Forall (fun kv => P kv.2) (dict_set d k v).
Proof.
  intros Hd Hv. induction Hd as [|[k0 v0] d H0 Hd IH]; cbn.
  - repeat constructor. exact Hv.
  - destruct (String.eqb k0 k); constructor; assumption.
Qed.

Lemma members_of_set (categories : dict (list json)) (k category : string)
      (members : list json) :
  members_of (dict_set categories k members) category
  = if String.eqb k category then members else members_of categories category.
Proof.
  unfold members_of. rewrite dict_get_set. destruct (String.eqb k category); reflexivity.
Qed.

Lemma group_by_category_spec (data : list json) :
  forall acc groups,
  NoDup (map fst acc) ->
  (forall k, k ∈ map fst acc -> k ∈ category_names) ->
  Forall (fun kv => kv.2 <> []) acc ->
  group_by_category data acc = Ok groups ->
  NoDup (map fst groups) /\
  (forall k, k ∈ map fst groups -> k ∈ category_names) /\
  Forall (fun kv => kv.2 <> []) groups /\
  forall category,
    members_of groups category
    = members_of acc category ++ List.filter (in_category category) data.
Proof.
  induction data as [|item rest IH]; intros acc groups Hnd Hsub Hne Hrun;
    cbn [group_by_category] in Hrun.
  - injection Hrun as <-. repeat split; auto. intros c. cbn. rewrite app_nil_r. reflexivity.
  - apply bind_Ok_inv in Hrun as (name & Hname & Hrun). cbv zeta in Hrun.
    fold (members_of acc (categorize_benchmark name)) in Hrun.
    destruct (dict_set_keys acc (categorize_benchmark name)
                (members_of acc (categorize_benchmark name) ++ [item]) Hnd) as [Hnd' Hk'].
    apply IH in Hrun as (H1 & H2 & H3 & H4); [|exact Hnd'| |].
    + repeat split; auto. intros c. rewrite H4, members_of_set. cbn [List.filter].
      unfold in_category at 2. unfold name_of. rewrite Hname.
      destruct (String.eqb (categorize_benchmark name) c) eqn:E.
      * apply String.eqb_eq in E. subst c. rewrite <- app_assoc. reflexivity.
      * reflexivity.
    + intros k Hk. apply Hk' in Hk as [-> | Hk]; [apply categorize_benchmark_range | auto].
    + apply (dict_set_Forall (fun l => l <> [])); [exact Hne|].
      intros E. apply app_eq_nil in E as [_ E]. discriminate.
Qed.

(** X10. The category chart sorts every measurement into the group of
    its category: the groups have distinct names out of the seven
    categories and none is empty, and the members of a category are the
    measurements of that category in their order in the data. There can
    be seven groups, one more than the six the figure has room for. *)
Theorem categories_partition_the_data (data : list json) (groups : dict (list json)) :
  group_by_category data [] = Ok groups ->
  NoDup (map fst groups) /\
  (length groups <= 7)%nat /\
  Forall (fun kv => kv.2 <> []) groups /\
  forall category,
    members_of groups category = List.filter (in_category category) data.
Proof.
  intros Hrun.
  apply group_by_category_spec in Hrun as (Hnd & Hsub & Hne & Hmem).
  - repeat split; auto.
    rewrite <- (length_map fst groups).
    change 7%nat with (length category_names).
    apply submseteq_length, NoDup_submseteq; assumption.
  - constructor.
  - intros k Hk. cbn in Hk. inversion Hk.
  - constructor.
Qed.

Lemma categories_partition_the_data_witness :
  let data := map (fun name => measurement name 1)
                  ["memory_pool_efficiency"; "packet_rate"; "ecs_update";
                   "plugin_load"; "tick_lag"; "server_startup_avg"; "other";
                   "memory_allocation"] in
  exists groups,
    group_by_category data [] = Ok groups /\
    members_of groups "memory" = List.filter (in_category "memory") data /\
    map fst groups
    = ["memory"; "network"; "ecs"; "plugin"; "tick_rate"; "server"; "general"].
Proof.
  intros data.
  destruct (group_by_category data []) as [groups|e] eqn:Hrun; [|discriminate].
  exists groups. split; [reflexivity|].
  destruct (categories_partition_the_data data groups Hrun) as (_ & _ & _ & Hmem).
  split; [apply Hmem|].
  vm_compute in Hrun. injection Hrun as <-. reflexivity.
Defined.

Lemma memory_benchmarks_of_spec (data : list json) (selected : list json) :
  memory_benchmarks_of data = Ok selected ->
  selected
  = List.filter (fun item =>
                   match name_of item with
                   | Some name => contains "memory" (lower name)
                                  || contains "pool" (lower name)
                   | None => false
                   end) data.
Proof.
  revert selected. induction data as [|item rest IH]; intros selected H;
    cbn [memory_benchmarks_of] in H.
  - injection H as <-. reflexivity.
  - apply bind_Ok_inv in H as (name & Hname & H).
    apply bind_Ok_inv in H as (sel & Hsel & H). injection H as <-.
    cbn [List.filter]. unfold name_of at 1. rewrite Hname, <- (IH _ Hsel). reflexivity.
Qed.

Lemma memory_benchmarks_of_total (data : list json) :
  Forall (fun item => is_Some (name_of item)) data ->
  exists selected, memory_benchmarks_of data = Ok selected.
Proof.
  induction 1 as [|item rest [name Hname] _ [selected IH]]; [eexists; reflexivity|].
  cbn [memory_benchmarks_of]. unfold name_of in Hname.
  destruct (subscript item "name" ≫= as_str) as [n|]; [|discriminate].
  rewrite IH. cbn [mbind result_bind]. eauto.
Qed.

(** X11. For entries with a name, the memory chart takes exactly the
    measurements whose lower-cased name mentions "memory" or "pool", in
    their order in the data.  Each of them is a memory benchmark for the
    categorisation; a measurement whose name mentions only "allocation"
    is one too and yet is left out of this chart.  When no measurement is
    taken the chart is not drawn: a notice is printed and no file is
    written. *)
Theorem memory_chart_selection
        (draw_memory : list (string * Q) -> list (string * Q) -> string)
        (data : list json) (output_dir : string) (w : world) :
  Forall (fun item => is_Some (name_of item)) data ->
  exists selected,
    memory_benchmarks_of data = Ok selected /\
    selected = List.filter mentions_memory_or_pool data /\
    Forall (fun item => in_category "memory" item = true) selected /\
    (forall item name,
       In item data -> name_of item = Some name ->
       contains "allocation" (lower name) = true ->
       contains "memory" (lower name) = false -> contains "pool" (lower name) = false ->
       in_category "memory" item = true /\ ~ In item selected) /\
    (selected = [] ->
     create_memory_analysis_chart draw_memory data output_dir w
     = (Ok tt, {| files := files w;
                  stdout := stdout w ++ ["No memory benchmarks found"] |})).
Proof.
  intros Hnames.
  destruct (memory_benchmarks_of_total data Hnames) as [selected Hsel].
  exists selected. split; [exact Hsel|].
  pose proof (memory_benchmarks_of_spec _ _ Hsel) as Hspec.
  fold mentions_memory_or_pool in Hspec.
  split; [exact Hspec|]. split; [|split].
  - rewrite Hspec. apply List.Forall_forall. intros item Hin.
    apply filter_In in Hin as [_ Hin]. unfold mentions_memory_or_pool in Hin.
    unfold in_category.
    destruct (name_of item) as [name|]; [|discriminate].
    apply String.eqb_eq. unfold categorize_benchmark. cbv zeta.
    apply orb_true_iff in Hin as [-> | ->]; [reflexivity|].
    rewrite orb_true_r. reflexivity.
  - intros item name _ Hname Ha Hm Hp. split.
    + unfold in_category. rewrite Hname. apply String.eqb_eq.
      unfold categorize_benchmark. cbv zeta. rewrite Ha, Hm, Hp. reflexivity.
    + intros Hin. rewrite Hspec in Hin.
      apply filter_In in Hin as [_ Hin]. unfold mentions_memory_or_pool in Hin.
      rewrite Hname, Hm, Hp in Hin. discriminate.
  - intros ->. unfold create_memory_analysis_chart, mbind, io_bind, lift.
    rewrite Hsel. reflexivity.
Qed.

Lemma memory_chart_selection_witness :
  memory_benchmarks_of [measurement "Memory_Pool_efficiency" 1;
                        measurement "allocation_time" 2]
  = Ok [measurement "Memory_Pool_efficiency" 1] /\
  in_category "memory" (measurement "allocation_time" 2) = true.
Proof.
  destruct (memory_chart_selection (fun _ _ => "png")
              [measurement "Memory_Pool_efficiency" 1; measurement "allocation_time" 2]
              "charts" {| files := ∅; stdout := [] |}) as (selected & Hsel & Hspec & _ & Hout & _).
  - repeat constructor; eexists; reflexivity.
  - rewrite Hsel, Hspec. split; [reflexivity|].
    apply (Hout (measurement "allocation_time" 2) "allocation_time");
      [right; left; reflexivity | reflexivity..].
Defined.

Lemma baseline_entry_name (item : json) :
  baseline_entry item = true ->
  exists name q, name_of item = Some name /\ value_of item = Some q /\
                 subscript item "name" ≫= as_str = Ok name /\
                 subscript item "value" = Ok (JNum q) /\ truthy item = true.
Proof.
  intros H. destruct (baseline_entry_fields item H) as (name & q & Hn & Hv).
  exists name, q. unfold name_of, value_of. rewrite Hn, Hv. cbn. repeat split.
  destruct item; try discriminate. destruct members; [discriminate | reflexivity].
Qed.

Lemma baseline_lookup_of_keys (baseline_data : list json) :
  forall acc lookup,
  forallb baseline_entry baseline_data = true ->
  baseline_lookup_of baseline_data acc = Ok lookup ->
  forall name,
    is_Some (dict_get lookup name)
    <-> is_Some (dict_get acc name) \/ name ∈ omap name_of baseline_data.
Proof.
  induction baseline_data as [|item rest IH]; intros acc lookup Hwf Hrun name;
    cbn in Hwf, Hrun.
  - injection Hrun as <-. cbn. split; [tauto|]. intros [H|H]; [exact H | inversion H].
  - apply andb_true_iff in Hwf as [Hitem Hrest].
    destruct (baseline_entry_name item Hitem) as (n & q & Hn & _ & Hs & Hv & _).
    rewrite Hs, Hv in Hrun. cbn [mbind result_bind] in Hrun.
    rewrite (IH _ _ Hrest Hrun name), dict_get_set. cbn [omap list_omap]. rewrite Hn.
    rewrite elem_of_cons. destruct (String.eqb n name) eqn:E.
    + apply String.eqb_eq in E. subst n. split; intros _; [right; left; reflexivity|].
      left. eexists. reflexivity.
    + apply String.eqb_neq in E. split; intros [H | H]; auto.
      destruct H as [H | H]; [congruence | auto].
Qed.

Lemma comparison_rows_names (current_data : list json) (lookup : dict json) :
  numeric lookup ->
  forall acc rows,
  comparison_rows current_data lookup acc = Ok rows ->
  map row_benchmark rows
  = map row_benchmark acc
    ++ List.filter (fun name => bool_decide (is_Some (dict_get lookup name)))
                   (omap name_of current_data).
Proof.
  intros Hnum. induction current_data as [|item rest IH]; intros acc rows Hrun;
    cbn [comparison_rows] in Hrun.
  - injection Hrun as <-. cbn. rewrite app_nil_r. reflexivity.
  - apply bind_Ok_inv in Hrun as (name & Hname & Hrun).
    apply bind_Ok_inv in Hrun as (cv & _ & Hrun).
    cbn [omap list_omap]. unfold name_of at 1. rewrite Hname. cbn [List.filter].
    destruct (dict_get lookup name) as [bv|] eqn:Hget.
    + destruct (is_num_as_num bv (Hnum _ _ Hget)) as [b ->].
      apply bind_Ok_inv in Hrun as (b' & _ & Hrun).
      apply bind_Ok_inv in Hrun as (c & _ & Hrun).
      apply bind_Ok_inv in Hrun as (p & _ & Hrun).
      apply bind_Ok_inv in Hrun as (u & _ & Hrun).
      apply bind_Ok_inv in Hrun as (l & _ & Hrun).
      rewrite (IH _ _ Hrun), map_app, <- app_assoc. reflexivity.
    + rewrite (IH _ _ Hrun). reflexivity.
Qed.

Lemma insert_row_permutation (row : comparison_row) (rows : list comparison_row) :
  Permutation (insert_row row rows) (row :: rows).
Proof.
  induction rows as [|r rest IH]; cbn [insert_row]; [reflexivity|].
  destruct (change_leb _ _); [reflexivity|].
  rewrite IH. apply perm_swap.
Qed.

Lemma sort_by_change_permutation (rows : list comparison_row) :
  Permutation (sort_by_change rows) rows.
Proof.
  induction rows as [|r rest IH]; cbn; [reflexivity|].
  rewrite insert_row_permutation, IH. reflexivity.
Qed.



(** *** The summary report *)

Lemma dict_get_Forall {V} (P : V -> Prop) (d : dict V) (k : string) (v : V) :
  Forall (fun kv => P kv.2) d -> dict_get d k = Some v -> P v.
Proof.
  induction 1 as [|[k0 v0] d H0 _ IH]; cbn; [discriminate|].
  destruct (String.eqb k0 k); [intros [= <-]; exact H0 | exact IH].
Qed.

Lemma baseline_items_of_total (baseline_data : list json) :
  forall acc,
  Forall (fun kv => baseline_entry kv.2 = true) acc ->
  forallb baseline_entry baseline_data = true ->
  exists lookup,
    baseline_items_of baseline_data acc = Ok lookup /\
    Forall (fun kv => baseline_entry kv.2 = true) lookup.
Proof.
  induction baseline_data as [|item rest IH]; intros acc Hacc Hwf; cbn in *.
  - eauto.
  - apply andb_true_iff in Hwf as [Hitem Hrest].
    destruct (baseline_entry_name item Hitem) as (n & q & _ & _ & Hs & _).
    rewrite Hs. cbn [mbind result_bind]. apply IH; [|exact Hrest].
    apply (dict_set_Forall (fun v => baseline_entry v = true)); assumption.
Qed.

Lemma current_entry_fields (item : json) :
  current_entry item = true ->
  baseline_entry item = true /\
  exists lower, subscript item "lower_is_better" = Ok lower.
Proof.
  unfold current_entry. rewrite !andb_true_iff. intros [[Hb _] Hl].
  split; [exact Hb|]. apply has_field_subscript in Hl as (l & Hl & _). eauto.
Qed.

Lemma summary_counts_total (current_data : list json) (lookup : dict json) :
  forallb current_entry current_data = true ->
  Forall (fun kv => baseline_entry kv.2 = true) lookup ->
  forall r i s,
  exists r' i' s',
    summary_counts current_data lookup r i s = Ok (r', i', s') /\
    (r' + i' + s' = r + i + s + length (List.filter (counted lookup) current_data))%nat.
Proof.
  intros Hwf Hlookup. induction current_data as [|item rest IH]; intros r i s.
  - exists r, i, s. cbn. split; [reflexivity | lia].
  - cbn in Hwf. apply andb_true_iff in Hwf as [Hitem Hrest]. specialize (IH Hrest).
    destruct (current_entry_fields item Hitem) as (Hb & lower & Hlower).
    destruct (baseline_entry_name item Hb) as (n & q & Hn & Hq & Hs & Hv & _).
    cbn [summary_counts List.filter]. rewrite Hs. cbn [mbind result_bind].
    unfold counted at 1. rewrite Hn.
    destruct (dict_get lookup n) as [b|] eqn:Hget.
    2: { destruct (IH r i s) as (r' & i' & s' & Hrun & Hsum). eauto. }
    pose proof (dict_get_Forall (fun v => baseline_entry v = true) _ _ _ Hlookup Hget) as Hbwf.
    destruct (baseline_entry_name b Hbwf) as (bn & bq & _ & Hbq & _ & Hbv & Hbt).
    rewrite Hbt, Hbv, Hbq. cbn [mbind result_bind as_num].
    destruct (Qeq_bool bq 0) eqn:Ez; cbn [negb].
    { destruct (IH r i s) as (r' & i' & s' & Hrun & Hsum). eauto. }
    apply Qeq_bool_false in Ez. rewrite Hv. cbn [mbind result_bind as_num].
    rewrite (truediv_ok _ _ Ez), Hlower. cbn [mbind result_bind length].
    destruct (truthy lower), (Qltb (5 # 100) ((q - bq) / bq)),
      (Qltb ((q - bq) / bq) (- (5 # 100)));
      match goal with |- context [summary_counts rest lookup ?a ?b ?c] =>
        destruct (IH a b c) as (r' & i' & s' & Hrun & Hsum) end;
      exists r', i', s'; (split; [exact Hrun | lia]).
Qed.



Lemma find_metric_spec (current_data : list json) (metric_name : string) :
  forallb baseline_entry current_data = true ->
  find_metric current_data metric_name
  = Ok (List.find (fun item => bool_decide (name_of item = Some metric_name))
                  current_data).
Proof.
  induction current_data as [|item rest IH]; intros Hwf; cbn in *; [reflexivity|].
  apply andb_true_iff in Hwf as [Hitem Hrest].
  destruct (baseline_entry_fields item Hitem) as (n & q & Hn & _).
  unfold name_of. rewrite Hn. cbn [mbind result_bind as_str].
  destruct (String.eqb n metric_name) eqn:E.
  - apply String.eqb_eq in E. subst n. rewrite bool_decide_eq_true_2; reflexivity.
  - apply String.eqb_neq in E. rewrite bool_decide_eq_false_2; [|congruence].
    apply IH. exact Hrest.
Qed.

Lemma typed_entry_fields (item : json) :
  typed_entry item = true ->
  baseline_entry item = true /\
  exists unit, subscript item "unit" ≫= as_str = Ok unit.
Proof.
  unfold typed_entry. rewrite !andb_true_iff. intros [[Hb Hu] _].
  split; [exact Hb|]. apply has_field_subscript in Hu as (u & Hu & Hs).
  apply is_str_as_str in Hs as [unit ->]. exists unit. rewrite Hu. reflexivity.
Qed.

Lemma typed_entries_baseline (data : list json) :
  forallb typed_entry data = true -> forallb baseline_entry data = true.
Proof.
  rewrite !forallb_forall. intros H item Hin.
  apply (typed_entry_fields item (H item Hin)).
Qed.

Lemma typed_entries_current (data : list json) :
  forallb typed_entry data = true -> forallb current_entry data = true.
Proof.
  rewrite !forallb_forall. intros H item Hin. specialize (H item Hin).
  unfold typed_entry in H. unfold current_entry. rewrite !andb_true_iff in *.
  destruct H as [[Hb Hu] Hl]. repeat split; auto.
  apply has_field_subscript in Hu as (u & Hu & _).
  unfold has_field. destruct item; try discriminate. cbn in Hu.
  destruct (dict_get members "unit"); [reflexivity | discriminate].
Qed.

Section Summary.

Variable format_num : string -> pynum -> string.
Variable generated : string.

Lemma key_metric_lines_spec (current_data : list json) (lookup : dict json)
      (metrics : list string) :
  forallb typed_entry current_data = true ->
  Forall (fun kv => baseline_entry kv.2 = true) lookup ->
  if existsb (divides_by_zero current_data lookup) metrics
  then key_metric_lines format_num metrics current_data lookup = Raise ZeroDivisionError
  else exists lines, key_metric_lines format_num metrics current_data lookup = Ok lines.
Proof.
  intros Hwf Hlookup. induction metrics as [|m rest IH]; cbn [existsb key_metric_lines].
  - eauto.
  - rewrite (find_metric_spec _ _ (typed_entries_baseline _ Hwf)).
    cbn [mbind result_bind]. unfold divides_by_zero at 1.
    destruct (List.find _ current_data) as [item|] eqn:Hfind.
    2: { cbn [orb mbind result_bind].
         destruct (existsb _ rest); [rewrite IH; reflexivity|].
         destruct IH as [lines ->]. cbn. eauto. }
    apply find_some in Hfind as [Hin _].
    rewrite forallb_forall in Hwf. specialize (Hwf item Hin).
    destruct (typed_entry_fields item Hwf) as (Hb & unit & Hunit).
    destruct (baseline_entry_name item Hb) as (n & q & _ & _ & _ & Hv & Ht).
    rewrite Ht, Hv. cbn [mbind result_bind as_num].
    destruct (dict_get lookup m) as [b|] eqn:Hget.
    + pose proof (dict_get_Forall (fun v => baseline_entry v = true) _ _ _ Hlookup Hget)
        as Hbwf.
      destruct (baseline_entry_name b Hbwf) as (bn & bq & _ & Hbq & _ & Hbv & Hbt).
      rewrite Hbt, Hbv, Hbq. cbn [mbind result_bind as_num].
      destruct (Qeq_bool bq 0) eqn:Ez.
      * apply Qeq_bool_iff in Ez. rewrite (truediv_zero _ _ Ez). reflexivity.
      * apply Qeq_bool_false in Ez. rewrite (truediv_ok _ _ Ez), Hunit.
        cbn [orb mbind result_bind].
        destruct (existsb _ rest); [rewrite IH; reflexivity|].
        destruct IH as [lines ->]. cbn. eauto.
    + rewrite Hunit. cbn [orb mbind result_bind].
      destruct (existsb _ rest); [rewrite IH; reflexivity|].
      destruct IH as [lines ->]. cbn. eauto.
Qed.


End Summary.


End ChartSelections.

(** ** The load tester: what a session can and cannot do *)

Section SessionInvariants.
Import Py LoadTest.

(** What the loop keeps: sent and received packets move together and
    are counted once per request at most, and the error count, which only
    grows, ends below twelve. *)
Definition kept (c c' : counters) (n : nat) : Prop :=
  (c_packets_sent c' - c_packets_sent c = c_packets_received c' - c_packets_received c)%Z /\
  (0 <= c_packets_sent c' - c_packets_sent c <= Z.of_nat (posts c' - posts c))%Z /\
  (posts c <= posts c' <= posts c + n)%nat /\
  (c_errors c <= c_errors c')%Z /\
  ((c_errors c <= 11)%Z -> (c_errors c' <= 11)%Z) /\
  c_success c' = c_success c /\ c_connect_time c' = c_connect_time c.

Lemma kept_refl (c : counters) (n : nat) : kept c c n.
Proof. unfold kept. repeat split; lia. Qed.

Lemma kept_turn (rep : reply) (c : counters) :
  (c_errors c < 10)%Z -> kept c (after_reply rep c) 1.
Proof.
  intros H. unfold kept.
  destruct rep as [status|status|]; cbn; unfold on_status;
    try destruct (status =? 200)%Z; cbn; repeat split; lia.
Qed.

Lemma kept_trans (c1 c2 c3 : counters) (n m : nat) :
  kept c1 c2 n -> kept c2 c3 m -> kept c1 c3 (n + m).
Proof. unfold kept. intros H1 H2. destruct_and!. repeat split; try lia; congruence. Qed.

Lemma keep_alive_kept (end_time : Q) (ticks : list (Q * reply)) :
  forall c, kept c (keep_alive end_time ticks c) (length ticks).
Proof.
  induction ticks as [|[now rep] rest IH]; intros c; [apply kept_refl|].
  cbn [keep_alive length].
  destruct (Qltb now end_time && (c_errors c <? 10)%Z) eqn:E; [|apply kept_refl].
  apply andb_true_iff in E as [_ E]. apply Z.ltb_lt in E.
  pose proof (kept_turn rep c E) as Hturn.
  assert (Hgo : kept c (keep_alive end_time rest (after_reply rep c)) (1 + length rest)).
  { eapply kept_trans; [exact Hturn | apply IH]. }
  assert (Hstop : kept c (after_reply rep c) (1 + length rest)).
  { replace (1 + length rest)%nat with (1 + length rest + 0)%nat by lia.
    eapply kept_trans; [|apply kept_refl].
    unfold kept in *. destruct_and!. repeat split; try lia; congruence. }
  destruct rep as [status|status|]; cbn [after_reply] in *.
  - exact Hgo.
  - destruct (10 <=? _)%Z; assumption.
  - destruct (10 <=? _)%Z; assumption.
Qed.

Lemma connect_counters (env : session_env) :
  let c := connect env initial in
  c_packets_sent c = 0%Z /\ c_packets_received c = 0%Z /\ posts c = 0%nat /\
  (0 <= c_errors c <= 1)%Z /\
  c_success c = match connect_reply env with
                | Replied status | RepliedThenRaised status => (status =? 200)%Z
                | RequestRaised => false
                end.
Proof.
  unfold connect. destruct (connect_reply env) as [status|status|]; cbn;
    try destruct (status =? 200)%Z; cbn; repeat split; lia.
Qed.

Lemma session_counters_bounds (duration : Z) (env : session_env) :
  let c := session_counters duration env in
  c_packets_received c = c_packets_sent c /\
  (0 <= c_packets_sent c <= Z.of_nat (posts c))%Z /\
  (posts c <= length (ticks env))%nat /\
  (0 <= c_errors c <= 12)%Z /\
  (c_success c = true -> connects env = true).
Proof.
  cbv zeta. unfold session_counters, connects.
  destruct (session_opens env); [|cbn; repeat split; try lia; discriminate].
  destruct (connect_counters env) as (Hs & Hr & Hp & He & Hsucc). cbv zeta in *.
  set (c0 := connect env initial) in *.
  assert (Hloop : kept c0 (if c_success c0
                           then keep_alive (start_time env + inject_Z duration)
                                           (ticks env) c0
                           else c0) (length (ticks env))).
  { destruct (c_success c0); [apply keep_alive_kept | apply kept_refl]. }
  set (c1 := if c_success c0 then _ else c0) in *.
  destruct Hloop as (H1 & H2 & H3 & H4 & H5 & H6 & _).
  assert (Hfinal : forall c2, c2 = c1 \/ c2 = add_error c1 ->
    c_packets_received c2 = c_packets_sent c2 /\
    (0 <= c_packets_sent c2 <= Z.of_nat (posts c2))%Z /\
    (posts c2 <= length (ticks env))%nat /\
    (0 <= c_errors c2 <= 12)%Z /\
    (c_success c2 = true ->
     true && match connect_reply env with
             | Replied status | RepliedThenRaised status => (status =? 200)%Z
             | RequestRaised => false
             end = true)).
  { intros c2 [-> | ->]; cbn [add_error c_packets_received c_packets_sent posts
                              c_errors c_success];
      (repeat split; try lia); cbn [andb]; congruence. }
  destruct (session_closes env); apply Hfinal; auto.
Qed.

(** X15. Whatever the server does, the result of a session has as many
    packets received as sent, no more packets sent than keep-alive
    requests issued, no more requests than the clock allowed turns, and
    between 0 and 12 errors; and when it is successful it has fewer than
    10 errors. *)
Theorem session_result_bounds (connection_id duration : Z) (env : session_env) :
  let r := simulate_bedrock_connection connection_id duration env in
  packets_received r = packets_sent r /\
  (0 <= packets_sent r <= Z.of_nat (requests_issued duration env))%Z /\
  (requests_issued duration env <= length (ticks env))%nat /\
  (0 <= errors r <= 12)%Z /\
  (success r = true -> (errors r < 10)%Z /\ connects env = true).
Proof.
  cbv zeta. unfold simulate_bedrock_connection, requests_issued.
  cbn [packets_received packets_sent errors success].
  destruct (session_counters_bounds duration env)
    as (Hrecv & Hsent & Hposts & Herrors & Hconnects).
  cbv zeta in *.
  split; [exact Hrecv|]. split; [exact Hsent|]. split; [exact Hposts|].
  split; [exact Herrors|].
  intros Hsuccess. apply andb_true_iff in Hsuccess as [Hflag Hfew].
  apply Z.ltb_lt in Hfew. split; [exact Hfew | exact (Hconnects Hflag)].
Qed.

(** X16. A session whose connection attempt does not succeed (the
    session cannot be opened, the request raises, or the status is not
    200) ends at once: it issues no keep-alive request, sends no packet,
    counts two errors at most and is unsuccessful. *)
Theorem failed_connect_ends_session (connection_id duration : Z) (env : session_env) :
  connects env = false ->
  let r := simulate_bedrock_connection connection_id duration env in
  requests_issued duration env = 0%nat /\
  packets_sent r = 0%Z /\ success r = false /\ (errors r <= 2)%Z /\
  connect_time r = 0%Q.
Proof.
  intros H. cbv zeta. unfold connects in H.
  unfold simulate_bedrock_connection, requests_issued, session_counters.
  cbn [packets_sent errors success connect_time].
  destruct (session_opens env); [|cbn; repeat split; lia].
  cbn [andb] in H.
  destruct (connect_counters env) as (Hs & Hr & Hp & He & Hsucc). cbv zeta in *.
  rewrite H in Hsucc. rewrite Hsucc.
  assert (Ht : c_connect_time (connect env initial) = 0%Q).
  { unfold connect. destruct (connect_reply env) as [status|status|];
      try rewrite H; reflexivity. }
  destruct (session_closes env); cbn [add_error c_packets_sent posts c_errors c_success
                                      c_connect_time];
    rewrite ?Hsucc; repeat split; auto; lia.
Qed.

Lemma failed_connect_ends_session_witness :
  requests_issued 60 (quiet_session (Replied 503)) = 0%nat /\
  success (simulate_bedrock_connection 1 60 (quiet_session (Replied 503))) = false.
Proof.
  destruct (failed_connect_ends_session 1 60 (quiet_session (Replied 503)) eq_refl)
    as (H1 & _ & H3 & _).
  split; assumption.
Defined.

Lemma keep_alive_healthy (end_time : Q) (ticks : list (Q * reply)) :
  Forall (fun t => t.2 = Replied 200) ticks ->
  forall c, (c_errors c < 10)%Z ->
  let c' := keep_alive end_time ticks c in
  c_errors c' = c_errors c /\
  posts c' = (posts c + length (on_time end_time ticks))%nat /\
  c_packets_sent c' = (c_packets_sent c + Z.of_nat (length (on_time end_time ticks)))%Z /\
  c_success c' = c_success c.
Proof.
  induction 1 as [|[now rep] rest Hrep _ IH]; intros c Hc; cbn.
  - repeat split; lia.
  - cbn in Hrep. subst rep. apply Z.ltb_lt in Hc. rewrite Hc, andb_true_r.
    destruct (Qltb now end_time); [|cbn; repeat split; lia].
    apply Z.ltb_lt in Hc.
    destruct (IH (on_status 200 (add_post c))) as (He & Hp & Hs & Hsucc); [exact Hc|].
    cbv zeta in *. rewrite He, Hp, Hs, Hsucc. cbn. repeat split; lia.
Qed.

(** X17. A session that connects and gets status 200 for every
    keep-alive request goes on until the deadline: it issues one request
    for each turn that begins in time, sends and receives one packet for
    each, counts no error and is successful. *)
Theorem healthy_session_runs_to_deadline (connection_id duration : Z) (env : session_env) :
  session_opens env = true -> connect_reply env = Replied 200 ->
  session_closes env = true ->
  Forall (fun t => t.2 = Replied 200) (ticks env) ->
  let r := simulate_bedrock_connection connection_id duration env in
  let turns := length (on_time (start_time env + inject_Z duration) (ticks env)) in
  requests_issued duration env = turns /\
  packets_sent r = Z.of_nat turns /\ packets_received r = Z.of_nat turns /\
  errors r = 0%Z /\ success r = true /\
  connect_time r = (connected_at env - connect_start env)%Q.
Proof.
  intros Hopen Hconn Hclose Hticks. cbv zeta.
  pose proof (session_counters_bounds duration env) as (Hrecv & _).
  cbv zeta in Hrecv. unfold simulate_bedrock_connection, requests_issued.
  cbn [packets_sent packets_received errors success connect_time].
  rewrite Hrecv. clear Hrecv. unfold session_counters.
  rewrite Hopen, Hclose. unfold connect. rewrite Hconn. cbn [Z.eqb Pos.eqb c_success].
  set (c0 := {| c_connect_time := (connected_at env - connect_start env)%Q;
                c_packets_sent := c_packets_sent initial;
                c_packets_received := c_packets_received initial;
                c_errors := c_errors initial; c_success := true;
                posts := posts initial |}).
  destruct (keep_alive_healthy (start_time env + inject_Z duration) (ticks env) Hticks c0)
    as (He & Hp & Hs & Hsucc); [cbn; lia|].
  cbv zeta in *. rewrite He, Hp, Hs, Hsucc. cbn. repeat split; try lia.
  pose proof (keep_alive_kept (start_time env + inject_Z duration) (ticks env) c0)
    as (_ & _ & _ & _ & _ & _ & Ht).
  exact Ht.
Qed.

Lemma healthy_session_runs_to_deadline_witness :
  packets_sent (simulate_bedrock_connection 1 1 healthy_session) = 3%Z /\
  success (simulate_bedrock_connection 1 1 healthy_session) = true.
Proof.
  destruct (healthy_session_runs_to_deadline 1 1 healthy_session eq_refl eq_refl eq_refl)
    as (_ & Hs & _ & _ & Hsucc & _).
  - repeat constructor.
  - split; [exact Hs | exact Hsucc].
Defined.

End SessionInvariants.

(** ** The load tester: the whole run and its output *)

Section RunFacts.
Import Py LoadTest.

Lemma valid_results_gather (duration : Z) (env : load_env) (l : list nat) :
  let g := fun i => match task env i with
                    | inl senv =>
                        Result (simulate_bedrock_connection (Z.of_nat i) duration senv)
                    | inr e => Exc e
                    end in
  length (valid_results (map g l)) = length (filter (fun i => returned env i = true) l) /\
  Forall (fun r => (0 <= packets_sent r)%Z /\ (0 <= errors r)%Z) (valid_results (map g l)).
Proof.
  cbv zeta. unfold valid_results, returned.
  induction l as [|i l [IHlen IHall]]; [split; [reflexivity | constructor]|].
  rewrite filter_cons. cbn [map omap list_omap].
  destruct (task env i) as [senv|e]; cbn [is_ConnectionResult].
  - destruct (decide (true = true)); [|congruence]. cbn [length]. split; [lia|].
    constructor; [|exact IHall].
    pose proof (session_counters_bounds duration senv) as (_ & Hp & _ & He & _).
    cbv beta zeta in *. split; [apply Hp | apply He].
  - destruct (decide (false = true)); [discriminate|]. split; assumption.
Qed.

Lemma Zsum_nonneg {A} (f : A -> Z) (l : list A) :
  Forall (fun r => (0 <= f r)%Z) l -> (0 <= Zsum (map f l))%Z.
Proof.
  unfold Zsum. induction 1 as [|x l Hx _ IH]; cbn [map fold_right]; lia.
Qed.

(** X18. The total of a run counts the tasks that returned a session
    result: a task that ended with an exception is counted neither as
    successful nor as failed.  The total is the number of connections
    asked for when every task returns, never more, and zero when that
    number is not positive. *)
Theorem total_counts_returned_tasks (num_connections duration : Z) (env : load_env) :
  exists r,
    statistics_of (gather num_connections duration env) env = Ok r /\
    total_connections r
    = length (filter (fun i => returned env i = true) (seq 0 (Z.to_nat num_connections))) /\
    (total_connections r <= Z.to_nat num_connections)%nat /\
    ((forall i, (i < Z.to_nat num_connections)%nat -> returned env i = true) ->
     total_connections r = Z.to_nat num_connections) /\
    ((num_connections <= 0)%Z -> total_connections r = 0%nat).
Proof.
  destruct (statistics_of_spec (gather num_connections duration env) env)
    as (r & Hr & Htot & _).
  exists r. split; [exact Hr|].
  destruct (valid_results_gather duration env (seq 0 (Z.to_nat num_connections)))
    as [Hlen _].
  cbv zeta in Hlen. unfold valid_results in Hlen. unfold gather in Htot.
  rewrite Hlen in Htot. rewrite Htot.
  set (P := fun i => returned env i = true).
  split; [reflexivity|]. split; [|split].
  - pose proof (length_filter P (seq 0 (Z.to_nat num_connections))) as H.
    rewrite length_seq in H. exact H.
  - intros Hall.
    assert (Hf : forall l, Forall P l -> filter P l = l).
    { induction 1 as [|i l Hi _ IH]; [reflexivity|].
      rewrite filter_cons. destruct (decide (P i)); [|contradiction]. congruence. }
    rewrite Hf; [apply length_seq|].
    apply List.Forall_forall. intros i Hi. apply in_seq in Hi. apply Hall. lia.
  - intros Hn. replace (Z.to_nat num_connections) with 0%nat by lia. reflexivity.
Qed.

Lemma rate_identity (n : Z) (d rate : Q) :
  (0 < d)%Q ->
  (if Qltb 0 d then truediv (inject_Z n) d else Ok 0%Q) = Ok rate ->
  (rate * d == inject_Z n)%Q /\ ((0 <= n)%Z -> (0 <= rate)%Q).
Proof.
  intros Hd H.
  assert (Hnz : ~ (d == 0)%Q).
  { intros Hz. rewrite Hz in Hd. exact (Qlt_irrefl _ Hd). }
  pose proof Hd as Hb. apply Qltb_lt in Hb. rewrite Hb in H.
  rewrite (truediv_ok _ _ Hnz) in H. injection H as <-. split.
  - unfold Qdiv. rewrite <- Qmult_assoc, (Qmult_comm (/ d)), Qmult_inv_r by exact Hnz.
    apply Qmult_1_r.
  - intros Hn. apply Qle_shift_div_l; [exact Hd|]. rewrite Qmult_0_l.
    unfold Qle. cbn. lia.
Qed.

(** X19. In a run that took a positive time the two rates are the
    packets sent and the errors of all returned sessions, failed ones
    included, over that time; neither rate is negative. *)
Theorem rates_over_all_sessions (num_connections duration : Z) (env : load_env) :
  (0 < run_end env - run_start env)%Q ->
  exists r,
    statistics_of (gather num_connections duration env) env = Ok r /\
    let sessions := valid_results (gather num_connections duration env) in
    (packets_per_second r * total_duration r
     == inject_Z (Zsum (map packets_sent sessions)))%Q /\
    (errors_per_second r * total_duration r
     == inject_Z (Zsum (map errors sessions)))%Q /\
    (0 <= packets_per_second r)%Q /\ (0 <= errors_per_second r)%Q.
Proof.
  intros Hd.
  destruct (statistics_of_spec (gather num_connections duration env) env)
    as (r & Hr & _).
  exists r. split; [exact Hr|]. cbv zeta.
  destruct (valid_results_gather duration env (seq 0 (Z.to_nat num_connections)))
    as [_ Hall].
  cbv zeta in Hall. fold (gather num_connections duration env) in Hall.
  unfold statistics_of in Hr. fold (valid_results (gather num_connections duration env)) in Hr.
  set (sessions := valid_results (gather num_connections duration env)) in *.
  apply bind_Ok_inv in Hr as (mc & _ & Hr).
  apply bind_Ok_inv in Hr as (mt & _ & Hr).
  apply bind_Ok_inv in Hr as (pps & Hpps & Hr).
  apply bind_Ok_inv in Hr as (eps & Heps & Hr).
  injection Hr as <-.
  cbn [packets_per_second errors_per_second total_duration].
  destruct (rate_identity _ _ _ Hd Hpps) as [Hp1 Hp2].
  destruct (rate_identity _ _ _ Hd Heps) as [He1 He2].
  split; [exact Hp1|]. split; [exact He1|]. split.
  - apply Hp2. apply Zsum_nonneg. eapply Forall_impl; [exact Hall|]. cbn. tauto.
  - apply He2. apply Zsum_nonneg. eapply Forall_impl; [exact Hall|]. cbn. tauto.
Qed.

Lemma rates_over_all_sessions_witness :
  exists r,
    statistics_of (gather 10 1 nine_of_ten) nine_of_ten = Ok r /\
    (0 <= errors_per_second r)%Q.
Proof.
  destruct (rates_over_all_sessions 10 1 nine_of_ten) as (r & Hr & _ & _ & _ & He).
  - vm_compute. reflexivity.
  - exists r. split; [exact Hr | exact He].
Defined.

Section Tester.

Variable format_num : string -> Q -> string.
Variable json_dumps : LoadTestResults -> string.
Variable str_of_exn : exn -> string.


End Tester.

End RunFacts.

(** ** The nightly report: what the collectors gather *)

Section CollectorFacts.
Import Py GenerateNightlyReport.

Variable subprocess_run : list string -> io completed.
Variable json_loads : string -> result json.
Variable py_int : string -> result Z.
Variable split_words : string -> list string.
Variable str_of_exn : exn -> string.

Lemma caught_quietly {A} (message : string) (e : exn) (value : A) (w : world) :
  is_Exception e = true -> returns_quietly (caught str_of_exn message e value) w value.
Proof.
  intros H. unfold returns_quietly, caught. rewrite H.
  eexists. reflexivity.
Qed.

Lemma finish_quietly {S} (message : string) (state : S) (err : option exn) (w : world) :
  (forall e, err = Some e -> is_Exception e = true) ->
  returns_quietly (finish str_of_exn message (state, err)) w state.
Proof.
  intros H. destruct err as [e|]; cbn [finish].
  - apply caught_quietly. auto.
  - exists (stdout w). destruct w. reflexivity.
Qed.

Lemma with_file_quietly {S} (message path text : string)
      (block : string -> S * option exn) (state : S) (w : world) :
  files w !! path = Some text ->
  (forall e, (block text).2 = Some e -> is_Exception e = true) ->
  returns_quietly (with_file str_of_exn message path block state) w (block text).1.
Proof.
  intros Hfile Herr. unfold returns_quietly, with_file, read_file. rewrite Hfile.
  destruct (block text) as [state' err]. apply finish_quietly. exact Herr.
Qed.

Lemma summary_of_shape (line suite : string) (c : json) :
  summary_of py_int split_words line = Ok (Some (suite, c)) ->
  (suite = "unit_tests" \/ suite = "integration_tests" \/ suite = "doc_tests") /\
  exists passed failed, c = suite_counts passed failed.
Proof.
  unfold summary_of. destruct (contains "test result:" line); [|discriminate].
  destruct (split_words line) as [|? [|? [|third [|? [|? [|sixth ?]]]]]];
    try discriminate.
  destruct (py_int third) as [passed|]; [|discriminate]. cbn [mbind result_bind].
  destruct (if contains "failed" line then py_int sixth else Ok 0%Z) as [failed|];
    [|discriminate].
  cbn [mbind result_bind]. intros [= <- <-]. split; [|eauto].
  destruct (contains "integration" line); [right; left; reflexivity|].
  destruct (contains "doc" line); [right; right; reflexivity | left; reflexivity].
Qed.

Lemma summary_of_ordinary (line : string) :
  (forall s, ordinary (py_int s)) -> ordinary (summary_of py_int split_words line).
Proof.
  intros Hint e. unfold summary_of.
  destruct (contains "test result:" line); [|discriminate].
  destruct (split_words line) as [|? [|? [|third [|? [|? [|sixth ?]]]]]];
    try discriminate.
  destruct (py_int third) as [passed|e1] eqn:E1; cbn [mbind result_bind].
  - destruct (contains "failed" line); [|discriminate].
    destruct (py_int sixth) as [failed|e2] eqn:E2; cbn [mbind result_bind];
      [discriminate|].
    intros [= <-]. exact (Hint _ _ E2).
  - intros [= <-]. exact (Hint _ _ E1).
Qed.

Lemma dict_set_three_suites (tr : dict json) (suite : string) (passed failed : Z) :
  three_suites tr ->
  suite = "unit_tests" \/ suite = "integration_tests" \/ suite = "doc_tests" ->
  three_suites (dict_set tr suite (suite_counts passed failed)).
Proof.
  intros (up & uf & ip & if_ & dp & df & ->) [-> | [-> | ->]]; cbn;
    unfold three_suites; eauto 10.
Qed.

Lemma scan_summaries_spec (lines : list string) :
  (forall s, ordinary (py_int s)) ->
  forall tr, three_suites tr ->
  three_suites (scan_summaries py_int split_words lines tr).1 /\
  forall e, (scan_summaries py_int split_words lines tr).2 = Some e ->
            is_Exception e = true.
Proof.
  intros Hint. induction lines as [|line rest IH]; intros tr Htr; cbn [scan_summaries].
  - split; [exact Htr | discriminate].
  - destruct (summary_of py_int split_words line) as [[[suite c]|]|e] eqn:E.
    + apply summary_of_shape in E as (Hsuite & passed & failed & ->).
      apply IH. apply dict_set_three_suites; assumption.
    + apply IH. exact Htr.
    + split; [exact Htr|]. cbn. intros e' [= <-].
      exact (summary_of_ordinary line Hint e E).
Qed.

(** X21. Whatever the test run prints, and also when it cannot be
    started, [collect_test_results] returns the three suites in their
    order, each with a total that is the sum of its passed and failed
    counts. *)
Theorem test_results_keep_their_shape (w : world) :
  (forall args w0, ordinary (subprocess_run args w0).1) ->
  (forall s, ordinary (py_int s)) ->
  exists v w',
    collect_test_results subprocess_run py_int split_words str_of_exn w = (Ok (JObj v), w') /\
    three_suites v.
Proof.
  intros Hrun Hint. unfold collect_test_results.
  set (cmd := ["cargo"; "test"; "--all-features"; "--"; "--format=json"]).
  pose proof (Hrun cmd w) as Hcmd.
  destruct (subprocess_run cmd w) as [[proc|e] w1]; cbn [fst] in Hcmd.
  - destruct (scan_summaries_spec (split_on linefeed (cp_stdout proc)) Hint
                                  initial_test_results) as [Hshape Herr].
    { unfold three_suites, initial_test_results. eauto 10. }
    destruct (scan_summaries py_int split_words _ initial_test_results) as [tr err].
    destruct (finish_quietly "Error collecting test results: " tr err w1 Herr)
      as [out Hout].
    unfold mbind, io_bind. rewrite Hout. eexists _, _. split; [reflexivity|exact Hshape].
  - destruct (caught_quietly "Error collecting test results: " e
                             (JObj initial_test_results) w1 (Hcmd e eq_refl))
      as [out Hout].
    rewrite Hout. eexists _, _. split; [reflexivity|].
    unfold three_suites, initial_test_results. eauto 10.
Qed.

Lemma scan_summaries_skips (pre rest : list string) (tr : dict json) :
  Forall (fun line => contains "test result:" line = false) pre ->
  scan_summaries py_int split_words (pre ++ rest) tr
  = scan_summaries py_int split_words rest tr.
Proof.
  induction 1 as [|line pre Hline _ IH]; [reflexivity|].
  cbn [app scan_summaries]. unfold summary_of at 1. rewrite Hline. exact IH.
Qed.

(** X22. The first summary line decides: when its third word is not a
    number for [int], as in a line that reads [test result: ok. 5
    passed; ...], the scan ends there with the exception caught, and the
    collector returns the zero counts it started from, whatever that line
    and the lines after it say. *)
Theorem first_summary_line_decides
        (w w1 : world) (proc : completed) (pre post : list string)
        (line third : string) (e : exn) :
  subprocess_run ["cargo"; "test"; "--all-features"; "--"; "--format=json"] w
  = (Ok proc, w1) ->
  split_on linefeed (cp_stdout proc) = pre ++ line :: post ->
  Forall (fun l => contains "test result:" l = false) pre ->
  contains "test result:" line = true ->
  (6 <= length (split_words line))%nat ->
  nth_error (split_words line) 2 = Some third ->
  py_int third = Raise e -> is_Exception e = true ->
  exists out,
    collect_test_results subprocess_run py_int split_words str_of_exn w
    = (Ok (JObj initial_test_results), {| files := files w1; stdout := out |}).
Proof.
  intros Hrun Hlines Hpre Hline Hlen Hthird Hint He.
  unfold collect_test_results. rewrite Hrun, Hlines.
  rewrite (scan_summaries_skips pre (line :: post) _ Hpre).
  cbn [scan_summaries].
  assert (Hsum : summary_of py_int split_words line = Raise e).
  { unfold summary_of. rewrite Hline.
    destruct (split_words line) as [|? [|? [|third' [|? [|? [|sixth ?]]]]]];
      cbn [length] in Hlen; try lia.
    cbn in Hthird. injection Hthird as ->. rewrite Hint. reflexivity. }
  rewrite Hsum.
  destruct (finish_quietly "Error collecting test results: " initial_test_results
                           (Some e) w1) as [out Hout].
  { intros e' [= <-]. exact He. }
  unfold mbind, io_bind. rewrite Hout. exists out. reflexivity.
Qed.

Lemma ret_quietly {A} (a : A) (w : world) : returns_quietly (mret a) w a.
Proof. exists (stdout w). destruct w. reflexivity. Qed.

Lemma path_exists_quietly (path : string) (w : world) :
  returns_quietly (path_exists path) w (bool_decide (is_Some (files w !! path))).
Proof. exists (stdout w). destruct w. reflexivity. Qed.

Lemma bind_quietly {A B} (m : io A) (k : A -> io B) (w : world) (a : A) (b : B) :
  returns_quietly m w a ->
  (forall w', files w' = files w -> returns_quietly (k a) w' b) ->
  returns_quietly (m ≫= k) w b.
Proof.
  intros [out Hm] Hk. unfold returns_quietly, mbind, io_bind. rewrite Hm.
  destruct (Hk {| files := files w; stdout := out |} eq_refl) as [out' Hk'].
  exists out'. exact Hk'.
Qed.

Lemma bind_quietly_with {A B} (m : io A) (k : A -> io B) (w : world) (a : A)
      (P : B -> Prop) :
  returns_quietly m w a ->
  (forall w', files w' = files w -> exists b, returns_quietly (k a) w' b /\ P b) ->
  exists b, returns_quietly (m ≫= k) w b /\ P b.
Proof.
  intros [out Hm] Hk.
  destruct (Hk {| files := files w; stdout := out |} eq_refl) as (b & [out' Hk'] & Hb).
  exists b. split; [|exact Hb].
  unfold returns_quietly, mbind, io_bind. rewrite Hm. exists out'. exact Hk'.
Qed.

Lemma inject_Z_nonzero (z : Z) : (0 < z)%Z -> ~ (inject_Z z == 0)%Q.
Proof. unfold Qeq. cbn. lia. Qed.

Lemma lcov_totals_ordinary (lines : list string) :
  (forall s, ordinary (py_int s)) ->
  forall total covered, ordinary (lcov_totals py_int lines total covered).
Proof.
  intros Hint. induction lines as [|line rest IH]; intros total covered;
    cbn [lcov_totals]; [apply Ok_ordinary|].
  destruct (String.prefix "LF:" line); [|destruct (String.prefix "LH:" line)].
  - apply bind_ordinary; [apply Hint | intros n; apply IH].
  - apply bind_ordinary; [apply Hint | intros n; apply IH].
  - apply IH.
Qed.

Lemma read_lcov_spec (content : string) :
  (forall s, ordinary (py_int s)) ->
  let outcome := read_lcov py_int content initial_coverage in
  (forall e, outcome.2 = Some e -> is_Exception e = true) /\
  outcome.1 = match lcov_totals py_int (split_on linefeed content) 0 0 with
              | Ok (total, covered) => coverage_from_totals total covered
              | Raise _ => initial_coverage
              end.
Proof.
  intros Hint. cbv zeta. unfold read_lcov, coverage_from_totals.
  destruct (lcov_totals py_int (split_on linefeed content) 0 0)
    as [[total covered]|e] eqn:E.
  - destruct (0 <? total)%Z eqn:Hpos; [|split; [discriminate | reflexivity]].
    cbn [PyNumber.py_truediv].
    unfold PyNumber.int_truediv.
    destruct (total =? 0)%Z; cbn [mbind result_bind fst snd].
    { split; [intros e' [= <-]; reflexivity | reflexivity]. }
    destruct (PyNumber.fdiv _ _); cbn [mbind result_bind fst snd];
      (split; [first [discriminate | intros e' [= <-]; reflexivity] | reflexivity]).
  - split; [|reflexivity].
    cbn. intros e' [= <-]. exact (lcov_totals_ordinary _ Hint _ _ _ E).
Qed.

Lemma coverage_loop_rest (coverage_results : dict PyNumber.number) (w : world) :
  returns_quietly (coverage_loop py_int str_of_exn ["coverage.json"] coverage_results)
                  w coverage_results.
Proof.
  cbn [coverage_loop].
  eapply bind_quietly; [apply path_exists_quietly|]. intros w1 _.
  eapply bind_quietly; [|intros w2 _; apply ret_quietly].
  destruct (bool_decide _); apply ret_quietly.
Qed.

(** X23. The coverage results come from [lcov.info] alone, and no file
    is written.  Without that file, or when a count of one of its [LF:]
    or [LH:] lines is not a number, or when the [LF:] counts do not add
    up to a positive total, the results are the zero values the collector
    starts from.  Otherwise they hold the two sums and the line coverage
    [covered / total * 100] as Python rounds it; when that quotient is
    too large for a double, the sums are stored and the line coverage
    stays at [0.0]. *)
Theorem coverage_comes_from_lcov (w : world) :
  (forall s, ordinary (py_int s)) ->
  exists v,
    returns_quietly (collect_coverage_results py_int str_of_exn) w v /\
    (files w !! "lcov.info" = None -> v = initial_coverage) /\
    (forall content,
       files w !! "lcov.info" = Some content ->
       v = match lcov_totals py_int (split_on linefeed content) 0 0 with
           | Ok (total, covered) => coverage_from_totals total covered
           | Raise _ => initial_coverage
           end).
Proof.
  intros Hint. unfold collect_coverage_results, coverage_files.
  cbn [coverage_loop].
  destruct (files w !! "lcov.info") as [content|] eqn:Hfile.
  - destruct (read_lcov_spec content Hint) as [Herr Hshape]. cbv zeta in *.
    exists (read_lcov py_int content initial_coverage).1. split; [|split].
    + eapply bind_quietly; [apply path_exists_quietly|]. intros w1 Hw1.
      rewrite Hfile. cbn [String.eqb Ascii.eqb Bool.eqb].
      rewrite bool_decide_eq_true_2 by eauto.
      eapply bind_quietly; [|intros w2 _; apply coverage_loop_rest].
      apply (with_file_quietly _ _ content
               (fun content => read_lcov py_int content initial_coverage)).
      * rewrite Hw1. exact Hfile.
      * exact Herr.
    + discriminate.
    + intros content' [= <-]. exact Hshape.
  - exists initial_coverage. split; [|split].
    + eapply bind_quietly; [apply path_exists_quietly|]. intros w1 Hw1.
      rewrite Hfile. rewrite bool_decide_eq_false_2 by (intros [? ?]; discriminate).
      eapply bind_quietly; [apply ret_quietly|]. intros w2 _.
      apply coverage_loop_rest.
    + reflexivity.
    + discriminate.
Qed.

Lemma parse_audit_spec (text : string) :
  ordinary (json_loads text) ->
  let outcome := parse_audit json_loads text initial_security in
  (forall e, outcome.2 = Some e -> is_Exception e = true) /\
  (exists b, dict_get outcome.1 "audit_passed" = Some (JBool b)) /\
  (dict_get outcome.1 "audit_passed" = Some (JBool false) ->
   exists data vulnerabilities n,
     json_loads text = Ok data /\
     get_default data "vulnerabilities" (JArr []) = Ok vulnerabilities /\
     len vulnerabilities = Ok (S n)).
Proof.
  intros Hloads. cbv zeta. unfold parse_audit, read_audit.
  destruct (json_loads text) as [data|e] eqn:E.
  - destruct (get_default data "vulnerabilities" (JArr [])) as [vs|e] eqn:Eget.
    + destruct (len vs) as [n|e] eqn:Elen.
      * cbn. split; [discriminate|]. split; [eauto|].
        destruct n as [|n]; [discriminate|]. intros _. eauto 10.
      * pose proof (len_ordinary _ _ Elen) as He.
        destruct e; cbn in *; try discriminate;
          (split; [intros ? [= <-]; reflexivity|]); (split; [eauto | discriminate]).
    + pose proof (get_default_ordinary _ _ _ _ Eget) as He.
      destruct e; cbn in *; try discriminate;
        (split; [intros ? [= <-]; reflexivity|]); (split; [eauto | discriminate]).
  - pose proof (Hloads _ eq_refl) as He.
    destruct e; cbn in *; try discriminate;
      (split; [first [discriminate | intros ? [= <-]; reflexivity]|]);
      (split; [eauto | discriminate]).
Qed.

(** X24. The security results say that the audit failed only when the
    audit command returned status 0 and its output was decoded to a
    document with a vulnerabilities member of length one or more.  When
    the command returns another status its output is not read, and the
    results are the ones the collector starts from: no vulnerability, and
    an audit that passed. *)
Theorem audit_fails_only_after_status_zero (w : world) :
  (forall args w0, ordinary (subprocess_run args w0).1) ->
  (forall text, ordinary (json_loads text)) ->
  let run := subprocess_run ["cargo"; "audit"; "--format"; "json"] w in
  exists v w',
    collect_security_results subprocess_run json_loads str_of_exn w = (Ok (JObj v), w') /\
    (exists b, dict_get v "audit_passed" = Some (JBool b)) /\
    (dict_get v "audit_passed" = Some (JBool false) ->
     exists proc data vulnerabilities n,
       run.1 = Ok proc /\ returncode proc = 0%Z /\
       json_loads (cp_stdout proc) = Ok data /\
       get_default data "vulnerabilities" (JArr []) = Ok vulnerabilities /\
       len vulnerabilities = Ok (S n)) /\
    (forall proc, run.1 = Ok proc -> returncode proc <> 0%Z -> v = initial_security).
Proof.
  intros Hrun Hloads. cbv zeta. unfold collect_security_results.
  set (cmd := ["cargo"; "audit"; "--format"; "json"]).
  pose proof (Hrun cmd w) as Hcmd.
  destruct (subprocess_run cmd w) as [[proc|e] w1]; cbn [fst] in *.
  - destruct (returncode proc =? 0)%Z eqn:Hcode.
    + apply Z.eqb_eq in Hcode.
      destruct (parse_audit_spec (cp_stdout proc) (Hloads _)) as (Herr & Hb & Hfalse).
      cbv zeta in *.
      destruct (parse_audit json_loads (cp_stdout proc) initial_security) as [sr err].
      destruct (finish_quietly "Error running security audit: " sr err w1 Herr)
        as [out Hout].
      unfold mbind, io_bind. rewrite Hout. eexists _, _. split; [reflexivity|].
      split; [exact Hb|]. split.
      * intros H. destruct (Hfalse H) as (data & vs & n & H1 & H2 & H3).
        exists proc, data, vs, n. auto.
      * intros proc' [= <-] Hne. contradiction.
    + eexists _, _. split; [reflexivity|]. split; [cbn; eauto|].
      split; [discriminate|]. reflexivity.
  - destruct (caught_quietly "Error running security audit: " e
                             (JObj initial_security) w1 (Hcmd e eq_refl))
      as [out Hout].
    rewrite Hout. eexists _, _. split; [reflexivity|]. split; [cbn; eauto|].
    split; [discriminate|]. discriminate.
Qed.

Lemma py_in_ordinary (key : string) (data : json) : ordinary (py_in key data).
Proof. intros e. destruct data; cbn; intros [= <-]; reflexivity. Qed.

Lemma copy_member_spec (key : string) (data : json) (results : dict json) :
  key = "minecraft_versions" \/ key = "migration_tests" ->
  backward_compatible results ->
  backward_compatible (copy_member key data results).1 /\
  forall e, (copy_member key data results).2 = Some e -> is_Exception e = true.
Proof.
  intros Hkey Hres. unfold copy_member.
  destruct (py_in key data) as [[|]|e] eqn:Ein.
  - destruct (subscript data key) as [v|e] eqn:Esub; cbn.
    + split; [|discriminate].
      destruct Hres as (versions & migration & ->).
      destruct Hkey as [-> | ->]; cbn; unfold backward_compatible; eauto.
    + split; [exact Hres|]. intros e' [= <-]. exact (subscript_ordinary _ _ _ Esub).
  - cbn. split; [exact Hres | discriminate].
  - cbn. split; [exact Hres|]. intros e' [= <-]. exact (py_in_ordinary _ _ _ Ein).
Qed.

Lemma read_compatibility_spec (data : json) (results : dict json) :
  backward_compatible results ->
  backward_compatible (read_compatibility data results).1 /\
  forall e, (read_compatibility data results).2 = Some e -> is_Exception e = true.
Proof.
  intros Hres. unfold read_compatibility.
  destruct (copy_member_spec "minecraft_versions" data results) as [H1 E1];
    [auto | exact Hres|].
  destruct (copy_member "minecraft_versions" data results) as [results1 [e|]].
  - split; assumption.
  - apply copy_member_spec; auto.
Qed.

Lemma compatibility_loop_spec (paths : list string) :
  (forall text, ordinary (json_loads text)) ->
  forall results w,
    backward_compatible results ->
    exists results',
      returns_quietly (compatibility_loop json_loads str_of_exn paths results) w results' /\
      backward_compatible results'.
Proof.
  intros Hloads. induction paths as [|file_path rest IH]; intros results w Hres;
    cbn [compatibility_loop].
  - exists results. split; [apply ret_quietly | exact Hres].
  - set (block := fun text =>
                    match json_loads text with
                    | Raise e => (results, Some e)
                    | Ok data => read_compatibility data results
                    end).
    assert (Hblock : forall text,
      backward_compatible (block text).1 /\
      forall e, (block text).2 = Some e -> is_Exception e = true).
    { intros text. unfold block.
      destruct (json_loads text) as [data|e] eqn:E.
      - apply read_compatibility_spec. exact Hres.
      - split; [exact Hres|]. cbn. intros e' [= <-]. exact (Hloads _ _ E). }
    eapply bind_quietly_with; [apply path_exists_quietly|]. intros w1 Hw1.
    destruct (files w !! file_path) as [text|] eqn:Hfile.
    + destruct (Hblock text) as [Hshape Herr].
      rewrite bool_decide_eq_true_2 by eauto.
      eapply bind_quietly_with.
      * apply (with_file_quietly _ _ text block); [rewrite Hw1; exact Hfile | exact Herr].
      * intros w2 _. apply IH. exact Hshape.
    + rewrite bool_decide_eq_false_2 by (intros [? ?]; discriminate).
      eapply bind_quietly_with; [apply ret_quietly|].
      intros w2 _. apply IH. exact Hres.
Qed.

Lemma derived_compatibility (report_data : json) (d : derived) :
  derived_metrics report_data = Ok d ->
  compat_status d = status_of (truthy (backward_compat d)).
Proof.
  intros H. unfold derived_metrics in H.
  repeat (cbv zeta in H;
          match type of H with
          | _ ≫= _ = Ok _ => apply bind_Ok_inv in H as (? & ? & H)
          end).
  injection H as <-. reflexivity.
Qed.

(** X25. Whatever the two compatibility files hold, the collector
    returns results with the keys [minecraft_versions], [migration_tests]
    and [backward_compatibility], the last of them [True]: no file content
    can report a break of backward compatibility, so a report derived from
    these results shows the compatibility status as passed. *)
Theorem backward_compatibility_is_constant (w : world) :
  (forall text, ordinary (json_loads text)) ->
  exists v,
    returns_quietly (collect_compatibility_results json_loads str_of_exn) w (JObj v) /\
    backward_compatible v /\
    forall timestamp c d,
      compatibility_results c = JObj v ->
      derived_metrics (report_data_of timestamp c) = Ok d ->
      backward_compat d = JBool true /\ compat_status d = "status-pass".
Proof.
  intros Hloads. unfold collect_compatibility_results.
  destruct (compatibility_loop_spec compat_files Hloads initial_compatibility w)
    as (v & Hrun & Hv).
  { unfold backward_compatible, initial_compatibility. eauto. }
  exists v. split; [|split; [exact Hv|]].
  - eapply bind_quietly; [exact Hrun|]. intros w1 _. apply ret_quietly.
  - intros timestamp c d Hc Hd.
    assert (Hb : backward_compat d = JBool true).
    { destruct (derived_metrics_reads _ _ Hd) as [Hread _].
      destruct Hread as (tests & security & compatibility & migration & _ & _ & Hcompat
                         & _ & _ & _ & _ & Hback & _).
      cbn in Hcompat. injection Hcompat as <-. rewrite Hc in Hback.
      destruct Hv as (versions & migration' & ->). cbn in Hback.
      injection Hback as <-. reflexivity. }
    split; [exact Hb|]. rewrite (derived_compatibility _ _ Hd), Hb. reflexivity.
Qed.

Lemma performance_loop_rest (performance_results : dict json) (w : world) :
  returns_quietly
    (performance_loop json_loads str_of_exn ["target/criterion/reports/index.html"]
                      performance_results)
    w performance_results.
Proof.
  cbn [performance_loop].
  eapply bind_quietly; [apply path_exists_quietly|]. intros w1 _.
  eapply bind_quietly; [|intros w2 _; apply ret_quietly].
  destruct (bool_decide _); [|apply ret_quietly].
  replace (endswith ".json" "target/criterion/reports/index.html") with false
    by (vm_compute; reflexivity).
  apply ret_quietly.
Qed.

(** X26. The performance results take their benchmarks from
    [benchmark_results.json] alone: they are the [benchmarks] member of
    the object that the text of that file is decoded to, and the empty
    list when the object has no such member, when the text is decoded to
    something else or not at all, and when the file is missing.  Memory
    usage and throughput are empty in each case, no file is written, and
    the criterion report is never read. *)
Theorem benchmarks_come_from_results_file (w : world) :
  (forall text, ordinary (json_loads text)) ->
  returns_quietly (collect_performance_results json_loads str_of_exn) w
    (JObj [("benchmarks",
            benchmarks_read json_loads (files w !! "benchmark_results.json"));
           ("memory_usage", JObj []); ("throughput", JObj [])]).
Proof.
  intros Hloads. unfold collect_performance_results, benchmark_files.
  cbn [performance_loop].
  replace (endswith ".json" "benchmark_results.json") with true
    by (vm_compute; reflexivity).
  set (block := fun text => read_benchmark_results json_loads text initial_performance).
  destruct (files w !! "benchmark_results.json") as [text|] eqn:Hfile;
    cbn [benchmarks_read].
  - assert (Hblock :
      (forall e, (block text).2 = Some e -> is_Exception e = true) /\
      (block text).1
      = [("benchmarks",
          match json_loads text with
          | Ok (JObj members) =>
              match dict_get members "benchmarks" with
              | Some benchmarks => benchmarks
              | None => JArr []
              end
          | _ => JArr []
          end);
         ("memory_usage", JObj []); ("throughput", JObj [])]).
    { unfold block, read_benchmark_results.
      destruct (json_loads text) as [data|e] eqn:E.
      - destruct data; cbn; (split; [intros e' [= <-]; reflexivity | reflexivity]).
      - cbn. split; [intros e' [= <-]; exact (Hloads _ _ E) | reflexivity]. }
    destruct Hblock as (Herr & Hshape).
    eapply bind_quietly; [|intros w0 _; rewrite <- Hshape; apply ret_quietly].
    eapply bind_quietly; [apply path_exists_quietly|]. intros w1 Hw1.
    rewrite Hfile. rewrite bool_decide_eq_true_2 by eauto.
    eapply bind_quietly; [|intros w2 _; apply performance_loop_rest].
    apply (with_file_quietly _ _ text block); [rewrite Hw1; exact Hfile | exact Herr].
  - eapply bind_quietly; [|intros w0 _; apply ret_quietly].
    eapply bind_quietly; [apply path_exists_quietly|]. intros w1 Hw1.
    rewrite Hfile. rewrite bool_decide_eq_false_2 by (intros [? ?]; discriminate).
    eapply bind_quietly; [apply ret_quietly|]. intros w2 _.
    apply performance_loop_rest.
Qed.

End CollectorFacts.

(** ** The collectors on examples *)

Section CollectorExamples.
Import Py GenerateNightlyReport.

Lemma numeral_ordinary (s : string) : ordinary (numeral s).
Proof.
  intros e. unfold numeral. destruct s; [intros [= <-]; reflexivity|].
  destruct (numeral_value _ _); [discriminate | intros [= <-]; reflexivity].
Qed.

Lemma printing_ordinary (status : Z) (text : string) (args : list string) (w : world) :
  ordinary (printing status text args w).1.
Proof. intros e. discriminate. Qed.

Lemma decode_audit_ordinary (text : string) : ordinary (decode_audit text).
Proof.
  intros e. unfold decode_audit. destruct (String.eqb _ _);
    [discriminate | intros [= <-]; reflexivity].
Qed.

Lemma test_results_keep_their_shape_witness :
  exists v w',
    collect_test_results (printing 0 cargo_output) numeral words_of (fun _ => "error")
                         {| files := ∅; stdout := [] |}
    = (Ok (JObj v), w') /\
    three_suites v.
Proof.
  apply (test_results_keep_their_shape (printing 0 cargo_output) numeral words_of).
  - apply printing_ordinary.
  - apply numeral_ordinary.
Defined.

Lemma first_summary_line_decides_witness :
  exists out,
    collect_test_results (printing 0 cargo_output) numeral words_of (fun _ => "error")
                         {| files := ∅; stdout := [] |}
    = (Ok (JObj initial_test_results), {| files := ∅; stdout := out |}).
Proof.
  apply (first_summary_line_decides
           (printing 0 cargo_output) numeral words_of (fun _ => "error")
           {| files := ∅; stdout := [] |} {| files := ∅; stdout := [] |}
           {| returncode := 0; cp_stdout := cargo_output |}
           ["running 5 tests"]
           [EmptyString]
           "test result: ok. 5 passed; 0 failed; 0 ignored; 0 measured; 0 filtered out"
           "ok." (ValueError "ok.")).
  - reflexivity.
  - vm_compute. reflexivity.
  - repeat constructor.
  - vm_compute. reflexivity.
  - vm_compute. lia.
  - vm_compute. reflexivity.
  - vm_compute. reflexivity.
  - reflexivity.
Defined.

Lemma coverage_comes_from_lcov_witness :
  returns_quietly (collect_coverage_results numeral (fun _ => "error"))
                  {| files := {["lcov.info" := lcov_sample]}; stdout := [] |}
                  (coverage_of 40 30 (PyNumber.decimal 75 0)).
Proof.
  destruct (coverage_comes_from_lcov
              numeral (fun _ => "error")
              {| files := {["lcov.info" := lcov_sample]}; stdout := [] |}
              numeral_ordinary) as (v & Hrun & _ & Hv).
  rewrite (Hv lcov_sample eq_refl) in Hrun. exact Hrun.
Defined.

Lemma audit_fails_only_after_status_zero_witness :
  exists w',
    collect_security_results (printing 1 audit_output) decode_audit (fun _ => "error")
                             {| files := ∅; stdout := [] |}
    = (Ok (JObj initial_security), w').
Proof.
  destruct (audit_fails_only_after_status_zero
              (printing 1 audit_output) decode_audit (fun _ => "error")
              {| files := ∅; stdout := [] |}
              (printing_ordinary 1 audit_output) decode_audit_ordinary)
    as (v & w' & Hrun & _ & _ & Hnonzero).
  exists w'. rewrite Hrun.
  rewrite (Hnonzero {| returncode := 1; cp_stdout := audit_output |} eq_refl);
    [reflexivity | discriminate].
Defined.

Lemma backward_compatibility_is_constant_witness :
  exists v,
    returns_quietly (collect_compatibility_results decode_audit (fun _ => "error"))
                    {| files := {["compatibility_results.json" := audit_output]};
                       stdout := [] |} (JObj v) /\
    backward_compatible v.
Proof.
  destruct (backward_compatibility_is_constant
              decode_audit (fun _ => "error")
              {| files := {["compatibility_results.json" := audit_output]};
                 stdout := [] |}
              decode_audit_ordinary) as (v & Hrun & Hv & _).
  exists v. split; [exact Hrun | exact Hv].
Defined.

Lemma decode_sample_ordinary (text : string) :
  ordinary (CompareBenchmarks.decode_sample text).
Proof.
  intros e. unfold CompareBenchmarks.decode_sample.
  repeat (destruct (String.eqb text _); [discriminate|]).
  intros [= <-]. reflexivity.
Qed.

Lemma benchmarks_come_from_results_file_witness :
  returns_quietly
    (collect_performance_results CompareBenchmarks.decode_sample (fun _ => "error"))
    {| files := {["benchmark_results.json" := "current"]}; stdout := [] |}
    (JObj [("benchmarks",
            JArr [JObj [("name", JStr "x"); ("value", JNum 110); ("unit", JStr "ms")]]);
           ("memory_usage", JObj []); ("throughput", JObj [])]).
Proof.
  exact (benchmarks_come_from_results_file
           CompareBenchmarks.decode_sample (fun _ => "error")
           {| files := {["benchmark_results.json" := "current"]}; stdout := [] |}
           decode_sample_ordinary).
Defined.

End CollectorExamples.
